(** * The M3 codec of m3.py: schema, field descriptors, sections, references

    A shallow embedding of the parts of [src/m3.py] that the specification
    talks about, followed by the properties proved of them.

    Conventions of the embedding:
    - Python [int] is [Z]; [&], [|], [^] are [Z.land], [Z.lor], [Z.lxor].
    - Python [float] is the binary64 type [float] of the kernel.
    - [bytes] and [bytearray] are [list Z] with entries in 0..255.
    - [str] is [string]; its characters are the code points 0..255, which is
      all that [chr] of a byte produces and more than [encode("ascii")] takes.
    - a [dict] is a [gmap]; the attributes of an instance are a
      [gmap string value].
    - a raised exception is the [Raise] branch of [result]. *)

From Stdlib Require Import ZArith Floats String Ascii List Lia.
From stdpp Require Import gmap strings list fin_maps.

Local Open Scope Z_scope.
#[local] Set Warnings "-register-all,-inexact-float".

(** ** Exceptions and results *)

Inductive exn : Type :=
| Exception (msg : string)
| KeyError
| IndexError
| AttributeError
| TypeError
| ValueError
| OverflowError
| UnicodeEncodeError
| StructError.

Inductive result (A : Type) : Type :=
| Ok (a : A)
| Raise (e : exn).

Arguments Ok {A} a.
Arguments Raise {A} e.

#[global] Instance result_ret : MRet result := λ A a, Ok a.
#[global] Instance result_bind : MBind result :=
  λ A B f m, match m with Ok a => f a | Raise e => Raise e end.

(** [getattr], [d[k]]: a missing attribute or key raises. *)
Definition or_raise {A} (e : exn) (o : option A) : result A :=
  match o with Some a => Ok a | None => Raise e end.

(** A [for] loop whose body may raise, threading the loop state. *)
Fixpoint for_each {A S : Type} (l : list A) (body : S → A → result S) (s : S)
  : result S :=
  match l with
  | [] => Ok s
  | a :: l' => s' ← body s a; for_each l' body s'
  end.

(** ** Python sequences *)

(** The position that [l[i]] designates in a list of length [n]: negative
    indices count from the end, anything outside raises [IndexError]. *)
Definition py_position (n : nat) (i : Z) : result nat :=
  if (0 <=? i) && (i <? Z.of_nat n) then Ok (Z.to_nat i)
  else if (- Z.of_nat n <=? i) && (i <? 0) then Ok (Z.to_nat (Z.of_nat n + i))
  else Raise IndexError.

(** [l[i]] *)
Definition py_index {A} (l : list A) (i : Z) : result A :=
  pos ← py_position (length l) i;
  or_raise IndexError (l !! pos).

(** [range(lo, hi)] *)
Definition range (lo hi : Z) : list Z :=
  map (λ k, lo + Z.of_nat k) (seq 0 (Z.to_nat (hi - lo))).

(** [bytearray(n)]: [n] zero bytes. *)
Definition bytearray (n : Z) : result (list Z) :=
  if n <? 0 then Raise ValueError else Ok (replicate (Z.to_nat n) 0).

(** [buf[i] = v] for [0 <= i]. *)
Definition setitem (buf : list Z) (i : Z) (v : Z) : result (list Z) :=
  if (0 <=? i) && (i <? Z.of_nat (length buf)) then Ok (<[Z.to_nat i := v]> buf)
  else Raise IndexError.

(** [buf[lo:hi] = src] for [0 <= lo <= hi <= len(buf)]. *)
Definition slice_assign (buf : list Z) (lo hi : nat) (src : list Z) : list Z :=
  take lo buf ++ src ++ drop hi buf.

(** [struct.Struct(fmt).pack_into(buf, offset, ...)] once the values are
    turned into the bytes [bs] of the format: the bytes overwrite
    [buf[offset : offset + len(bs)]]; the buffer is never resized and a
    write that does not fit raises. *)
Definition pack_into (buf : list Z) (offset : Z) (bs : list Z) : result (list Z) :=
  if (0 <=? offset) && (offset + Z.of_nat (length bs) <=? Z.of_nat (length buf)) then
    Ok (take (Z.to_nat offset) buf ++ bs ++ drop (Z.to_nat offset + length bs) buf)
  else Raise StructError.

(** [struct.Struct(fmt).unpack_from(buf, offset)] for a format of [n]
    bytes: the [n] bytes at [offset]. *)
Definition unpack_from (n : nat) (buf : list Z) (offset : Z) : result (list Z) :=
  if (0 <=? offset) && (offset + Z.of_nat n <=? Z.of_nat (length buf)) then
    Ok (take n (drop (Z.to_nat offset) buf))
  else Raise StructError.

(** [chr(b)] and [ord(c)] *)
Definition chr (b : Z) : ascii := ascii_of_N (Z.to_N b).
Definition ord (c : ascii) : Z := Z.of_N (N_of_ascii c).

(** [s.encode("ascii")] *)
Fixpoint encode_ascii (s : string) : result (list Z) :=
  match s with
  | EmptyString => Ok []
  | String c s' =>
      if ord c <? 128 then bs ← encode_ascii s'; Ok (ord c :: bs)
      else Raise UnicodeEncodeError
  end.

(** [s[i]] for [0 <= i] on a string *)
Definition str_index (s : string) (i : nat) : result ascii :=
  or_raise IndexError (String.get i s).

(** ** Section sizes *)

Definition increaseToValidSectionSize (size : Z) : Z :=
  let blockSize := 16 in
  let incompleteBlockBytes := size mod blockSize in
  if negb (incompleteBlockBytes =? 0) then
    let missingBytesToCompleteBlock := blockSize - incompleteBlockBytes in
    size + missingBytesToCompleteBlock
  else size.

(** ** The schema: field descriptors and structure descriptions *)

(** The type strings of primitive fields, the keys of
    [primitiveFieldTypeSizes]. *)
Inductive primitiveType : Type :=
| T_uint32 | T_int32 | T_uint16 | T_int16 | T_uint8 | T_int8 | T_float | T_tag
| T_fixed8.

Definition primitiveFieldTypeSizes (t : primitiveType) : Z :=
  match t with
  | T_uint32 => 4 | T_int32 => 4 | T_uint16 => 2 | T_int16 => 2
  | T_uint8 => 1 | T_int8 => 1 | T_float => 4 | T_tag => 4 | T_fixed8 => 1
  end.

Definition structureNamesOfPrimitiveTypes : list string :=
  ["CHAR"; "U8__"; "REAL"; "I16_"; "U16_"; "I32_"; "U32_"; "FLAG"]%string.

(** The field classes, one constructor per class with the arguments of its
    [__init__]. The subclasses of [ReferenceField] differ in
    [validateContent] only and share the constructor. A reference field
    points to the [M3StructureHistory] of its referents, a shared object
    registered under its name in [structures]: the field keeps that name,
    which is all that the methods called through the pointer below read. *)
Inductive Field : Type :=
| TagField (name : string) (sinceVersion tillVersion : option Z)
| ReferenceField (name : string)
    (referenceStructureDescription : M3StructureDescription)
    (historyOfReferencedStructures : option string)
    (sinceVersion tillVersion : option Z)
| EmbeddedStructureField (name : string)
    (structureDescription : M3StructureDescription)
    (sinceVersion tillVersion : option Z)
| IntField (name : string) (typeString : primitiveType)
    (sinceVersion tillVersion : option Z)
    (defaultValue : Z) (expectedValue : option Z) (bitMaskMap : gmap string Z)
| FloatField (name : string) (typeString : primitiveType)
    (sinceVersion tillVersion : option Z)
    (defaultValue : float) (expectedValue : option float)
| Fixed8Field (name : string) (typeString : primitiveType)
    (sinceVersion tillVersion : option Z)
    (defaultValue : float) (expectedValue : option float)
| UnknownBytesField (name : string) (size : Z)
    (sinceVersion tillVersion : option Z)
    (defaultValue : list Z) (expectedValue : option (list Z))
with M3StructureDescription : Type :=
| Build_M3StructureDescription (structureName : string) (structureVersion : Z)
    (fields : list Field) (size : Z).

Definition structureName (d : M3StructureDescription) : string :=
  match d with Build_M3StructureDescription n _ _ _ => n end.
Definition structureVersion (d : M3StructureDescription) : Z :=
  match d with Build_M3StructureDescription _ v _ _ => v end.
Definition fields (d : M3StructureDescription) : list Field :=
  match d with Build_M3StructureDescription _ _ fs _ => fs end.
Definition size (d : M3StructureDescription) : Z :=
  match d with Build_M3StructureDescription _ _ _ sz => sz end.

(** [self.isPrimitive = self.structureName in structureNamesOfPrimitiveTypes] *)
Definition is_primitive_name (n : string) : bool :=
  bool_decide (n ∈ structureNamesOfPrimitiveTypes).
Definition isPrimitive (d : M3StructureDescription) : bool :=
  is_primitive_name (structureName d).

(** The attributes every field has: [name], [sinceVersion], [tillVersion]
    and the [size] its constructor computes. *)
Definition field_name (f : Field) : string :=
  match f with
  | TagField n _ _ | ReferenceField n _ _ _ _ | EmbeddedStructureField n _ _ _
  | IntField n _ _ _ _ _ _ | FloatField n _ _ _ _ _ | Fixed8Field n _ _ _ _ _
  | UnknownBytesField n _ _ _ _ _ => n
  end.

Definition field_sinceVersion (f : Field) : option Z :=
  match f with
  | TagField _ s _ | ReferenceField _ _ _ s _ | EmbeddedStructureField _ _ s _
  | IntField _ _ s _ _ _ _ | FloatField _ _ s _ _ _ | Fixed8Field _ _ s _ _ _
  | UnknownBytesField _ _ s _ _ _ => s
  end.

Definition field_tillVersion (f : Field) : option Z :=
  match f with
  | TagField _ _ t | ReferenceField _ _ _ _ t | EmbeddedStructureField _ _ _ t
  | IntField _ _ _ t _ _ _ | FloatField _ _ _ t _ _ | Fixed8Field _ _ _ t _ _
  | UnknownBytesField _ _ _ t _ _ => t
  end.

Definition field_size (f : Field) : Z :=
  match f with
  | TagField _ _ _ => 4
  | ReferenceField _ referenceStructureDescription _ _ _ =>
      size referenceStructureDescription
  | EmbeddedStructureField _ structureDescription _ _ => size structureDescription
  | IntField _ t _ _ _ _ _ | FloatField _ t _ _ _ _ | Fixed8Field _ t _ _ _ _ =>
      primitiveFieldTypeSizes t
  | UnknownBytesField _ sz _ _ _ _ => sz
  end.

(** [M3StructureDescription.__init__]: the sizes of the fields are summed
    and compared with the specified size. *)
Definition M3StructureDescription_init (structureName : string)
    (structureVersion : Z) (fields : list Field) (specifiedSize : Z)
  : result M3StructureDescription :=
  let calculatedSize := foldl (λ acc field, acc + field_size field) 0 fields in
  if negb (calculatedSize =? specifiedSize) then
    Raise (Exception "Size mismatch")
  else
    Ok (Build_M3StructureDescription structureName structureVersion fields
          specifiedSize).

(** [self.nameToFieldMap], filled from [fields] by the constructor. *)
Definition nameToFieldMap (d : M3StructureDescription) : gmap string Field :=
  foldl (λ m field, <[field_name field := field]> m) ∅ (fields d).

(** ** Structure histories *)

Record M3StructureHistory : Type := {
  name : string;
  versionToSizeMap : gmap Z Z;
  allFields : list Field;
  versionToStructureDescriptionMap : gmap Z M3StructureDescription
}.

(** [M3StructureHistory.__init__] *)
Definition M3StructureHistory_init (name : string) (versionToSizeMap : gmap Z Z)
    (allFields : list Field) : M3StructureHistory :=
  {| name := name; versionToSizeMap := versionToSizeMap; allFields := allFields;
     versionToStructureDescriptionMap := ∅ |}.

(** The test of the loop body of [getVersion]. *)
Definition includeField (version : Z) (field : Field) : bool :=
  let includeField := true in
  let includeField :=
    match field_sinceVersion field with
    | Some since => if version <? since then false else includeField
    | None => includeField
    end in
  let includeField :=
    match field_tillVersion field with
    | Some till => if till <? version then false else includeField
    | None => includeField
    end in
  includeField.

(** [getVersion]: the description, [None] for a version without a size, or
    the exception of the constructor; together with the history, whose
    cache the call may have extended. *)
Definition getVersion (self : M3StructureHistory) (version : Z)
  : result (option M3StructureDescription) * M3StructureHistory :=
  match versionToStructureDescriptionMap self !! version with
  | Some structure => (Ok (Some structure), self)
  | None =>
      let usedFields :=
        foldl (λ used field,
                 if includeField version field then used ++ [field] else used)
              [] (allFields self) in
      match versionToSizeMap self !! version with
      | None => (Ok None, self)
      | Some specifiedSize =>
          match M3StructureDescription_init (name self) version usedFields
                  specifiedSize with
          | Raise e => (Raise e, self)
          | Ok structure =>
              (Ok (Some structure),
               {| name := name self;
                  versionToSizeMap := versionToSizeMap self;
                  allFields := allFields self;
                  versionToStructureDescriptionMap :=
                    <[version := structure]>
                      (versionToStructureDescriptionMap self) |})
          end
      end
  end.

(** ** Instances and values *)

(** Modelled from the spec: the schema file [structures.xml] that declares
    the structures [Reference] and [MD34IndexEntry] is not among the
    sources. The spec gives the reference record as
    [entries:u32, index:u32, flags:u32], with [flags] defaulted to 0 on
    construction, and the index entry as
    [tag, offset:u32, repetitions:u32, version:u32]. An instance of either
    structure is the record of its attributes. *)
Module Reference.
Record t : Type := { entries : Z; index : Z; flags : Z }.
End Reference.

Module IndexEntry.
Record t : Type := { tag : string; offset : Z; repetitions : Z; version : Z }.
End IndexEntry.

(** What an attribute of an instance, or the content of a section, can
    hold. [VStruct] is an [M3Structure]: its description and attributes. *)
Inductive value : Type :=
| VNone
| VInt (z : Z)
| VFloat (f : float)
| VStr (s : string)
| VBytes (b : list Z)
| VList (l : list value)
| VReference (r : Reference.t)
| VStruct (structureDescription : M3StructureDescription)
    (attrs : gmap string value).

Record M3Structure : Type := {
  structureDescription : M3StructureDescription;
  attrs : gmap string value
}.

(** [setattr(owner, name, v)] and [getattr(owner, name)] *)
Definition setattr (owner : M3Structure) (name : string) (v : value) : M3Structure :=
  {| structureDescription := structureDescription owner;
     attrs := <[name := v]> (attrs owner) |}.

Definition getattr (owner : M3Structure) (name : string) : result value :=
  or_raise AttributeError (attrs owner !! name).

(** An object on the heap: [id(o)] and what it currently holds. The save
    path tells objects apart by [id], not by what they hold. *)
Record object : Type := {
  object_id : positive;
  object_val : value
}.

(** [len(v)] *)
Definition py_len (v : value) : result Z :=
  match v with
  | VStr s => Ok (Z.of_nat (String.length s))
  | VBytes b => Ok (Z.of_nat (length b))
  | VList l => Ok (Z.of_nat (length l))
  | _ => Raise TypeError
  end.

(** [for value in v] *)
Definition py_iter (v : value) : result (list value) :=
  match v with
  | VList l => Ok l
  | VBytes b => Ok (map VInt b)
  | VStr s => Ok (map (λ c, VStr (String c EmptyString)) (list_ascii_of_string s))
  | _ => Raise TypeError
  end.

(** [M3StructureHistory.createEmptyArray], which reads [self.name] only. *)
Definition createEmptyArray (self_name : string) : value :=
  if String.eqb self_name "CHAR" then VNone (* even no terminating character *)
  else if String.eqb self_name "U8__" then VBytes []
  else VList [].

(** [M3StructureDescription.countInstances] *)
Definition countInstances (self : M3StructureDescription) (instances : value)
  : result Z :=
  if String.eqb (structureName self) "CHAR" then
    match instances with
    | VNone => Ok 0
    | _ => n ← py_len instances; Ok (n + 1) (* +1 terminating null character *)
    end
  else
    match instances with
    | VStr _ | VBytes _ | VList _ => py_len instances
    | _ => Raise (Exception "Can't measure the length")
    end.

(** [M3StructureDescription.countBytesRequiredForInstances] *)
Definition countBytesRequiredForInstances (self : M3StructureDescription)
    (instances : value) : result Z :=
  if String.eqb (structureName self) "CHAR" then
    n ← py_len instances; Ok (n + 1) (* +1 for terminating character *)
  else
    n ← countInstances self instances; Ok (size self * n).

(** [M3StructureDescription.instancesToBytes]. The argument [writeToBuffer]
    stands for the two in-place writers of one instance into the
    preallocated buffer, [fields[0].structFormat.pack_into(rawBytes, offset,
    value)] of a primitive structure and [value.writeToBuffer(rawBytes,
    offset)] of the others. *)
Definition instancesToBytes
    (writeToBuffer : M3StructureDescription → value → list Z → Z → result (list Z))
    (self : M3StructureDescription) (instances : value) : result (list Z) :=
  if String.eqb (structureName self) "CHAR" then
    match instances with
    | VStr s => bs ← encode_ascii s; Ok (bs ++ [0])
    | _ => Raise (Exception "Expected a string")
    end
  else if String.eqb (structureName self) "U8__" then
    match instances with
    | VBytes b => Ok b
    | _ => Raise (Exception "Expected a byte array")
    end
  else
    n ← py_len instances;
    rawBytes ← bytearray (size self * n);
    values ← py_iter instances;
    '(rawBytes, _) ←
      for_each values
        (λ '(rawBytes, offset) value,
           rawBytes ← writeToBuffer self value rawBytes offset;
           Ok (rawBytes, offset + size self))
        (rawBytes, 0);
    Ok rawBytes.

(** ** Sections *)

(** A section "has fields indexEntry and structureDescription and sometimes
    also the fields rawBytes and content". *)
Record Section : Type := {
  timesReferenced : Z;
  indexEntry : option IndexEntry.t;
  sectionDescription : option M3StructureDescription; (* structureDescription *)
  rawBytes : option (list Z);
  content : option object
}.

(** [Section.__init__] *)
Definition Section_init : Section :=
  {| timesReferenced := 0; indexEntry := None; sectionDescription := None;
     rawBytes := None; content := None |}.

Definition set_rawBytes (self : Section) (bs : list Z) : Section :=
  {| timesReferenced := timesReferenced self; indexEntry := indexEntry self;
     sectionDescription := sectionDescription self; rawBytes := Some bs;
     content := content self |}.

Definition set_timesReferenced (self : Section) (n : Z) : Section :=
  {| timesReferenced := n; indexEntry := indexEntry self;
     sectionDescription := sectionDescription self; rawBytes := rawBytes self;
     content := content self |}.

Section SectionBytes.
Variable writeToBuffer :
  M3StructureDescription → value → list Z → Z → result (list Z).

Definition determineRawBytesWithData (self : Section) : result (list Z) :=
  d ← or_raise AttributeError (sectionDescription self);
  c ← or_raise AttributeError (content self);
  instancesToBytes writeToBuffer d (object_val c).

Definition bytesRequiredForContent (self : Section) : result Z :=
  d ← or_raise AttributeError (sectionDescription self);
  c ← or_raise AttributeError (content self);
  countBytesRequiredForInstances d (object_val c).

Definition determineFieldRawBytes (self : Section) : result Section :=
  minRawBytes ← determineRawBytesWithData self;
  required ← bytesRequiredForContent self;
  if negb (Z.of_nat (length minRawBytes) =? required) then
    Raise (Exception "Section size calculation failed")
  else
    let sectionSize := increaseToValidSectionSize (Z.of_nat (length minRawBytes)) in
    if Z.of_nat (length minRawBytes) =? sectionSize then
      Ok (set_rawBytes self minRawBytes)
    else
      rawBytes ← bytearray sectionSize;
      let rawBytes := slice_assign rawBytes 0 (length minRawBytes) minRawBytes in
      rawBytes ←
        for_each (range (Z.of_nat (length minRawBytes)) sectionSize)
          (λ rawBytes i, setitem rawBytes i 0xaa) rawBytes;
      Ok (set_rawBytes self rawBytes).
End SectionBytes.

(** ** Field descriptors: reading and writing *)

(** [TagField.readFromBuffer]; the format is [<4B]. *)
Definition TagField_readFromBuffer (self : Field) (owner : M3Structure)
    (buffer : list Z) (offset : Z) (checkExpectedValue : bool)
  : result M3Structure :=
  b ← unpack_from 4 buffer offset;
  match b with
  | [b0; b1; b2; b3] =>
      let s :=
        if b3 =? 0 then
          String (chr b2) (String (chr b1) (String (chr b0) EmptyString))
        else
          String (chr b3) (String (chr b2) (String (chr b1)
            (String (chr b0) EmptyString))) in
      Ok (setattr owner (field_name self) (VStr s))
  | _ => Raise StructError
  end.

(** [TagField.writeToBuffer]: the buffer after the write. *)
Definition TagField_writeToBuffer (self : Field) (owner : M3Structure)
    (buffer : list Z) (offset : Z) : result (list Z) :=
  v ← getattr owner (field_name self);
  match v with
  | VStr s =>
      b ← (if Z.of_nat (String.length s) =? 4 then
             s3 ← str_index s 3; s2 ← str_index s 2;
             s1 ← str_index s 1; s0 ← str_index s 0;
             encode_ascii
               (String s3 (String s2 (String s1 (String s0 EmptyString))))
           else
             s2 ← str_index s 2; s1 ← str_index s 1; s0 ← str_index s 0;
             bs ← encode_ascii (String s2 (String s1 (String s0 EmptyString)));
             Ok (bs ++ [0]));
      pack_into buffer offset b
  | _ => Raise TypeError
  end.

(** Python's conversion of an [int] to a [float], for an [int] that fits
    63 bits. *)
Definition float_of_int (z : Z) : float :=
  if 0 <=? z then PrimFloat.of_uint63 (Uint63.of_Z z)
  else PrimFloat.opp (PrimFloat.of_uint63 (Uint63.of_Z (- z))).

(** [round(x)] of a float: the nearest integer, ties to the even one;
    it raises on an infinity and on a NaN. *)
Definition py_round (x : float) : result Z :=
  match Prim2SF x with
  | S754_zero _ => Ok 0
  | S754_infinity _ => Raise OverflowError
  | S754_nan => Raise ValueError
  | S754_finite sign m e =>
      let magnitude :=
        if 0 <=? e then Z.pos m * 2 ^ e
        else
          let d := 2 ^ (- e) in
          let q := Z.pos m / d in
          let r := Z.pos m mod d in
          if 2 * r <? d then q
          else if d <? 2 * r then q + 1
          else if Z.even q then q else q + 1 in
      Ok (if sign then - magnitude else magnitude)
  end.

(** Packing an [int] with the format [<B]. *)
Definition pack_B (intValue : Z) : result (list Z) :=
  if (0 <=? intValue) && (intValue <=? 255) then Ok [intValue]
  else Raise StructError.

(** The arithmetic of the two methods of [Fixed8Field]. *)
Definition Fixed8_decode (intValue : Z) : float :=
  (float_of_int intValue / 255 * 2 - 1)%float.

Definition Fixed8_encode (floatValue : float) : result Z :=
  py_round ((floatValue + 1) / 2 * 255)%float.

(** [Fixed8Field.readFromBuffer]; the format is [<B]. *)
Definition Fixed8Field_readFromBuffer (self : Field) (owner : M3Structure)
    (buffer : list Z) (offset : Z) (checkExpectedValue : bool)
  : result M3Structure :=
  match self with
  | Fixed8Field name _ _ _ _ expectedValue =>
      b ← unpack_from 1 buffer offset;
      match b with
      | [intValue] =>
          let floatValue := Fixed8_decode intValue in
          if checkExpectedValue
             && match expectedValue with
                | Some e => negb (PrimFloat.eqb floatValue e)
                | None => false
                end
          then Raise (Exception "Expected that field has always the value")
          else Ok (setattr owner name (VFloat floatValue))
      | _ => Raise StructError
      end
  | _ => Raise AttributeError
  end.

(** [Fixed8Field.writeToBuffer]: the buffer after the write. An [int] in
    the attribute is converted as Python does; one that does not fit 63
    bits cannot be packed into a byte either, and the call raises. *)
Definition Fixed8Field_writeToBuffer (self : Field) (owner : M3Structure)
    (buffer : list Z) (offset : Z) : result (list Z) :=
  match self with
  | Fixed8Field name _ _ _ _ _ =>
      v ← getattr owner name;
      intValue ←
        match v with
        | VFloat floatValue => Fixed8_encode floatValue
        | VInt z =>
            if (- 2 ^ 62 <? z) && (z <? 2 ^ 62) then
              py_round (float_of_int (z + 1) / 2 * 255)%float
            else Raise OverflowError
        | _ => Raise TypeError
        end;
      bs ← pack_B intValue;
      pack_into buffer offset bs
  | _ => Raise AttributeError
  end.

(** ** Named bits of an int field *)

(** [IntField.getNamedBit] *)
Definition IntField_getNamedBit (self : Field) (owner : M3Structure)
    (bitName : string) : result bool :=
  match self with
  | IntField name _ _ _ _ _ bitMaskMap =>
      mask ← or_raise KeyError (bitMaskMap !! bitName);
      v ← getattr owner name;
      match v with
      | VInt intValue => Ok (negb (Z.land intValue mask =? 0))
      | _ => Raise TypeError
      end
  | _ => Raise AttributeError
  end.

(** [IntField.setNamedBit]: the owner after the call. *)
Definition IntField_setNamedBit (self : Field) (owner : M3Structure)
    (bitName : string) (value : bool) : result M3Structure :=
  match self with
  | IntField name _ _ _ _ _ bitMaskMap =>
      mask ← or_raise KeyError (bitMaskMap !! bitName);
      v ← getattr owner name;
      match v with
      | VInt intValue =>
          if value then Ok (setattr owner name (VInt (Z.lor intValue mask)))
          else if negb (Z.land intValue mask =? 0) then
            Ok (setattr owner name (VInt (Z.lxor intValue mask)))
          else Ok owner
      | _ => Raise TypeError
      end
  | _ => Raise AttributeError
  end.

(** [M3Structure.getNamedBit] and [M3Structure.setNamedBit] *)
Definition getNamedBit (self : M3Structure) (fieldName bitName : string)
  : result bool :=
  field ← or_raise KeyError
            (nameToFieldMap (structureDescription self) !! fieldName);
  IntField_getNamedBit field self bitName.

Definition setNamedBit (self : M3Structure) (fieldName bitName : string)
    (value : bool) : result M3Structure :=
  field ← or_raise KeyError
            (nameToFieldMap (structureDescription self) !! fieldName);
  IntField_setNamedBit field self bitName value.

(** ** Reference fields: defaults and resolution *)


(** [ReferenceField.resolveIndexReferences]. The method changes the owner
    and the sections in place, and what it changed before it raises stays
    changed: the outcome comes with both as the call left them. An
    attribute holds what the content object of the section holds. *)
Definition ReferenceField_resolveIndexReferences (self : Field)
    (owner : M3Structure) (sections : list Section)
  : result unit * M3Structure * list Section :=
  match self with
  | ReferenceField name _ historyOfReferencedStructures _ _ =>
      match getattr owner name with
      | Raise e => (Raise e, owner, sections)
      | Ok (VReference ref) =>
          if Reference.entries ref =? 0 then
            let referencedObjects :=
              match historyOfReferencedStructures with
              | None => VList []
              | Some history => createEmptyArray history
              end in
            (Ok tt, setattr owner name referencedObjects, sections)
          else
            match py_position (length sections) (Reference.index ref) with
            | Raise e => (Raise e, owner, sections)
            | Ok pos =>
                match sections !! pos with
                | None => (Raise IndexError, owner, sections)
                | Some referencedSection =>
                    let referencedSection :=
                      set_timesReferenced referencedSection
                        (timesReferenced referencedSection + 1) in
                    let sections := <[pos := referencedSection]> sections in
                    match indexEntry referencedSection with
                    | None => (Raise AttributeError, owner, sections)
                    | Some indexEntry =>
                        if IndexEntry.repetitions indexEntry
                           <? Reference.entries ref then
                          (Raise (Exception
                             "references more elements then there actually are"),
                           owner, sections)
                        else
                          match content referencedSection with
                          | None => (Raise AttributeError, owner, sections)
                          | Some referencedObjects =>
                              match historyOfReferencedStructures with
                              | Some expectedTagName =>
                                  let actualTagName := IndexEntry.tag indexEntry in
                                  if negb (String.eqb actualTagName expectedTagName)
                                  then
                                    (Raise (Exception
                                       "Expected ref point to another tag"),
                                     owner, sections)
                                  else
                                    (Ok tt,
                                     setattr owner name
                                       (object_val referencedObjects),
                                     sections)
                              | None =>
                                  (Raise (Exception
                                     "Field can be marked as a reference"),
                                   owner, sections)
                              end
                          end
                    end
                end
            end
      | Ok _ => (Raise AttributeError, owner, sections)
      end
  | _ => (Raise AttributeError, owner, sections)
  end.

(** ** The index maker of the save path *)

(** [referenceStructureDescription.createInstance()]: a reference with
    every field at its default. *)
Definition Reference_createInstance
    (referenceStructureDescription : M3StructureDescription) : Reference.t :=
  {| Reference.entries := 0; Reference.index := 0; Reference.flags := 0 |}.

Record IndexReferenceSourceAndSectionListMaker : Type := {
  objectsIdToIndexReferenceMap : gmap positive Reference.t;
  offset : Z;
  nextFreeIndexPosition : Z;
  sections : list Section
}.

(** [IndexReferenceSourceAndSectionListMaker.__init__] *)
Definition IndexReferenceSourceAndSectionListMaker_init
  : IndexReferenceSourceAndSectionListMaker :=
  {| objectsIdToIndexReferenceMap := ∅; offset := 0;
     nextFreeIndexPosition := 0; sections := [] |}.

(** [getIndexReferenceTo]: the reference it returns and the maker after the
    call. The size of the new section does not depend on the writer of
    instances, so [bytesRequiredForContent] gets none. *)
Definition getIndexReferenceTo (self : IndexReferenceSourceAndSectionListMaker)
    (objectsToSave : object)
    (referenceStructureDescription : M3StructureDescription)
    (structureDescription : option M3StructureDescription)
  : result (Reference.t * IndexReferenceSourceAndSectionListMaker) :=
  match objectsIdToIndexReferenceMap self !! object_id objectsToSave with
  | Some indexReference => Ok (indexReference, self)
  | None =>
      repetitions ←
        match structureDescription with
        | None => Ok 0
        | Some d => countInstances d (object_val objectsToSave)
        end;
      let indexReference :=
        Reference_createInstance referenceStructureDescription in
      let indexReference :=
        {| Reference.entries := repetitions;
           Reference.index := nextFreeIndexPosition self;
           Reference.flags := Reference.flags indexReference |} in
      if 0 <? repetitions then
        d ← or_raise AttributeError structureDescription;
        let indexEntry :=
          {| IndexEntry.tag := structureName d;
             IndexEntry.offset := offset self;
             IndexEntry.repetitions := repetitions;
             IndexEntry.version := structureVersion d |} in
        let section :=
          {| timesReferenced := 0;
             indexEntry := Some indexEntry;
             sectionDescription := Some d;
             rawBytes := None;
             content := Some objectsToSave |} in
        totalBytes ← bytesRequiredForContent section;
        let totalBytes := increaseToValidSectionSize totalBytes in
        Ok (indexReference,
            {| objectsIdToIndexReferenceMap :=
                 <[object_id objectsToSave := indexReference]>
                   (objectsIdToIndexReferenceMap self);
               offset := offset self + totalBytes;
               nextFreeIndexPosition := nextFreeIndexPosition self + 1;
               sections := sections self ++ [section] |})
      else Ok (indexReference, self)
  end.

(** A save as the index maker sees it: the calls of [getIndexReferenceTo]
    in the order in which the walk over the model makes them, each with the
    object and the structure description of its content. *)
Definition request : Type := object * option M3StructureDescription.

Fixpoint getIndexReferences (self : IndexReferenceSourceAndSectionListMaker)
    (referenceStructureDescription : M3StructureDescription)
    (requests : list request)
  : result (list Reference.t * IndexReferenceSourceAndSectionListMaker) :=
  match requests with
  | [] => Ok ([], self)
  | (objectsToSave, structureDescription) :: requests' =>
      '(indexReference, self) ←
        getIndexReferenceTo self objectsToSave referenceStructureDescription
          structureDescription;
      '(indexReferences, self) ←
        getIndexReferences self referenceStructureDescription requests';
      Ok (indexReference :: indexReferences, self)
  end.

(** The repetitions that a request asks for, which [getIndexReferenceTo]
    computes when the object is not yet known to the maker. *)
Definition requestedRepetitions (r : request) : result Z :=
  match snd r with
  | None => Ok 0
  | Some d => countInstances d (object_val (fst r))
  end.

(** ** Definitions that follow the wording of the specification *)

(** "fields whose version range contains it": the range from
    [since-version] to [till-version], either end open when absent. *)
Definition versionInRange (version : Z) (field : Field) : bool :=
  match field_sinceVersion field with
  | Some since => since <=? version
  | None => true
  end
  && match field_tillVersion field with
     | Some till => version <=? till
     | None => true
     end.

Definition fieldsVisibleAt (version : Z) (allFields : list Field) : list Field :=
  List.filter (versionInRange version) allFields.

(** "the sum of included field sizes" *)
Definition sumOfFieldSizes (fields : list Field) : Z :=
  fold_right Z.add 0 (map field_size fields).

(** What the cache of a history holds between calls: descriptions of
    declared versions, as [getVersion] builds them. *)
Definition cache_wf (h : M3StructureHistory) : Prop :=
  ∀ (version : Z) (d : M3StructureDescription),
    versionToStructureDescriptionMap h !! version = Some d →
    versionToSizeMap h !! version = Some (size d)
    ∧ d = Build_M3StructureDescription (name h) version
            (fieldsVisibleAt version (allFields h)) (size d)
    ∧ sumOfFieldSizes (fieldsVisibleAt version (allFields h)) = size d.

(** ** Concrete inputs used by the examples below *)

(** A structure with one [uint32] field [flags] that names three bits: one
    with a single-bit mask, one with a two-bit mask and one with the mask
    [0x0], all of which the schema reader accepts. *)
Definition example_flagsField : Field :=
  IntField "flags" T_uint32 None None 0 None
    (<["visible" := 0x4]> (<["mode" := 0x3]> (<["never" := 0x0]> ∅))).

Definition example_flagsDescription : M3StructureDescription :=
  Build_M3StructureDescription "DEMO" 0 [TagField "id" None None; example_flagsField] 8.

Definition example_flagsOwner (intValue : Z) : M3Structure :=
  {| structureDescription := example_flagsDescription;
     attrs := <["id" := VStr "DEMO"]> (<["flags" := VInt intValue]> ∅) |}.

(** An instance with a tag field [tag] that holds [s]. *)
Definition example_tagField : Field := TagField "tag" None None.

Definition example_tagOwner (s : string) : M3Structure :=
  {| structureDescription :=
       Build_M3StructureDescription "DEMO" 0 [example_tagField] 4;
     attrs := <["tag" := VStr s]> ∅ |}.

(** An instance with a fixed8 field [x], which has no expected value. *)
Definition example_fixed8Field : Field :=
  Fixed8Field "x" T_fixed8 None None 0 None.

Definition example_fixed8Owner (v : value) : M3Structure :=
  {| structureDescription :=
       Build_M3StructureDescription "DEMO" 0 [example_fixed8Field] 1;
     attrs := <["x" := v]> ∅ |}.

(** Does encoding what [b] decodes to give [b] back? *)
Definition Fixed8_roundtrips (b : Z) : bool :=
  match Fixed8_encode (Fixed8_decode b) with
  | Ok r => r =? b
  | Raise _ => false
  end.

(** The structure [Reference] in version 0, three [uint32] fields, and an
    instance with a reference field [name] to [CHAR] that holds [v]. *)
Definition example_ReferenceV0 : M3StructureDescription :=
  Build_M3StructureDescription "Reference" 0
    [IntField "entries" T_uint32 None None 0 None ∅;
     IntField "index" T_uint32 None None 0 None ∅;
     IntField "flags" T_uint32 None None 0 None ∅] 12.

Definition example_nameField : Field :=
  ReferenceField "name" example_ReferenceV0 (Some "CHAR"%string) None None.

Definition example_nameOwner (v : value) : M3Structure :=
  {| structureDescription :=
       Build_M3StructureDescription "DEMO" 0 [example_nameField] 12;
     attrs := <["name" := v]> ∅ |}.

Definition example_CHAR : M3StructureDescription :=
  Build_M3StructureDescription "CHAR" 0
    [IntField "value" T_uint8 None None 0 None ∅] 1.

(** Two sections as [loadSections] leaves them: one tagged [DEMO], and one
    tagged [CHAR] that holds the string [abc] and its terminator. *)
Definition example_loadedSections : list Section :=
  [ {| timesReferenced := 0;
       indexEntry := Some {| IndexEntry.tag := "DEMO"; IndexEntry.offset := 0;
                             IndexEntry.repetitions := 1;
                             IndexEntry.version := 0 |};
       sectionDescription := None; rawBytes := None;
       content := Some {| object_id := 1; object_val := VList [] |} |};
    {| timesReferenced := 0;
       indexEntry := Some {| IndexEntry.tag := "CHAR"; IndexEntry.offset := 16;
                             IndexEntry.repetitions := 4;
                             IndexEntry.version := 0 |};
       sectionDescription := Some example_CHAR; rawBytes := None;
       content := Some {| object_id := 2; object_val := VStr "abc" |} |} ].

(** ** The invariant of the index maker *)

(** [id] of the content object of a section. *)
Definition contentId (s : Section) : option positive :=
  object_id <$> content s.

(** What holds of a maker between calls of [getIndexReferenceTo]: the next
    free index is the number of sections; every reference the maker
    remembers for an object has entries and points to the section of that
    object; and every section is the one remembered for its object. *)
Definition maker_wf (m : IndexReferenceSourceAndSectionListMaker) : Prop :=
  nextFreeIndexPosition m = Z.of_nat (length (sections m))
  ∧ (∀ (i : positive) (r : Reference.t),
       objectsIdToIndexReferenceMap m !! i = Some r →
       0 < Reference.entries r
       ∧ 0 ≤ Reference.index r
       ∧ ∃ sec, sections m !! Z.to_nat (Reference.index r) = Some sec
                ∧ contentId sec = Some i)
  ∧ (∀ (k : nat) (sec : Section),
       sections m !! k = Some sec →
       ∃ (i : positive) (r : Reference.t),
         contentId sec = Some i
         ∧ objectsIdToIndexReferenceMap m !! i = Some r
         ∧ Reference.index r = Z.of_nat k).

(** A structure of 32-bit integers, and three requests of a save: an empty
    list, a list of one integer, and the same empty list again. *)
Definition example_I32 : M3StructureDescription :=
  Build_M3StructureDescription "I32_" 0
    [IntField "value" T_int32 None None 0 None ∅] 4.

Definition example_emptyList : object :=
  {| object_id := 1; object_val := VList [] |}.

Definition example_oneInt : object :=
  {| object_id := 2; object_val := VList [VInt 7] |}.

Definition example_otherInt : object :=
  {| object_id := 3; object_val := VList [VInt 7] |}.

Definition example_requests : list request :=
  [(example_emptyList, None); (example_oneInt, Some example_I32);
   (example_emptyList, None)].

Definition example_sharedRequests : list request :=
  [(example_oneInt, Some example_I32); (example_otherInt, Some example_I32);
   (example_oneInt, Some example_I32)].

(** A writer of one instance for structures of bytes: the format [<B]. *)
Definition example_writer (d : M3StructureDescription) (v : value)
    (buf : list Z) (off : Z) : result (list Z) :=
  match v with
  | VInt z => bs ← pack_B z; pack_into buf off bs
  | _ => Raise TypeError
  end.

(** A section of the save path whose content, a string of 36 characters
    and its terminator, requires 37 bytes. *)
Definition example_stringSection : Section :=
  {| timesReferenced := 0;
     indexEntry := Some {| IndexEntry.tag := "CHAR"; IndexEntry.offset := 0;
                           IndexEntry.repetitions := 37;
                           IndexEntry.version := 0 |};
     sectionDescription := Some example_CHAR;
     rawBytes := None;
     content := Some {| object_id := 1;
                        object_val :=
                          VStr "abcdefghijklmnopqrstuvwxyz0123456789" |} |}.

(** A history with three fields, the last one since version 1, and three
    declared versions, of which version 2 declares a size that its fields
    do not have. *)
Definition example_history : M3StructureHistory :=
  M3StructureHistory_init "DEMO"
    (<[0 := 8]> (<[1 := 12]> (<[2 := 99]> ∅)))
    [TagField "id" None None;
     IntField "flags" T_uint32 None None 0 None ∅;
     IntField "extra" T_uint32 (Some 1) None 0 None ∅].

(** * Further definitions *)

(** ** Int fields and fields of unknown bytes *)

(** [IntField.intTypeToMinValue] and [IntField.intTypeToMaxValue]; the type
    strings that are no keys of the two tables make [IntField.__init__]
    raise [KeyError], so no int field has them. *)
Definition intTypeToMinValue (t : primitiveType) : option Z :=
  match t with
  | T_int16 => Some (- Z.shiftl 1 15)
  | T_uint16 => Some 0
  | T_int32 => Some (- Z.shiftl 1 31)
  | T_uint32 => Some 0
  | T_int8 => Some (- Z.shiftl 1 7)
  | T_uint8 => Some 0
  | _ => None
  end.

Definition intTypeToMaxValue (t : primitiveType) : option Z :=
  match t with
  | T_int16 => Some (Z.shiftl 1 15 - 1)
  | T_uint16 => Some (Z.shiftl 1 16 - 1)
  | T_int32 => Some (Z.shiftl 1 31 - 1)
  | T_uint32 => Some (Z.shiftl 1 32 - 1)
  | T_int8 => Some (Z.shiftl 1 7 - 1)
  | T_uint8 => Some (Z.shiftl 1 8 - 1)
  | _ => None
  end.

(** The integer formats of [struct]: [I], [i], [H], [h], [B], [b] are the
    unsigned and the signed integers of 4, 2 and 1 bytes, here with the
    prefix [<], little-endian. [primitiveFieldTypeFormats] on the int
    types: is the format signed, and how many bytes has it. *)
Definition intFormat (t : primitiveType) : option (bool * nat) :=
  match t with
  | T_uint32 => Some (false, 4%nat)
  | T_int32 => Some (true, 4%nat)
  | T_uint16 => Some (false, 2%nat)
  | T_int16 => Some (true, 2%nat)
  | T_uint8 => Some (false, 1%nat)
  | T_int8 => Some (true, 1%nat)
  | _ => None
  end.

(** The [n] little-endian bytes of [v], and the number they spell. *)
Fixpoint le_bytes (n : nat) (v : Z) : list Z :=
  match n with
  | O => []
  | S n' => v mod 256 :: le_bytes n' (v / 256)
  end.

Fixpoint le_value (bs : list Z) : Z :=
  match bs with
  | [] => 0
  | b :: bs' => b + 256 * le_value bs'
  end.

(** [struct.pack] of an integer format: a value out of the range of the
    format, or one that is no integer, raises [struct.error]; a signed
    value is stored in two's complement. *)
Definition struct_pack_int (signed : bool) (n : nat) (v : value)
  : result (list Z) :=
  match v with
  | VInt z =>
      let bits := 8 * Z.of_nat n in
      let lo := if signed then - 2 ^ (bits - 1) else 0 in
      let hi := if signed then 2 ^ (bits - 1) - 1 else 2 ^ bits - 1 in
      if (lo <=? z) && (z <=? hi) then Ok (le_bytes n (z mod 2 ^ bits))
      else Raise StructError
  | _ => Raise StructError
  end.

(** [struct.unpack] of an integer format on the bytes of the format. *)
Definition struct_unpack_int (signed : bool) (bs : list Z) : Z :=
  let bits := 8 * Z.of_nat (length bs) in
  let u := le_value bs in
  if signed && (2 ^ (bits - 1) <=? u) then u - 2 ^ bits else u.

(** [PrimitiveField.readFromBuffer] as [IntField] inherits it. The method
    does not look at [checkExpectedValue]. *)
Definition IntField_readFromBuffer (self : Field) (owner : M3Structure)
    (buffer : list Z) (offset : Z) (checkExpectedValue : bool)
  : result M3Structure :=
  match self with
  | IntField name t _ _ _ expectedValue _ =>
      '(signed, n) ← or_raise KeyError (intFormat t);
      bs ← unpack_from n buffer offset;
      let value := struct_unpack_int signed bs in
      match expectedValue with
      | Some e =>
          if negb (value =? e) then
            Raise (Exception "Expected that field has always the value")
          else Ok (setattr owner name (VInt value))
      | None => Ok (setattr owner name (VInt value))
      end
  | _ => Raise AttributeError
  end.

(** [PrimitiveField.writeToBuffer] as [IntField] inherits it: the buffer
    after the write. *)
Definition IntField_writeToBuffer (self : Field) (owner : M3Structure)
    (buffer : list Z) (offset : Z) : result (list Z) :=
  match self with
  | IntField name t _ _ _ _ _ =>
      '(signed, n) ← or_raise KeyError (intFormat t);
      value ← getattr owner name;
      bs ← struct_pack_int signed n value;
      pack_into buffer offset bs
  | _ => Raise AttributeError
  end.

(** [PrimitiveField.setToDefault] as [IntField] inherits it. *)
Definition IntField_setToDefault (self : Field) (owner : M3Structure)
  : result M3Structure :=
  match self with
  | IntField name _ _ _ defaultValue _ _ =>
      Ok (setattr owner name (VInt defaultValue))
  | _ => Raise AttributeError
  end.

(** [IntField.validateContent] *)
Definition IntField_validateContent (self : Field) (fieldContent : value)
  : result unit :=
  match self with
  | IntField _ t _ _ _ _ _ =>
      minValue ← or_raise KeyError (intTypeToMinValue t);
      maxValue ← or_raise KeyError (intTypeToMaxValue t);
      match fieldContent with
      | VInt z =>
          if (z <? minValue) || (maxValue <? z) then
            Raise (Exception "has a value which is not in range")
          else Ok tt
      | _ => Raise (Exception "is not an int")
      end
  | _ => Raise AttributeError
  end.


(** [UnknownBytesField.readFromBuffer]; [UnknownBytesField.__init__] has
    asserted that the size is that of the format, so it is not negative. *)
Definition UnknownBytesField_readFromBuffer (self : Field) (owner : M3Structure)
    (buffer : list Z) (offset : Z) (checkExpectedValue : bool)
  : result M3Structure :=
  match self with
  | UnknownBytesField name size _ _ _ expectedValue =>
      value ← unpack_from (Z.to_nat size) buffer offset;
      if checkExpectedValue
         && match expectedValue with
            | Some e => negb (bool_decide (value = e))
            | None => false
            end
      then Raise (Exception "Expected that field has always the value")
      else Ok (setattr owner name (VBytes value))
  | _ => Raise AttributeError
  end.


(** [UnknownBytesField.setToDefault] *)
Definition UnknownBytesField_setToDefault (self : Field) (owner : M3Structure)
  : result M3Structure :=
  match self with
  | UnknownBytesField name _ _ _ defaultValue _ =>
      Ok (setattr owner name (VBytes defaultValue))
  | _ => Raise AttributeError
  end.

(** An instance with an [int16] field [x] and one with a field [pad] of
    three unknown bytes that are expected to be zero. *)
Definition example_int16Field : Field :=
  IntField "x" T_int16 None None 0 None ∅.

Definition example_int16Owner (v : value) : M3Structure :=
  {| structureDescription :=
       Build_M3StructureDescription "DEMO" 0 [example_int16Field] 2;
     attrs := <["x" := v]> ∅ |}.



(** ** The newest version of a history *)

(** The loop of [getNewestVersion] over the keys of the map. *)
Definition newestOf (versions : list Z) : option Z :=
  foldl (λ newestVersion version,
           match newestVersion with
           | None => Some version
           | Some newest => if newest <? version then Some version else Some newest
           end)
        None versions.

(** [getVersion(None)], which [getNewestVersion] calls on a history without
    versions: nothing is cached under [None]; the loop over the fields
    compares [None] with the bounds of a field that has one, which raises
    [TypeError]; and no size is declared for [None]. *)
Definition getVersion_of_None (self : M3StructureHistory)
  : result (option M3StructureDescription) * M3StructureHistory :=
  if existsb (λ field,
                bool_decide (is_Some (field_sinceVersion field))
                || bool_decide (is_Some (field_tillVersion field)))
             (allFields self)
  then (Raise TypeError, self)
  else (Ok None, self).

(** [M3StructureHistory.getNewestVersion]. The loop sees the keys in the
    order of the dictionary, here in the order of [map_to_list]. *)
Definition getNewestVersion (self : M3StructureHistory)
  : result (option M3StructureDescription) * M3StructureHistory :=
  match newestOf (map fst (map_to_list (versionToSizeMap self))) with
  | None => getVersion_of_None self
  | Some newestVersion => getVersion self newestVersion
  end.

(** ** Fields by name, defaults and validation of an instance *)

(** [M3StructureDescription.hasField] *)
Definition hasField (self : M3StructureDescription) (fieldName : string) : bool :=
  bool_decide (is_Some (nameToFieldMap self !! fieldName)).

(** [field.setToDefault(owner)] for every class of field, and
    [M3Structure.__init__] without a buffer, which
    [M3StructureDescription.createInstance()] calls: every field sets its
    default, a tag field none. *)
Fixpoint setToDefault (field : Field) (owner : M3Structure) {struct field}
  : M3Structure :=
  match field with
  | TagField _ _ _ => owner
  | ReferenceField name _ historyOfReferencedStructures _ _ =>
      setattr owner name
        match historyOfReferencedStructures with
        | Some history => createEmptyArray history
        | None => VList []
        end
  | EmbeddedStructureField name structureDescription _ _ =>
      let v := createInstance structureDescription in
      setattr owner name (VStruct structureDescription (attrs v))
  | IntField name _ _ _ defaultValue _ _ => setattr owner name (VInt defaultValue)
  | FloatField name _ _ _ defaultValue _ | Fixed8Field name _ _ _ defaultValue _ =>
      setattr owner name (VFloat defaultValue)
  | UnknownBytesField name _ _ _ defaultValue _ =>
      setattr owner name (VBytes defaultValue)
  end
with createInstance (self : M3StructureDescription) {struct self} : M3Structure :=
  match self with
  | Build_M3StructureDescription _ _ fields _ =>
      (fix loop (fields : list Field) (instance : M3Structure) : M3Structure :=
         match fields with
         | [] => instance
         | field :: fields' => loop fields' (setToDefault field instance)
         end)
        fields {| structureDescription := self; attrs := ∅ |}
  end.

(** [M3StructureDescription.validateInstance]: every field has to be an
    attribute of the instance. The message of the exception for a missing
    one has two arguments for three conversions, so formatting it raises
    [TypeError] in the place of the exception. *)
Definition validateInstance (self : M3StructureDescription)
    (instance : M3Structure) : result unit :=
  for_each (fields self)
    (λ _ field,
       match getattr instance (field_name field) with
       | Ok fieldContent => Ok tt
       | Raise _ => Raise TypeError
       end)
    tt.

(** Is the field a tag field? *)
Definition isTagField (field : Field) : bool :=
  match field with TagField _ _ _ => true | _ => false end.

(** The index entry structure as the spec gives it, with a tag field first. *)
Definition example_MD34IndexEntryV0 : M3StructureDescription :=
  Build_M3StructureDescription "MD34IndexEntry" 0
    [TagField "tag" None None;
     IntField "offset" T_uint32 None None 0 None ∅;
     IntField "repetitions" T_uint32 None None 0 None ∅;
     IntField "version" T_uint32 None None 0 None ∅] 16.

(** ** Reading the content of a section *)

(** The position that a bound [i] of a slice designates in a sequence of
    length [n]: negative bounds count from the end, and every bound is
    clamped to the sequence. *)
Definition slice_bound (n : nat) (i : Z) : nat :=
  if i <? 0 then Z.to_nat (Z.of_nat n + i) else Z.to_nat (Z.min i (Z.of_nat n)).

(** [l[lo:hi]] and [l[:hi]] *)
Definition py_slice {A} (l : list A) (lo hi : Z) : list A :=
  let a := slice_bound (length l) lo in
  let b := slice_bound (length l) hi in
  take (b - a) (drop a l).

Definition py_slice_to {A} (l : list A) (hi : Z) : list A :=
  take (slice_bound (length l) hi) l.

(** [range(lo, hi, step)] *)
Definition range_step (lo hi step : Z) : result (list Z) :=
  if step =? 0 then Raise ValueError
  else if 0 <? step then
    Ok (map (λ k, lo + Z.of_nat k * step)
          (seq 0 (Z.to_nat ((hi - lo + step - 1) / step))))
  else
    Ok (map (λ k, lo + Z.of_nat k * step)
          (seq 0 (Z.to_nat ((lo - hi - step - 1) / - step)))).

(** [b.decode("ASCII")]; the [UnicodeDecodeError] of a byte above 127 is a
    [ValueError]. *)
Fixpoint decode_ascii (bs : list Z) : result string :=
  match bs with
  | [] => Ok EmptyString
  | b :: bs' =>
      if b <? 128 then s ← decode_ascii bs'; Ok (String (chr b) s)
      else Raise ValueError
  end.

Section Readers.
(** [field.structFormat.unpack] of a field that has a [structFormat], and
    [M3StructureDescription.createInstance] with a buffer. *)
Variable structFormat_unpack : Field → option (list Z → result value).
Variable createInstance_from :
  M3StructureDescription → list Z → Z → bool → result value.

(** [M3StructureDescription.createInstances] *)
Definition createInstances (self : M3StructureDescription) (buffer : list Z)
    (count : Z) (checkExpectedValue : bool) : result value :=
  if isPrimitive self then
    if String.eqb (structureName self) "CHAR" then
      s ← decode_ascii (py_slice_to buffer (count - 1)); Ok (VStr s)
    else if String.eqb (structureName self) "U8__" then
      Ok (VBytes (py_slice_to buffer count))
    else
      field ← py_index (fields self) 0;
      unpack ← or_raise AttributeError (structFormat_unpack field);
      offsets ← range_step 0 (count * size self) (size self);
      list ←
        for_each offsets
          (λ list offset,
             let bytesOfOneEntry := py_slice buffer offset (offset + size self) in
             intValue ← unpack bytesOfOneEntry;
             Ok (list ++ [intValue]))
          [];
      Ok (VList list)
  else
    '(list, _) ←
      for_each (range 0 count)
        (λ '(list, instanceOffset) i,
           instance ← createInstance_from self buffer instanceOffset
                        checkExpectedValue;
           Ok (list ++ [instance], instanceOffset + size self))
        ([], 0);
    Ok (VList list).
End Readers.

(** ** Writing the sections *)

(** The last loop of [modelToSections]: every section determines its raw
    bytes. *)
Fixpoint determineFieldRawBytes_each
    (writeToBuffer : M3StructureDescription → value → list Z → Z → result (list Z))
    (sections : list Section) : result (list Section) :=
  match sections with
  | [] => Ok []
  | section :: sections' =>
      section ← determineFieldRawBytes writeToBuffer section;
      sections' ← determineFieldRawBytes_each writeToBuffer sections';
      Ok (section :: sections')
  end.

(** The first loop of [saveSections] on a file that has just been opened
    with [w+b]: what the file holds after it, [tell()] being its length.
    [previousSection] is [None] at the first section, so a first section
    that is not at offset 0 fails to build the message of the exception. *)
Definition saveSections_loop (sections : list Section) : result (list Z) :=
  '(fileObject, _) ←
    for_each sections
      (λ '(fileObject, previousSection) section,
         entry ← or_raise AttributeError (indexEntry section);
         if negb (IndexEntry.offset entry =? Z.of_nat (length fileObject)) then
           match previousSection with
           | None => Raise AttributeError
           | Some previousSection =>
               _ ← or_raise AttributeError (indexEntry previousSection);
               _ ← or_raise AttributeError (rawBytes previousSection);
               Raise (Exception "Section length problem")
           end
         else
           bs ← or_raise AttributeError (rawBytes section);
           Ok (fileObject ++ bs, Some section))
      ([], None);
  Ok fileObject.

(** A section of bytes of the save path, and the requests of a save of a
    string and of a list of two integers. *)
Definition example_U8 : M3StructureDescription :=
  Build_M3StructureDescription "U8__" 0
    [IntField "value" T_uint8 None None 0 None ∅] 1.

Definition example_bytesSection : Section :=
  {| timesReferenced := 0;
     indexEntry := Some {| IndexEntry.tag := "U8__"; IndexEntry.offset := 0;
                           IndexEntry.repetitions := 3;
                           IndexEntry.version := 0 |};
     sectionDescription := Some example_U8;
     rawBytes := None;
     content := Some {| object_id := 1; object_val := VBytes [1; 2; 255] |} |}.

Definition example_saveRequests : list request :=
  [({| object_id := 1; object_val := VStr "abcdefghijklmnopqrstuvwxyz0123456789" |},
    Some example_CHAR);
   ({| object_id := 2; object_val := VBytes [1; 2; 255] |}, Some example_U8)].

(** ** The layout of the sections of a save *)

(** Sections that lie one after the other from [start] to [stop], each at
    the offset of its index entry and as long as its content requires,
    rounded up to a valid section size. *)
Fixpoint contiguous (start : Z) (sections : list Section) (stop : Z) : Prop :=
  match sections with
  | [] => stop = start
  | section :: sections' =>
      ∃ (entry : IndexEntry.t) (required : Z),
        indexEntry section = Some entry
        ∧ IndexEntry.offset entry = start
        ∧ bytesRequiredForContent section = Ok required
        ∧ contiguous (start + increaseToValidSectionSize required) sections' stop
  end.

(** * Properties *)

(** ** What the setters set *)

(** Proves of an owner after [setattr] that the attribute is there, that
    every other attribute is as before, and that the description is. *)
Ltac setattr_facts :=
  unfold setattr; simpl;
  split;
  [ apply lookup_insert_eq
  | split;
    [ let other := fresh "other" in
      let Hne := fresh "Hne" in
      intros other Hne; by apply lookup_insert_ne
    | reflexivity ] ].

(** ** Padding of sections *)

Lemma increaseToValidSectionSize_spec (n : Z) :
  let m := increaseToValidSectionSize n in
  m mod 16 = 0 ∧ n ≤ m < n + 16.
Proof.
  unfold increaseToValidSectionSize. cbv zeta.
  pose proof (Z.mod_pos_bound n 16 ltac:(lia)) as Hb.
  destruct (Z.eqb_spec (n mod 16) 0) as [E | E]; simpl.
  - lia.
  - split; [| lia].
    replace (n + (16 - n mod 16)) with (n - n mod 16 + 1 * 16) by lia.
    rewrite Z.mod_add by lia.
    rewrite Zminus_mod, Zmod_mod, Z.sub_diag. reflexivity.
Qed.

(** No multiple of 16 lies between a size and its valid section size. *)
Lemma increaseToValidSectionSize_least (n m : Z) :
  m mod 16 = 0 → n ≤ m → increaseToValidSectionSize n ≤ m.
Proof.
  intros Hm Hle.
  destruct (increaseToValidSectionSize_spec n) as [H16 Hr].
  apply Z.mod_divide in Hm; [| lia]. apply Z.mod_divide in H16; [| lia].
  destruct Hm as [a ->]. destruct H16 as [b Hb]. rewrite Hb in *. lia.
Qed.

(** [range] as the integers of a [seq]. *)
Lemma range_seq_shift (a k : nat) : ∀ s : nat,
  map (λ j, Z.of_nat a + Z.of_nat j) (seq s k) = map Z.of_nat (seq (a + s) k).
Proof.
  induction k as [| k IH]; intros s; simpl; [done |].
  f_equal; [lia |]. rewrite IH. do 2 f_equal. lia.
Qed.

Lemma range_seq (lo hi : Z) :
  0 ≤ lo → range lo hi = map Z.of_nat (seq (Z.to_nat lo) (Z.to_nat (hi - lo))).
Proof.
  intros Hlo. unfold range.
  rewrite <- (Nat.add_0_r (Z.to_nat lo)) at 1.
  rewrite <- range_seq_shift.
  apply map_ext. intros j. lia.
Qed.

(** An assignment within the buffer is the list update. *)
Lemma setitem_ok (buf : list Z) (i : nat) (v : Z) :
  (i < length buf)%nat → setitem buf (Z.of_nat i) v = Ok (<[i := v]> buf).
Proof.
  intros Hi. unfold setitem.
  destruct (Z.leb_spec 0 (Z.of_nat i)); [| lia].
  destruct (Z.ltb_spec (Z.of_nat i) (Z.of_nat (length buf))); [| lia].
  simpl. by rewrite Nat2Z.id.
Qed.

(** The loop that fills [rawBytes[a : a + k]] with [0xAA] succeeds, and
    writes there and nowhere else. *)
Lemma fill_loop (k : nat) : ∀ (a : nat) (raw : list Z),
  (a + k ≤ length raw)%nat →
  ∃ raw', for_each (map Z.of_nat (seq a k)) (λ rawBytes i, setitem rawBytes i 0xaa) raw
          = Ok raw'
    ∧ length raw' = length raw
    ∧ (∀ i, (a ≤ i < a + k)%nat → raw' !! i = Some 0xaa)
    ∧ (∀ i, ¬ (a ≤ i < a + k)%nat → raw' !! i = raw !! i).
Proof.
  induction k as [| k IH]; intros a raw Hlen; cbn [seq map for_each].
  - exists raw. repeat split; intros; try lia; done.
  - rewrite setitem_ok by lia. cbn [mbind result_bind].
    destruct (IH (S a) (<[a := 0xaa]> raw)) as (raw' & Hrun & Hl & Hin & Hout).
    { rewrite length_insert. lia. }
    exists raw'. split; [exact Hrun |]. rewrite length_insert in Hl.
    split; [exact Hl |]. split.
    + intros i Hi. destruct (decide (i = a)) as [-> | Hne].
      * rewrite Hout by lia. apply list_lookup_insert_eq. lia.
      * apply Hin. lia.
    + intros i Hi. rewrite Hout by lia. apply list_lookup_insert_ne. lia.
Qed.

(** After [rawBytes[0:len(src)] = src] on a fresh buffer of [n] bytes, the
    buffer still has [n] bytes and starts with [src]. *)
Lemma slice_assign_prefix (n : nat) (src : list Z) :
  (length src ≤ n)%nat →
  let buf := slice_assign (replicate n 0) 0 (length src) src in
  length buf = n ∧ ∀ i, (i < length src)%nat → buf !! i = src !! i.
Proof.
  intros Hn. unfold slice_assign. rewrite take_0, app_nil_l. split.
  - rewrite length_app, length_drop, length_replicate. lia.
  - intros i Hi. by rewrite lookup_app_l.
Qed.

(** C3: when the content of a section serialises to the byte count that the
    content requires, [determineFieldRawBytes] succeeds and leaves the
    section with nothing changed but [rawBytes], which it has set to bytes
    whose length is the smallest multiple of 16 that is at least
    that count, which start with the content bytes and hold [0xAA] from
    there on; content that requires 37 bytes gives 48 bytes of which bytes
    37 through 47 are [0xAA]. *)
Theorem determineFieldRawBytes_padding
    (writeToBuffer : M3StructureDescription → value → list Z → Z → result (list Z))
    (self : Section) (minRawBytes : list Z) (required : Z) :
  determineRawBytesWithData writeToBuffer self = Ok minRawBytes →
  bytesRequiredForContent self = Ok required →
  Z.of_nat (length minRawBytes) = required →
  ∃ (raw : list Z) (self' : Section),
    determineFieldRawBytes writeToBuffer self = Ok self'
    ∧ self' = set_rawBytes self raw
    ∧ rawBytes self' = Some raw
    ∧ timesReferenced self' = timesReferenced self
    ∧ indexEntry self' = indexEntry self
    ∧ sectionDescription self' = sectionDescription self
    ∧ content self' = content self
    ∧ Z.of_nat (length raw) mod 16 = 0
    ∧ required ≤ Z.of_nat (length raw)
    ∧ (∀ m : Z, m mod 16 = 0 → required ≤ m → Z.of_nat (length raw) ≤ m)
    ∧ take (length minRawBytes) raw = minRawBytes
    ∧ (∀ i : nat, required ≤ Z.of_nat i < Z.of_nat (length raw) →
         raw !! i = Some 0xaa)
    ∧ (required = 37 →
         length raw = 48%nat ∧ ∀ i : nat, (37 ≤ i ≤ 47)%nat → raw !! i = Some 0xaa).
Proof.
  intros Hdata Hreq Hlen.
  set (n := length minRawBytes) in *.
  pose proof (increaseToValidSectionSize_spec (Z.of_nat n)) as [H16 Hrange].
  pose proof (increaseToValidSectionSize_least (Z.of_nat n)) as Hleast.
  set (sectionSize := increaseToValidSectionSize (Z.of_nat n)) in *.
  assert (∃ raw : list Z,
    determineFieldRawBytes writeToBuffer self = Ok (set_rawBytes self raw)
    ∧ Z.of_nat (length raw) = sectionSize
    ∧ take n raw = minRawBytes
    ∧ ∀ i : nat, (n ≤ i < length raw)%nat → raw !! i = Some 0xaa)
    as (raw & Hrun & Hsize & Hpre & Hpad).
  { unfold determineFieldRawBytes. rewrite Hdata, Hreq. cbn [mbind result_bind].
    fold n. rewrite Hlen, Z.eqb_refl. cbn [negb]. rewrite <- Hlen.
    fold sectionSize.
    destruct (Z.eqb_spec (Z.of_nat n) sectionSize) as [E | E].
    - exists minRawBytes. split; [done |]. split; [done |].
      split; [by apply firstn_all |]. intros i Hi. fold n in Hi. lia.
    - unfold bytearray. destruct (Z.ltb_spec sectionSize 0) as [| _]; [lia |].
      cbn [mbind result_bind].
      destruct (slice_assign_prefix (Z.to_nat sectionSize) minRawBytes)
        as [Hl0 Hp0]; [fold n; lia |].
      rewrite range_seq by lia. rewrite Nat2Z.id.
      destruct (fill_loop (Z.to_nat (sectionSize - Z.of_nat n)) n
                  (slice_assign (replicate (Z.to_nat sectionSize) 0) 0 n minRawBytes))
        as (raw & Hrun & Hl & Hin & Hout); [fold n in Hl0; lia |].
      fold n in Hl0, Hp0. rewrite Hrun. cbn [mbind result_bind].
      exists raw. split; [done |]. split; [lia |]. split.
      + apply list_eq. intros i.
        destruct (decide (i < n)%nat) as [Hi | Hi].
        * rewrite lookup_take_lt by done. rewrite Hout by lia. by apply Hp0.
        * rewrite lookup_take_ge by lia. symmetry. apply lookup_ge_None. fold n. lia.
      + intros i Hi. apply Hin. lia. }
  exists raw, (set_rawBytes self raw). split; [done |].
  do 6 (split; [reflexivity |]). rewrite Hsize. rewrite <- Hlen.
  split; [done |]. split; [lia |]. split; [exact Hleast |].
  split; [done |]. split.
  - intros i Hi. apply Hpad. lia.
  - intros H37. assert (sectionSize = 48) as E48.
    { subst sectionSize. rewrite H37. reflexivity. }
    split; [lia |]. intros i Hi. apply Hpad. lia.
Qed.

(** The section of a string of 36 characters: 37 bytes of content, 48 bytes
    of [rawBytes]. *)
Lemma determineFieldRawBytes_padding_witness :
  ∃ (raw : list Z) (self' : Section),
    determineFieldRawBytes example_writer example_stringSection = Ok self'
    ∧ rawBytes self' = Some raw
    ∧ content self' = content example_stringSection
    ∧ length raw = 48%nat
    ∧ ∀ i : nat, (37 ≤ i ≤ 47)%nat → raw !! i = Some 0xaa.
Proof.
  destruct (determineFieldRawBytes_padding example_writer example_stringSection
              _ 37 eq_refl eq_refl eq_refl)
    as (raw & self' & Hrun & _ & Hraw & _ & _ & _ & Hcontent & _ & _ & _ & _
        & _ & H37).
  destruct (H37 eq_refl) as [Hlen Hpad].
  exists raw, self'. split; [exact Hrun |]. split; [exact Hraw |].
  split; [exact Hcontent |]. split; [exact Hlen | exact Hpad].
Defined.

(** ASCII encoding takes one byte per character. *)
Lemma encode_ascii_length (s : string) (bs : list Z) :
  encode_ascii s = Ok bs → length bs = String.length s.
Proof.
  revert bs. induction s as [| c s IH]; intros bs; cbn [encode_ascii].
  - intros [= <-]. done.
  - destruct (ord c <? 128); [| done].
    destruct (encode_ascii s) as [bs' |]; [| done].
    cbn [mbind result_bind]. intros [= <-]. cbn. f_equal. by apply IH.
Qed.

Section WriterLength.
Variable writeToBuffer :
  M3StructureDescription → value → list Z → Z → result (list Z).
Hypothesis writeToBuffer_length : ∀ d v buf off buf',
  writeToBuffer d v buf off = Ok buf' → length buf' = length buf.

(** The loop over the instances leaves the length of the buffer alone. *)
Lemma write_loop_length (d : M3StructureDescription) (values : list value) :
  ∀ (buf : list Z) (off : Z) (st : list Z * Z),
  for_each values
    (λ '(rawBytes, offset) value,
       rawBytes ← writeToBuffer d value rawBytes offset;
       Ok (rawBytes, offset + size d))
    (buf, off) = Ok st →
  length (fst st) = length buf.
Proof.
  induction values as [| v values IH]; intros buf off st; cbn [for_each].
  - intros [= <-]. done.
  - destruct (writeToBuffer d v buf off) as [buf' |] eqn:E; [| done].
    cbn [mbind result_bind]. intros Hrun.
    rewrite (IH _ _ _ Hrun). by eapply writeToBuffer_length.
Qed.

(** The size check of [determineFieldRawBytes] cannot fail on bytes that
    [instancesToBytes] returned, provided bytes take one byte each. *)
Lemma instancesToBytes_length (d : M3StructureDescription) (instances : value)
    (bs : list Z) :
  (structureName d = "U8__"%string → size d = 1) →
  instancesToBytes writeToBuffer d instances = Ok bs →
  countBytesRequiredForInstances d instances = Ok (Z.of_nat (length bs)).
Proof.
  intros Hu8. unfold instancesToBytes, countBytesRequiredForInstances, countInstances.
  destruct (String.eqb_spec (structureName d) "CHAR") as [Ec | Ec].
  - destruct instances; try done.
    destruct (encode_ascii s) as [enc |] eqn:E; [| done].
    cbn [mbind result_bind py_len]. intros [= <-].
    rewrite length_app, (encode_ascii_length _ _ E). cbn. f_equal. lia.
  - destruct (String.eqb_spec (structureName d) "U8__") as [Eu | Eu].
    + destruct instances; try done. intros [= <-].
      cbn [mbind result_bind py_len]. rewrite (Hu8 Eu). f_equal. lia.
    + destruct (py_len instances) as [n |] eqn:En; [| done].
      cbn [mbind result_bind]. unfold bytearray.
      destruct (Z.ltb_spec (size d * n) 0) as [| Hnn]; [done |].
      cbn [mbind result_bind].
      destruct (py_iter instances) as [values |]; [| done].
      cbn [mbind result_bind].
      destruct (for_each values _ _) as [[raw off] |] eqn:Erun; [| done].
      cbn [mbind result_bind]. intros [= <-].
      apply write_loop_length in Erun. cbn [fst] in Erun.
      rewrite Erun, length_replicate.
      destruct instances; try done; cbn [py_len] in *;
        injection En as <-; cbn [mbind result_bind]; f_equal; lia.
Qed.
End WriterLength.

(** ** Versions of a structure *)

Lemma includeField_versionInRange (version : Z) (field : Field) :
  includeField version field = versionInRange version field.
Proof.
  unfold includeField, versionInRange.
  destruct (field_sinceVersion field) as [since |],
           (field_tillVersion field) as [till |]; cbn [andb];
    repeat match goal with
           | |- context [?a <? ?b] => destruct (Z.ltb_spec a b)
           | |- context [?a <=? ?b] => destruct (Z.leb_spec a b)
           end; try reflexivity; lia.
Qed.

(** The loop of [getVersion] collects the visible fields, in order. *)
Lemma usedFields_filter (version : Z) (l : list Field) : ∀ acc : list Field,
  foldl (λ used field,
           if includeField version field then used ++ [field] else used) acc l
  = acc ++ fieldsVisibleAt version l.
Proof.
  unfold fieldsVisibleAt.
  induction l as [| f l IH]; intros acc; cbn [foldl List.filter].
  - by rewrite app_nil_r.
  - rewrite IH, <- includeField_versionInRange.
    destruct (includeField version f); [| done].
    by rewrite <- app_assoc.
Qed.

(** The loop of the constructor sums the sizes of the fields. *)
Lemma calculatedSize_sum (l : list Field) : ∀ acc : Z,
  foldl (λ acc field, acc + field_size field) acc l = acc + sumOfFieldSizes l.
Proof.
  unfold sumOfFieldSizes.
  induction l as [| f l IH]; intros acc; cbn [foldl map fold_right]; [lia |].
  rewrite IH. lia.
Qed.

(** The constructor succeeds exactly when the sizes sum up to the specified
    size. *)
Lemma M3StructureDescription_init_spec (n : string) (v : Z) (fs : list Field)
    (specifiedSize : Z) :
  M3StructureDescription_init n v fs specifiedSize =
    if decide (sumOfFieldSizes fs = specifiedSize)
    then Ok (Build_M3StructureDescription n v fs specifiedSize)
    else Raise (Exception "Size mismatch").
Proof.
  unfold M3StructureDescription_init. rewrite calculatedSize_sum, Z.add_0_l.
  destruct (Z.eqb_spec (sumOfFieldSizes fs) specifiedSize); case_decide; done.
Qed.

(** A new history has an empty cache. *)
Lemma cache_wf_init (n : string) (sizes : gmap Z Z) (fs : list Field) :
  cache_wf (M3StructureHistory_init n sizes fs).
Proof. intros v d. cbn. by rewrite lookup_empty. Qed.

(** Caching the description that [getVersion] builds keeps the cache as it
    should be. *)
Lemma cache_wf_insert (h : M3StructureHistory) (version declaredSize : Z) :
  cache_wf h →
  versionToSizeMap h !! version = Some declaredSize →
  sumOfFieldSizes (fieldsVisibleAt version (allFields h)) = declaredSize →
  cache_wf
    {| name := name h; versionToSizeMap := versionToSizeMap h;
       allFields := allFields h;
       versionToStructureDescriptionMap :=
         <[version :=
             Build_M3StructureDescription (name h) version
               (fieldsVisibleAt version (allFields h)) declaredSize]>
           (versionToStructureDescriptionMap h) |}.
Proof.
  intros Hwf Hsize Hsum v d. cbn.
  destruct (decide (version = v)) as [<- | Hne].
  - rewrite lookup_insert_eq. intros [= <-]. done.
  - rewrite lookup_insert_ne by done. apply Hwf.
Qed.

(** X9: the cache of a history stays as it should be over every call of
    [getVersion], whatever the call returns: every cached description is the
    one of a declared version, with the name of the history, the fields
    whose version range contains the version, and the declared size, which
    is the sum of the sizes of these fields. *)
Lemma getVersion_cache_wf (h h' : M3StructureHistory) (version : Z)
    (r : result (option M3StructureDescription)) :
  cache_wf h → getVersion h version = (r, h') → cache_wf h'.
Proof.
  intros Hwf. unfold getVersion.
  destruct (versionToStructureDescriptionMap h !! version) as [cached |];
    [by intros [= _ <-] |].
  destruct (versionToSizeMap h !! version) as [sz |] eqn:Es;
    [| by intros [= _ <-]].
  rewrite usedFields_filter, app_nil_l, M3StructureDescription_init_spec.
  case_decide as Hsum; intros [= _ <-]; [| done].
  by apply cache_wf_insert.
Qed.

(** C4: for a version that the history declares with a size, [getVersion]
    returns a description exactly when the sizes of the fields whose version
    range includes the version sum up to the declared size, and that
    description has the declared size; when the sum differs the call raises
    the size mismatch and leaves the history as it was. *)
Theorem getVersion_size_check (h : M3StructureHistory) (version declaredSize : Z) :
  cache_wf h →
  versionToSizeMap h !! version = Some declaredSize →
  let visible := fieldsVisibleAt version (allFields h) in
  (sumOfFieldSizes visible = declaredSize →
     ∃ (d : M3StructureDescription) (h' : M3StructureHistory),
       getVersion h version = (Ok (Some d), h')
       ∧ d = Build_M3StructureDescription (name h) version visible declaredSize
       ∧ size d = declaredSize
       ∧ cache_wf h')
  ∧ (sumOfFieldSizes visible ≠ declaredSize →
       ∃ msg : string, getVersion h version = (Raise (Exception msg), h)).
Proof.
  intros Hwf Hsize visible. unfold getVersion.
  destruct (versionToStructureDescriptionMap h !! version) as [cached |] eqn:Ec.
  - destruct (Hwf _ _ Ec) as (Hs & Hd & Hsum).
    rewrite Hsize in Hs. injection Hs as Hs. fold visible in Hd, Hsum.
    split; [| intros Hne; congruence].
    intros _. exists cached, h. rewrite <- Hs in Hd. done.
  - rewrite usedFields_filter, app_nil_l, Hsize, M3StructureDescription_init_spec.
    fold visible. split; intros Hsum; case_decide; try done.
    + eexists _, _. split; [done |]. split; [done |]. split; [done |].
      by apply cache_wf_insert.
    + by eexists.
Qed.

(** Version 1 of the example history has fields of 12 bytes and declares
    12; version 2 declares 99. *)
Lemma getVersion_size_check_witness :
  (∃ (d : M3StructureDescription) (h' : M3StructureHistory),
     getVersion example_history 1 = (Ok (Some d), h')
     ∧ size d = 12)
  ∧ (∃ msg : string,
       getVersion example_history 2 = (Raise (Exception msg), example_history)).
Proof.
  split.
  - destruct (getVersion_size_check example_history 1 12
                (cache_wf_init _ _ _) eq_refl) as [Hok _].
    destruct (Hok eq_refl) as (d & h' & Hrun & _ & Hsize & _).
    exists d, h'. split; [exact Hrun | exact Hsize].
  - destruct (getVersion_size_check example_history 2 99
                (cache_wf_init _ _ _) eq_refl) as [_ Herr].
    apply Herr. vm_compute. discriminate.
Defined.

(** C10: for a version that the version-to-size map does not declare,
    [getVersion] returns [None] without raising, and the history, its cache
    of descriptions included, is what it was before the call. *)
Theorem getVersion_unknown_version (h : M3StructureHistory) (version : Z) :
  cache_wf h →
  versionToSizeMap h !! version = None →
  getVersion h version = (Ok None, h).
Proof.
  intros Hwf Hnone. unfold getVersion.
  destruct (versionToStructureDescriptionMap h !! version) as [cached |] eqn:Ec.
  - destruct (Hwf _ _ Ec) as (Hs & _). congruence.
  - by rewrite Hnone.
Qed.

(** The example history declares no version 3. *)
Lemma getVersion_unknown_version_witness :
  getVersion example_history 3 = (Ok None, example_history).
Proof.
  apply (getVersion_unknown_version example_history 3 (cache_wf_init _ _ _)).
  vm_compute. reflexivity.
Defined.

(** ** Tags *)

Lemma pack_into_app (pre old post bs : list Z) :
  length old = length bs →
  pack_into (pre ++ old ++ post) (Z.of_nat (length pre)) bs
  = Ok (pre ++ bs ++ post).
Proof.
  intros Hlen. unfold pack_into.
  destruct (Z.leb_spec 0 (Z.of_nat (length pre))); [| lia].
  destruct (Z.leb_spec (Z.of_nat (length pre) + Z.of_nat (length bs))
              (Z.of_nat (length (pre ++ old ++ post)))) as [_ | Hgt].
  - cbn [andb]. rewrite Nat2Z.id. f_equal.
    rewrite take_app_length. f_equal. f_equal.
    rewrite drop_app_add', <- Hlen, ?drop_app_length; done.
  - rewrite !length_app in Hgt. lia.
Qed.

(** Reading the bytes [bs] in the middle of a buffer. *)
Lemma unpack_from_app (pre bs post : list Z) :
  unpack_from (length bs) (pre ++ bs ++ post) (Z.of_nat (length pre)) = Ok bs.
Proof.
  unfold unpack_from.
  destruct (Z.leb_spec 0 (Z.of_nat (length pre))); [| lia].
  destruct (Z.leb_spec (Z.of_nat (length pre) + Z.of_nat (length bs))
              (Z.of_nat (length (pre ++ bs ++ post)))) as [_ | Hgt].
  - cbn [andb]. rewrite Nat2Z.id, drop_app_length, take_app_length. done.
  - rewrite !length_app in Hgt. lia.
Qed.

(** [chr] and [ord] on characters. *)
Lemma chr_ord (c : ascii) : chr (ord c) = c.
Proof. unfold chr, ord. by rewrite N2Z.id, ascii_N_embedding. Qed.

Lemma ord_range (c : ascii) : 0 ≤ ord c < 256.
Proof.
  unfold ord. pose proof (N_ascii_bounded c). lia.
Qed.

Lemma ord_eq_0 (c : ascii) : ord c = 0 → c = "000"%char.
Proof. intros H. rewrite <- (chr_ord c), H. reflexivity. Qed.

(** The ASCII encoding of four and of three ASCII characters. *)
Lemma encode_ascii_4 (c0 c1 c2 c3 : ascii) :
  ord c0 < 128 → ord c1 < 128 → ord c2 < 128 → ord c3 < 128 →
  encode_ascii (String c0 (String c1 (String c2 (String c3 EmptyString))))
  = Ok [ord c0; ord c1; ord c2; ord c3].
Proof.
  intros H0 H1 H2 H3. cbn [encode_ascii].
  repeat match goal with
         | |- context [?a <? 128] => destruct (Z.ltb_spec a 128); [| lia]
         end.
  reflexivity.
Qed.

Lemma encode_ascii_3 (c0 c1 c2 : ascii) :
  ord c0 < 128 → ord c1 < 128 → ord c2 < 128 →
  encode_ascii (String c0 (String c1 (String c2 EmptyString)))
  = Ok [ord c0; ord c1; ord c2].
Proof.
  intros H0 H1 H2. cbn [encode_ascii].
  repeat match goal with
         | |- context [?a <? 128] => destruct (Z.ltb_spec a 128); [| lia]
         end.
  reflexivity.
Qed.

(** C8: [TagField.writeToBuffer] stores a tag of four ASCII characters in
    reversed order and one of three characters reversed and followed by a
    NUL byte; [TagField.readFromBuffer] builds the tag of three characters
    from bytes 2, 1, 0 when byte 3 is zero and the tag of four characters
    from bytes 3, 2, 1, 0 otherwise. [MD34] gives [34 33 44 4D], [U8__]
    gives [5F 5F 38 55] and [DIV] gives [56 49 44 00]. *)
Theorem TagField_byte_order (self : Field) (owner : M3Structure)
    (pre old post : list Z) (c0 c1 c2 c3 : ascii) (b0 b1 b2 b3 : Z)
    (checkExpectedValue : bool) :
  length old = 4%nat →
  ord c0 < 128 → ord c1 < 128 → ord c2 < 128 → ord c3 < 128 →
  let name := field_name self in
  let offset := Z.of_nat (length pre) in
  TagField_writeToBuffer self
    (setattr owner name
       (VStr (String c0 (String c1 (String c2 (String c3 EmptyString))))))
    (pre ++ old ++ post) offset
  = Ok (pre ++ [ord c3; ord c2; ord c1; ord c0] ++ post)
  ∧ TagField_writeToBuffer self
      (setattr owner name (VStr (String c0 (String c1 (String c2 EmptyString)))))
      (pre ++ old ++ post) offset
    = Ok (pre ++ [ord c2; ord c1; ord c0; 0] ++ post)
  ∧ TagField_readFromBuffer self owner (pre ++ [b0; b1; b2; b3] ++ post) offset
      checkExpectedValue
    = Ok (setattr owner name
            (VStr (if b3 =? 0
                   then String (chr b2) (String (chr b1) (String (chr b0) EmptyString))
                   else String (chr b3) (String (chr b2) (String (chr b1)
                          (String (chr b0) EmptyString))))))
  ∧ TagField_writeToBuffer example_tagField (example_tagOwner "MD34") [0; 0; 0; 0] 0
    = Ok [0x34; 0x33; 0x44; 0x4D]
  ∧ TagField_writeToBuffer example_tagField (example_tagOwner "U8__") [0; 0; 0; 0] 0
    = Ok [0x5F; 0x5F; 0x38; 0x55]
  ∧ TagField_writeToBuffer example_tagField (example_tagOwner "DIV") [0; 0; 0; 0] 0
    = Ok [0x56; 0x49; 0x44; 0x00].
Proof.
  intros Hold H0 H1 H2 H3 name offset.
  split; [| split; [| split]].
  - unfold TagField_writeToBuffer, getattr. cbn [attrs setattr].
    fold name. rewrite lookup_insert_eq. cbn -[encode_ascii pack_into].
    rewrite encode_ascii_4 by done. cbn [mbind result_bind].
    by apply pack_into_app.
  - unfold TagField_writeToBuffer, getattr. cbn [attrs setattr].
    fold name. rewrite lookup_insert_eq. cbn -[encode_ascii pack_into].
    rewrite encode_ascii_3 by done. cbn [mbind result_bind app].
    by apply (pack_into_app pre old post [ord c2; ord c1; ord c0; 0]).
  - unfold TagField_readFromBuffer. subst offset.
    pose proof (unpack_from_app pre [b0; b1; b2; b3] post) as Hu.
    cbn [length app] in Hu |- *. rewrite Hu. reflexivity.
  - repeat split; vm_compute; reflexivity.
Qed.

(** Writing [MD34] and reading [DIV]. *)
Lemma TagField_byte_order_witness :
  TagField_writeToBuffer example_tagField
    (setattr (example_tagOwner "TEMP") "tag" (VStr "MD34")) [0; 0; 0; 0] 0
  = Ok [0x34; 0x33; 0x44; 0x4D]
  ∧ TagField_readFromBuffer example_tagField (example_tagOwner "TEMP")
      [0x56; 0x49; 0x44; 0x00] 0 true
    = Ok (setattr (example_tagOwner "TEMP") "tag" (VStr "DIV")).
Proof.
  destruct (TagField_byte_order example_tagField (example_tagOwner "TEMP")
              [] [0; 0; 0; 0] [] "M" "D" "3" "4" 0x56 0x49 0x44 0x00 true
              eq_refl eq_refl eq_refl eq_refl eq_refl)
    as (Hw4 & _ & _).
  destruct (TagField_byte_order example_tagField (example_tagOwner "TEMP")
              [] [0x56; 0x49; 0x44; 0x00] [] "M" "D" "3" "4" 0x56 0x49 0x44 0x00
              true eq_refl eq_refl eq_refl eq_refl eq_refl)
    as (_ & _ & Hr & _).
  split; [exact Hw4 | exact Hr].
Defined.

(** X6: reading back what [TagField.writeToBuffer] has written returns the
    tag, for a tag of four characters that does not start with NUL and for
    one of three characters. *)
Lemma TagField_write_read (self : Field) (owner : M3Structure)
    (pre old post : list Z) (s : string) (buffer : list Z) (chk : bool) :
  length old = 4%nat →
  attrs owner !! field_name self = Some (VStr s) →
  (∃ c0 c1 c2 c3, s = String c0 (String c1 (String c2 (String c3 EmptyString)))
                  ∧ c0 ≠ "000"%char)
  ∨ (∃ c0 c1 c2, s = String c0 (String c1 (String c2 EmptyString))) →
  TagField_writeToBuffer self owner (pre ++ old ++ post) (Z.of_nat (length pre))
    = Ok buffer →
  TagField_readFromBuffer self owner buffer (Z.of_nat (length pre)) chk = Ok owner.
Proof.
  intros Hold Hattr Hs. unfold TagField_writeToBuffer, getattr.
  rewrite Hattr. cbn [or_raise mbind result_bind].
  assert (setattr owner (field_name self) (VStr s) = owner) as Hid.
  { destruct owner as [d a]. unfold setattr. cbn in *. by rewrite insert_id. }
  destruct Hs as [(c0 & c1 & c2 & c3 & -> & Hnul) | (c0 & c1 & c2 & ->)].
  - cbn -[encode_ascii pack_into].
    destruct (encode_ascii _) as [bs |] eqn:Eenc; [| done].
    cbn [encode_ascii] in Eenc.
    repeat match type of Eenc with
           | context [?a <? 128] => destruct (a <? 128); [| done]
           end.
    injection Eenc as <-. cbn [mbind result_bind].
    intros Hw.
    assert (Ok buffer = Ok (pre ++ [ord c3; ord c2; ord c1; ord c0] ++ post))
      as [= ->]
      by (etransitivity; [symmetry; exact Hw | by apply pack_into_app]).
    unfold TagField_readFromBuffer.
    pose proof (unpack_from_app pre [ord c3; ord c2; ord c1; ord c0] post) as Hu.
    cbn [length app] in Hu |- *. rewrite Hu.
    cbn [mbind result_bind].
    destruct (Z.eqb_spec (ord c0) 0) as [E | _].
    + by apply ord_eq_0 in E.
    + rewrite !chr_ord. by rewrite Hid.
  - cbn -[encode_ascii pack_into].
    destruct (encode_ascii _) as [bs |] eqn:Eenc; [| done].
    cbn [encode_ascii] in Eenc.
    repeat match type of Eenc with
           | context [?a <? 128] => destruct (a <? 128); [| done]
           end.
    injection Eenc as <-. cbn [mbind result_bind app].
    intros Hw.
    assert (Ok buffer = Ok (pre ++ [ord c2; ord c1; ord c0; 0] ++ post))
      as [= ->]
      by (etransitivity; [symmetry; exact Hw | by apply pack_into_app]).
    unfold TagField_readFromBuffer.
    pose proof (unpack_from_app pre [ord c2; ord c1; ord c0; 0] post) as Hu.
    cbn [length app] in Hu |- *. rewrite Hu.
    cbn [mbind result_bind Z.eqb]. rewrite !chr_ord. by rewrite Hid.
Qed.

(** ** Fixed-point bytes *)


(** C5, amended: [Fixed8Field.readFromBuffer] decodes a byte [B] to the
    float [B/255*2 - 1] and [Fixed8Field.writeToBuffer] encodes a float [v]
    to the byte [round((v+1)/2*255)]. Byte [0x00] decodes to [-1.0], byte
    [0x80] to about [0.0039] and byte [0xFF] to [1.0] exactly; [-1.0]
    encodes to [0x00] and [1.0] to [0xFF]. *)
Theorem Fixed8Field_codec (name : string) (t : primitiveType)
    (since till : option Z) (defaultValue : float) (expectedValue : option float)
    (owner : M3Structure) (pre post : list Z) (B old : Z) (v : float) (r : Z)
    (checkExpectedValue : bool) :
  checkExpectedValue
  && match expectedValue with
     | Some e => negb (PrimFloat.eqb (Fixed8_decode B) e)
     | None => false
     end = false →
  Fixed8_encode v = Ok r →
  0 ≤ r ≤ 255 →
  let self := Fixed8Field name t since till defaultValue expectedValue in
  let offset := Z.of_nat (length pre) in
  Fixed8Field_readFromBuffer self owner (pre ++ [B] ++ post) offset
    checkExpectedValue
  = Ok (setattr owner name (VFloat (float_of_int B / 255 * 2 - 1)%float))
  ∧ Fixed8_encode v = py_round ((v + 1) / 2 * 255)%float
  ∧ Fixed8Field_writeToBuffer self (setattr owner name (VFloat v))
      (pre ++ [old] ++ post) offset
    = Ok (pre ++ [r] ++ post)
  ∧ Fixed8_decode 0x00 = (-1)%float
  ∧ Fixed8_decode 0x80 = 0x1.01010101010p-8%float
  ∧ (0.0039 <? Fixed8_decode 0x80)%float = true
  ∧ (Fixed8_decode 0x80 <? 0.00393)%float = true
  ∧ Fixed8_decode 0xFF = 1%float
  ∧ Fixed8_encode (-1)%float = Ok 0x00
  ∧ Fixed8_encode 1%float = Ok 0xFF.
Proof.
  intros Hexp Henc Hr self offset.
  split; [| split; [reflexivity | split]].
  - unfold self, Fixed8Field_readFromBuffer. subst offset.
    pose proof (unpack_from_app pre [B] post) as Hu. cbn [length] in Hu.
    rewrite Hu. cbn [mbind result_bind]. by rewrite Hexp.
  - unfold self, Fixed8Field_writeToBuffer, getattr. cbn [attrs setattr].
    rewrite lookup_insert_eq. cbn [or_raise mbind result_bind].
    rewrite Henc. cbn [mbind result_bind]. unfold pack_B.
    destruct (Z.leb_spec 0 r); [| lia]. destruct (Z.leb_spec r 255); [| lia].
    cbn [andb mbind result_bind]. by apply pack_into_app.
  - repeat split; vm_compute; reflexivity.
Qed.

(** Reading the byte [0x80] and writing the float [1.0]. *)
Lemma Fixed8Field_codec_witness :
  Fixed8Field_readFromBuffer example_fixed8Field (example_fixed8Owner VNone)
    [0x80] 0 true
  = Ok (setattr (example_fixed8Owner VNone) "x"
          (VFloat (float_of_int 0x80 / 255 * 2 - 1)%float))
  ∧ Fixed8Field_writeToBuffer example_fixed8Field
      (setattr (example_fixed8Owner VNone) "x" (VFloat 1)) [0] 0
    = Ok [0xFF].
Proof.
  destruct (Fixed8Field_codec "x" T_fixed8 None None 0%float None
              (example_fixed8Owner VNone) [] [] 0x80 0 1%float 0xFF true
              eq_refl eq_refl ltac:(lia))
    as (Hread & _ & Hwrite & _).
  split; [exact Hread | exact Hwrite].
Defined.

(** Against C5 as stated: the byte [0xFF] decodes to [1.0] exactly, which
    is neither [254/255*2 - 1] nor below [0.9923]; [254/255*2 - 1] is what
    the byte [0xFE] decodes to. *)
Lemma Fixed8_decode_0xFF_counterexample :
  Fixed8Field_readFromBuffer example_fixed8Field (example_fixed8Owner VNone)
    [0xFF] 0 true
  = Ok (example_fixed8Owner (VFloat 1))
  ∧ Fixed8_decode 0xFF = 1%float
  ∧ PrimFloat.eqb (Fixed8_decode 0xFF) (254 / 255 * 2 - 1)%float = false
  ∧ (Fixed8_decode 0xFF <? 0.9923)%float = false
  ∧ Fixed8_decode 0xFE = (254 / 255 * 2 - 1)%float.
Proof. repeat split; vm_compute; reflexivity. Qed.

(** Encoding what a byte decodes to gives the byte back, for all 256
    bytes. *)
Lemma Fixed8_roundtrip (B : Z) :
  0 ≤ B ≤ 255 → Fixed8_encode (Fixed8_decode B) = Ok B.
Proof.
  intros HB.
  assert (forallb Fixed8_roundtrips (range 0 256) = true) as Hall
    by (vm_compute; reflexivity).
  rewrite forallb_forall in Hall.
  specialize (Hall B). unfold Fixed8_roundtrips in Hall.
  destruct (Fixed8_encode (Fixed8_decode B)) as [r |].
  - f_equal. apply Z.eqb_eq, Hall. unfold range.
    apply in_map_iff. exists (Z.to_nat B). split; [lia |].
    apply in_seq. lia.
  - discriminate Hall. unfold range.
    apply in_map_iff. exists (Z.to_nat B). split; [lia |].
    apply in_seq. lia.
Qed.

(** ** Named bits *)

Lemma nameToFieldMap_fold (l : list Field) : ∀ (m : gmap string Field),
  (∀ k f, m !! k = Some f → field_name f = k) →
  ∀ k f, foldl (λ m field, <[field_name field := field]> m) m l !! k = Some f →
         field_name f = k.
Proof.
  induction l as [| g l IH]; intros m Hm k f; cbn [foldl]; [apply Hm |].
  apply IH. intros k' f'. destruct (decide (field_name g = k')) as [<- | Hne].
  - rewrite lookup_insert_eq. by intros [= <-].
  - rewrite lookup_insert_ne by done. apply Hm.
Qed.

Lemma nameToFieldMap_name (d : M3StructureDescription) (k : string) (f : Field) :
  nameToFieldMap d !! k = Some f → field_name f = k.
Proof.
  apply nameToFieldMap_fold. intros k' f'. by rewrite lookup_empty.
Qed.

Section NamedBits.
Variables (x : M3Structure) (fieldName bitName : string).
Variables (n : string) (t : primitiveType) (since till : option Z)
          (defaultValue : Z) (expectedValue : option Z)
          (bitMaskMap : gmap string Z) (mask intValue : Z).
Hypothesis field_known :
  nameToFieldMap (structureDescription x) !! fieldName
  = Some (IntField n t since till defaultValue expectedValue bitMaskMap).
Hypothesis bit_known : bitMaskMap !! bitName = Some mask.
Hypothesis field_value : attrs x !! fieldName = Some (VInt intValue).

(** What the two methods compute on an int field that has the named bit and
    holds an integer. *)
Lemma field_named : n = fieldName.
Proof. exact (nameToFieldMap_name _ _ _ field_known). Qed.

Lemma setNamedBit_eq (v : bool) :
  setNamedBit x fieldName bitName v =
    Ok (if v then setattr x fieldName (VInt (Z.lor intValue mask))
        else if negb (Z.land intValue mask =? 0)
             then setattr x fieldName (VInt (Z.lxor intValue mask))
             else x).
Proof.
  unfold setNamedBit. rewrite field_known. cbn [or_raise mbind result_bind].
  unfold IntField_setNamedBit. rewrite bit_known, field_named.
  cbn [or_raise mbind result_bind]. unfold getattr. rewrite field_value.
  cbn [or_raise mbind result_bind].
  destruct v; [done |]. by destruct (negb _).
Qed.

Lemma getNamedBit_eq :
  getNamedBit x fieldName bitName = Ok (negb (Z.land intValue mask =? 0)).
Proof.
  unfold getNamedBit. rewrite field_known. cbn [or_raise mbind result_bind].
  unfold IntField_getNamedBit. rewrite bit_known, field_named.
  cbn [or_raise mbind result_bind]. unfold getattr. by rewrite field_value.
Qed.
End NamedBits.

(** Bit arithmetic of setting and clearing under a mask. *)
Lemma land_lor_same (a m : Z) : Z.land (Z.lor a m) m = m.
Proof.
  apply Z.bits_inj'. intros i Hi. rewrite Z.land_spec, Z.lor_spec.
  destruct (Z.testbit a i), (Z.testbit m i); done.
Qed.

Lemma land_lxor_same (a m : Z) :
  Z.land a m = m → Z.land (Z.lxor a m) m = 0.
Proof.
  intros H. apply Z.bits_inj'. intros i Hi.
  rewrite Z.land_spec, Z.lxor_spec, Z.bits_0.
  apply (f_equal (λ z, Z.testbit z i)) in H. rewrite Z.land_spec in H.
  destruct (Z.testbit a i), (Z.testbit m i); done.
Qed.

Lemma land_pow2_cases (a k : Z) :
  0 ≤ k → Z.land a (2 ^ k) = 0 ∨ Z.land a (2 ^ k) = 2 ^ k.
Proof.
  intros Hk. destruct (Z.testbit a k) eqn:E; [right | left];
    apply Z.bits_inj'; intros i Hi; rewrite Z.land_spec, ?Z.bits_0;
    destruct (decide (i = k)) as [-> | Hne];
    rewrite ?E, ?Z.pow2_bits_eqb, ?Z.eqb_refl by lia; try done.
  - destruct (Z.eqb_spec k i); [lia |]. by rewrite andb_false_r.
  - destruct (Z.eqb_spec k i); [lia |]. by rewrite andb_false_r.
Qed.

(** Setting an attribute twice is setting it to the last value. *)
Lemma setattr_setattr (x : M3Structure) (k : string) (v w : value) :
  setattr (setattr x k v) k w = setattr x k w.
Proof. unfold setattr. cbn. by rewrite insert_insert_eq. Qed.

(** Setting a named bit to [v] twice is setting it once when [v] is true,
    and when the bits of the field under the mask are all clear or all
    set. *)
Lemma setNamedBit_twice_condition
    (x : M3Structure) (fieldName bitName n : string) (t : primitiveType)
    (since till : option Z) (defaultValue : Z) (expectedValue : option Z)
    (bitMaskMap : gmap string Z) (mask intValue : Z) (v : bool) :
  nameToFieldMap (structureDescription x) !! fieldName
    = Some (IntField n t since till defaultValue expectedValue bitMaskMap) →
  bitMaskMap !! bitName = Some mask →
  attrs x !! fieldName = Some (VInt intValue) →
  v = true ∨ Z.land intValue mask = 0 ∨ Z.land intValue mask = mask →
  ∃ x1, setNamedBit x fieldName bitName v = Ok x1
        ∧ setNamedBit x1 fieldName bitName v = Ok x1.
Proof.
  intros Hf Hb Hv Hcond.
  rewrite (setNamedBit_eq _ _ _ _ _ _ _ _ _ _ _ _ Hf Hb Hv).
  eexists. split; [reflexivity |].
  destruct v.
  - erewrite setNamedBit_eq; [| exact Hf | exact Hb | apply lookup_insert_eq].
    by rewrite setattr_setattr, <- Z.lor_assoc, Z.lor_diag.
  - destruct Hcond as [? | [H0 | Hm]]; [done | |].
    + rewrite H0. cbn [Z.eqb negb].
      erewrite setNamedBit_eq; [| exact Hf | exact Hb | exact Hv].
      by rewrite H0.
    + destruct (Z.eqb_spec (Z.land intValue mask) 0) as [E0 | Ene]; cbn [negb].
      * erewrite setNamedBit_eq; [| exact Hf | exact Hb | exact Hv].
        by rewrite E0.
      * erewrite setNamedBit_eq; [| exact Hf | exact Hb | apply lookup_insert_eq].
        by rewrite (land_lxor_same _ _ Hm).
Qed.

(** C6, amended: for an int field with a named bit, reading the bit after
    setting it to true gives true when the mask of the bit is not zero;
    setting the bit to true twice leaves the owner as setting it once does,
    for every mask; and so does setting it to false twice when the mask is
    a single bit. *)
Theorem namedBit_laws
    (x : M3Structure) (fieldName bitName n : string) (t : primitiveType)
    (since till : option Z) (defaultValue : Z) (expectedValue : option Z)
    (bitMaskMap : gmap string Z) (mask intValue : Z) :
  nameToFieldMap (structureDescription x) !! fieldName
    = Some (IntField n t since till defaultValue expectedValue bitMaskMap) →
  bitMaskMap !! bitName = Some mask →
  attrs x !! fieldName = Some (VInt intValue) →
  (mask ≠ 0 →
     ∃ x1, setNamedBit x fieldName bitName true = Ok x1
           ∧ getNamedBit x1 fieldName bitName = Ok true)
  ∧ (∃ x1, setNamedBit x fieldName bitName true = Ok x1
           ∧ setNamedBit x1 fieldName bitName true = Ok x1)
  ∧ ((∃ k : Z, 0 ≤ k ∧ mask = 2 ^ k) →
     ∃ x1, setNamedBit x fieldName bitName false = Ok x1
           ∧ setNamedBit x1 fieldName bitName false = Ok x1).
Proof.
  intros Hf Hb Hv. split; [| split].
  - intros Hmask.
    rewrite (setNamedBit_eq _ _ _ _ _ _ _ _ _ _ _ _ Hf Hb Hv).
    eexists. split; [reflexivity |].
    erewrite getNamedBit_eq; [| exact Hf | exact Hb | apply lookup_insert_eq].
    rewrite land_lor_same. by destruct (Z.eqb_spec mask 0).
  - eapply setNamedBit_twice_condition; eauto.
  - intros (k & Hk & ->).
    eapply setNamedBit_twice_condition; eauto.
    right. by apply land_pow2_cases.
Qed.

(** The laws on the single-bit mask [0x4] of the example owner. *)
Lemma namedBit_laws_witness :
  (∃ x1, setNamedBit (example_flagsOwner 1) "flags" "visible" true = Ok x1
         ∧ getNamedBit x1 "flags" "visible" = Ok true)
  ∧ (∃ x1, setNamedBit (example_flagsOwner 1) "flags" "visible" true = Ok x1
           ∧ setNamedBit x1 "flags" "visible" true = Ok x1)
  ∧ (∃ x1, setNamedBit (example_flagsOwner 1) "flags" "visible" false = Ok x1
           ∧ setNamedBit x1 "flags" "visible" false = Ok x1).
Proof.
  destruct (namedBit_laws (example_flagsOwner 1) "flags" "visible" "flags"
              T_uint32 None None 0 None
              (<["visible" := 0x4]> (<["mode" := 0x3]> (<["never" := 0x0]> ∅)))
              4 1 eq_refl eq_refl eq_refl) as (Hget & Hset & Hclear).
  split; [apply Hget; lia |]. split; [exact Hset |].
  apply Hclear. exists 2. split; [lia | reflexivity].
Defined.

(** C9: [setNamedBit] succeeds on an int field with the named bit and
    changes, of the whole owner, only bits of that field under the mask of
    the bit: every bit of the field outside the mask, every other attribute
    and the structure description keep their values. *)
Theorem setNamedBit_frame
    (x : M3Structure) (fieldName bitName n : string) (t : primitiveType)
    (since till : option Z) (defaultValue : Z) (expectedValue : option Z)
    (bitMaskMap : gmap string Z) (mask intValue : Z) (v : bool) :
  nameToFieldMap (structureDescription x) !! fieldName
    = Some (IntField n t since till defaultValue expectedValue bitMaskMap) →
  bitMaskMap !! bitName = Some mask →
  attrs x !! fieldName = Some (VInt intValue) →
  ∃ (x' : M3Structure) (intValue' : Z),
    setNamedBit x fieldName bitName v = Ok x'
    ∧ structureDescription x' = structureDescription x
    ∧ attrs x' !! fieldName = Some (VInt intValue')
    ∧ (∀ i : Z, Z.testbit mask i = false →
         Z.testbit intValue' i = Z.testbit intValue i)
    ∧ (∀ other : string, other ≠ fieldName →
         attrs x' !! other = attrs x !! other).
Proof.
  intros Hf Hb Hv.
  rewrite (setNamedBit_eq _ _ _ _ _ _ _ _ _ _ _ _ Hf Hb Hv).
  destruct v; [| destruct (negb _)].
  - eexists _, _. split; [reflexivity |]. split; [done |].
    split; [apply lookup_insert_eq |]. split.
    + intros i Hi. by rewrite Z.lor_spec, Hi, orb_false_r.
    + intros other Hne. cbn. by rewrite lookup_insert_ne.
  - eexists _, _. split; [reflexivity |]. split; [done |].
    split; [apply lookup_insert_eq |]. split.
    + intros i Hi. by rewrite Z.lxor_spec, Hi, xorb_false_r.
    + intros other Hne. cbn. by rewrite lookup_insert_ne.
  - exists x, intValue. done.
Qed.

(** Clearing the bits [0x3] of the value 5 of the example owner. *)
Lemma setNamedBit_frame_witness :
  ∃ (x' : M3Structure) (intValue' : Z),
    setNamedBit (example_flagsOwner 5) "flags" "mode" false = Ok x'
    ∧ structureDescription x' = structureDescription (example_flagsOwner 5)
    ∧ attrs x' !! "flags"%string = Some (VInt intValue')
    ∧ (∀ i : Z, Z.testbit 3 i = false → Z.testbit intValue' i = Z.testbit 5 i)
    ∧ (∀ other : string, other ≠ "flags"%string →
         attrs x' !! other = attrs (example_flagsOwner 5) !! other).
Proof.
  exact (setNamedBit_frame (example_flagsOwner 5) "flags" "mode" "flags" T_uint32
           None None 0 None
           (<["visible" := 0x4]> (<["mode" := 0x3]> (<["never" := 0x0]> ∅)))
           3 5 false eq_refl eq_refl eq_refl).
Defined.

(** Against C6 as stated: the bit with the mask [0x0] reads false after it
    was set to true; and on the value 1, setting the bit with the mask [0x3]
    to false once gives 2 and twice gives 1. *)
Lemma namedBit_laws_counterexample :
  (∃ x1, setNamedBit (example_flagsOwner 1) "flags" "never" true = Ok x1
         ∧ getNamedBit x1 "flags" "never" = Ok false)
  ∧ (∃ x1 x2,
       setNamedBit (example_flagsOwner 1) "flags" "mode" false = Ok x1
       ∧ setNamedBit x1 "flags" "mode" false = Ok x2
       ∧ attrs x1 !! "flags"%string = Some (VInt 2)
       ∧ attrs x2 !! "flags"%string = Some (VInt 1)).
Proof.
  split.
  - exists (example_flagsOwner 1). split; vm_compute; reflexivity.
  - exists (example_flagsOwner 2), (example_flagsOwner 1).
    repeat split; vm_compute; reflexivity.
Qed.


(** ** Resolution of references *)

Lemma py_position_valid (n : nat) (i : Z) :
  0 ≤ i < Z.of_nat n → py_position n i = Ok (Z.to_nat i).
Proof.
  intros Hi. unfold py_position.
  destruct (Z.leb_spec 0 i); [| lia]. by destruct (Z.ltb_spec i (Z.of_nat n)); [| lia].
Qed.

(** C1: for a reference field with a history of referents and a reference
    with [entries > 0] and a valid section index, [resolveIndexReferences]
    raises when the section has fewer repetitions than the reference has
    entries or when its tag is not the name of the history, and then the
    owner is as it was; otherwise it succeeds, and the owner then holds the
    content of the section under the name of the field, with every other
    attribute and the description as before. In both cases
    [timesReferenced] of that section has grown by one, the section holds
    the content object, the description and the raw bytes it held, there
    are as many sections as before, and every other section has the
    counter, the content object, the description and the raw bytes it had.
    What the content objects hold is not stated: the owner may be part of
    one. *)
Theorem resolveIndexReferences_checks (name : string)
    (referenceStructureDescription : M3StructureDescription)
    (expectedTagName : string) (since till : option Z)
    (owner : M3Structure) (sections : list Section) (ref : Reference.t)
    (referencedSection : Section) (entry : IndexEntry.t)
    (referencedObjects : object) :
  attrs owner !! name = Some (VReference ref) →
  0 < Reference.entries ref →
  0 ≤ Reference.index ref < Z.of_nat (length sections) →
  sections !! Z.to_nat (Reference.index ref) = Some referencedSection →
  indexEntry referencedSection = Some entry →
  content referencedSection = Some referencedObjects →
  let self :=
    ReferenceField name referenceStructureDescription (Some expectedTagName)
      since till in
  let outcome := ReferenceField_resolveIndexReferences self owner sections in
  (IndexEntry.repetitions entry < Reference.entries ref
   ∨ IndexEntry.tag entry ≠ expectedTagName →
     ∃ e : exn, outcome.1.1 = Raise e ∧ outcome.1.2 = owner)
  ∧ (¬ (IndexEntry.repetitions entry < Reference.entries ref
        ∨ IndexEntry.tag entry ≠ expectedTagName) →
     outcome.1.1 = Ok tt
     ∧ outcome.1.2 = setattr owner name (object_val referencedObjects)
     ∧ attrs outcome.1.2 !! name = Some (object_val referencedObjects)
     ∧ (∀ other : string, other ≠ name →
          attrs outcome.1.2 !! other = attrs owner !! other)
     ∧ structureDescription outcome.1.2 = structureDescription owner)
  ∧ (∃ counted : Section,
       outcome.2 !! Z.to_nat (Reference.index ref) = Some counted
       ∧ timesReferenced counted = timesReferenced referencedSection + 1
       ∧ contentId counted = contentId referencedSection
       ∧ sectionDescription counted = sectionDescription referencedSection
       ∧ rawBytes counted = rawBytes referencedSection)
  ∧ length outcome.2 = length sections
  ∧ (∀ (j : nat) (section : Section),
       j ≠ Z.to_nat (Reference.index ref) →
       sections !! j = Some section →
       ∃ section' : Section,
         outcome.2 !! j = Some section'
         ∧ timesReferenced section' = timesReferenced section
         ∧ contentId section' = contentId section
         ∧ sectionDescription section' = sectionDescription section
         ∧ rawBytes section' = rawBytes section).
Proof.
  intros Hattr Hentries Hindex Hsec Hentry Hcontent self outcome.
  set (counted :=
    set_timesReferenced referencedSection (timesReferenced referencedSection + 1)).
  set (sections' := <[Z.to_nat (Reference.index ref) := counted]> sections).
  assert (outcome =
    if IndexEntry.repetitions entry <? Reference.entries ref
    then (Raise (Exception "references more elements then there actually are"),
          owner, sections')
    else if negb (String.eqb (IndexEntry.tag entry) expectedTagName)
    then (Raise (Exception "Expected ref point to another tag"), owner, sections')
    else (Ok tt, setattr owner name (object_val referencedObjects), sections'))
    as Hout.
  { unfold outcome, self, ReferenceField_resolveIndexReferences, getattr.
    rewrite Hattr. cbn [or_raise].
    destruct (Z.eqb_spec (Reference.entries ref) 0) as [E | _]; [lia |].
    rewrite py_position_valid by done. rewrite Hsec.
    cbn [indexEntry content set_timesReferenced]. rewrite Hentry, Hcontent.
    reflexivity. }
  assert (outcome.2 = sections') as Hsections.
  { rewrite Hout. destruct (_ <? _); [done |]. by destruct (negb _). }
  split; [| split; [| split; [| split]]].
  - intros Hbad. rewrite Hout.
    destruct (Z.ltb_spec (IndexEntry.repetitions entry) (Reference.entries ref));
      [by eexists |].
    destruct (String.eqb_spec (IndexEntry.tag entry) expectedTagName);
      [| by eexists].
    destruct Hbad; [lia | done].
  - intros Hgood. rewrite Hout.
    destruct (Z.ltb_spec (IndexEntry.repetitions entry) (Reference.entries ref));
      [tauto |].
    destruct (String.eqb_spec (IndexEntry.tag entry) expectedTagName);
      [| tauto].
    cbn [negb fst snd]. do 2 (split; [reflexivity |]). setattr_facts.
  - rewrite Hsections. exists counted. split; [| done].
    apply list_lookup_insert_eq. by apply lookup_lt_Some in Hsec.
  - rewrite Hsections. apply length_insert.
  - intros j section Hj Hsection. rewrite Hsections. exists section.
    split; [| done]. unfold sections'. by rewrite list_lookup_insert_ne.
Qed.

(** Resolving a reference with four entries to the [CHAR] section of the
    example sections. *)
Lemma resolveIndexReferences_checks_witness :
  let ref := {| Reference.entries := 4; Reference.index := 1;
                Reference.flags := 0 |} in
  let outcome :=
    ReferenceField_resolveIndexReferences example_nameField
      (example_nameOwner (VReference ref)) example_loadedSections in
  outcome.1.1 = Ok tt
  ∧ attrs outcome.1.2 !! "name"%string = Some (VStr "abc")
  ∧ ∃ counted : Section,
      outcome.2 !! 1%nat = Some counted ∧ timesReferenced counted = 1.
Proof.
  intros ref outcome.
  destruct (resolveIndexReferences_checks "name" example_ReferenceV0 "CHAR"
              None None (example_nameOwner (VReference ref))
              example_loadedSections ref _ _ _
              eq_refl eq_refl ltac:(cbn; lia) eq_refl eq_refl eq_refl)
    as (_ & Hok & (counted & Hcounted & Htimes & _) & _).
  destruct Hok as (Hres & _ & Hname & _).
  { cbn. intros [H | H]; [lia | congruence]. }
  split; [exact Hres |]. split; [exact Hname |].
  exists counted. split; [exact Hcounted | exact Htimes].
Defined.




(** ** Sharing of sections on save *)

Lemma maker_wf_init : maker_wf IndexReferenceSourceAndSectionListMaker_init.
Proof.
  split; [done |]. split.
  - intros i r. cbn. by rewrite lookup_empty.
  - intros k sec. cbn. by rewrite lookup_nil.
Qed.

(** An object that the maker remembers gets the remembered reference, and
    the maker stays as it is. *)
Lemma getIndexReferenceTo_known (m : IndexReferenceSourceAndSectionListMaker)
    (o : object) (rd : M3StructureDescription)
    (d : option M3StructureDescription) (r : Reference.t) :
  objectsIdToIndexReferenceMap m !! object_id o = Some r →
  getIndexReferenceTo m o rd d = Ok (r, m).
Proof. intros H. unfold getIndexReferenceTo. by rewrite H. Qed.

(** The content of a section with entries can be measured in bytes. *)
Lemma countBytesRequired_total (d : M3StructureDescription) (v : value) (n : Z) :
  countInstances d v = Ok n → 0 < n →
  ∃ b, countBytesRequiredForInstances d v = Ok b.
Proof.
  unfold countBytesRequiredForInstances, countInstances.
  destruct (String.eqb (structureName d) "CHAR").
  - destruct v; cbn [py_len mbind result_bind]; intros [= <-] Hn;
      try lia; by eexists.
  - intros -> _. by eexists.
Qed.

(** An object that the maker does not remember: without entries it gets a
    reference to the next free index and the maker stays as it is; with
    entries the maker remembers the reference and appends a section that
    holds the object. *)
Lemma getIndexReferenceTo_unknown (m : IndexReferenceSourceAndSectionListMaker)
    (o : object) (rd : M3StructureDescription)
    (d : option M3StructureDescription) (n : Z) :
  objectsIdToIndexReferenceMap m !! object_id o = None →
  requestedRepetitions (o, d) = Ok n →
  let r := {| Reference.entries := n;
              Reference.index := nextFreeIndexPosition m;
              Reference.flags := 0 |} in
  (n ≤ 0 → getIndexReferenceTo m o rd d = Ok (r, m))
  ∧ (0 < n →
       ∃ (d' : M3StructureDescription) (sec : Section) (bytes : Z),
         d = Some d'
         ∧ content sec = Some o
         ∧ getIndexReferenceTo m o rd d
           = Ok (r, {| objectsIdToIndexReferenceMap :=
                         <[object_id o := r]> (objectsIdToIndexReferenceMap m);
                       offset := offset m + bytes;
                       nextFreeIndexPosition := nextFreeIndexPosition m + 1;
                       sections := sections m ++ [sec] |})).
Proof.
  intros Hnew Hreq r. unfold requestedRepetitions in Hreq. cbn [fst snd] in Hreq.
  unfold getIndexReferenceTo. rewrite Hnew, Hreq. cbn [mbind result_bind].
  split; intros Hn.
  - destruct (Z.ltb_spec 0 n); [lia | done].
  - destruct (Z.ltb_spec 0 n); [| lia].
    destruct d as [d' |]; [| injection Hreq as <-; lia].
    cbn [or_raise mbind result_bind].
    unfold bytesRequiredForContent. cbn [sectionDescription content or_raise
      mbind result_bind].
    destruct (countBytesRequired_total d' (object_val o) n Hreq Hn) as [b ->].
    cbn [mbind result_bind]. eexists _, _, _. split; [done |].
    split; [| reflexivity]. done.
Qed.

(** A request whose repetitions can be counted is answered. *)
Lemma getIndexReferenceTo_total (m : IndexReferenceSourceAndSectionListMaker)
    (o : object) (rd : M3StructureDescription)
    (d : option M3StructureDescription) (n : Z) :
  requestedRepetitions (o, d) = Ok n →
  ∃ r m', getIndexReferenceTo m o rd d = Ok (r, m').
Proof.
  intros Hreq.
  destruct (objectsIdToIndexReferenceMap m !! object_id o) as [r |] eqn:E.
  - exists r, m. by apply getIndexReferenceTo_known.
  - destruct (getIndexReferenceTo_unknown m o rd d n E Hreq) as [Hle Hgt].
    destruct (decide (n ≤ 0)) as [Hn | Hn].
    + eexists _, _. by apply Hle.
    + destruct Hgt as (d' & sec & b & _ & _ & ->); [lia |]. by eexists _, _.
Qed.

(** One call keeps the invariant, forgets nothing, answers a remembered
    object with the remembered reference and remembers the answer to a
    request with entries. *)
Lemma getIndexReferenceTo_step (m m' : IndexReferenceSourceAndSectionListMaker)
    (o : object) (rd : M3StructureDescription)
    (d : option M3StructureDescription) (r : Reference.t) :
  maker_wf m →
  getIndexReferenceTo m o rd d = Ok (r, m') →
  maker_wf m'
  ∧ objectsIdToIndexReferenceMap m ⊆ objectsIdToIndexReferenceMap m'
  ∧ (∀ r0, objectsIdToIndexReferenceMap m !! object_id o = Some r0 → r = r0)
  ∧ (∀ n, requestedRepetitions (o, d) = Ok n → 0 < n →
          objectsIdToIndexReferenceMap m' !! object_id o = Some r).
Proof.
  intros (Hnext & Hmemo & Hsecs) Hcall.
  destruct (objectsIdToIndexReferenceMap m !! object_id o) as [r0 |] eqn:E.
  - rewrite (getIndexReferenceTo_known _ _ _ _ _ E) in Hcall.
    injection Hcall as <- <-.
    split; [done |]. split; [done |]. split; [congruence | done].
  - assert (∃ n, requestedRepetitions (o, d) = Ok n) as [n Hreq].
    { unfold getIndexReferenceTo in Hcall. rewrite E in Hcall.
      unfold requestedRepetitions. cbn [fst snd].
      destruct d as [d' |]; [| by eexists].
      destruct (countInstances d' (object_val o)); [by eexists | done]. }
    destruct (getIndexReferenceTo_unknown m o rd d n E Hreq) as [Hle Hgt].
    destruct (decide (n ≤ 0)) as [Hn | Hn].
    + rewrite (Hle Hn) in Hcall. injection Hcall as <- <-.
      split; [done |]. split; [done |]. split; [congruence |].
      intros n' Hreq' Hn'. assert (n' = n) by congruence. lia.
    + destruct Hgt as (d' & sec & b & -> & Hcontent & Heq); [lia |].
      rewrite Heq in Hcall. injection Hcall as <- <-.
      split; [| split; [| split]].
      * split; [| split]; cbn [nextFreeIndexPosition sections
                                objectsIdToIndexReferenceMap].
        -- rewrite length_app. cbn. lia.
        -- intros i r1. destruct (decide (object_id o = i)) as [<- | Hne].
           ++ rewrite lookup_insert_eq. intros [= <-].
              cbn [Reference.entries Reference.index].
              split; [lia |]. split; [lia |]. exists sec.
              rewrite Hnext, Nat2Z.id. split.
              ** rewrite lookup_app_r by lia. by rewrite Nat.sub_diag.
              ** unfold contentId. by rewrite Hcontent.
           ++ rewrite lookup_insert_ne by done. intros Hi.
              destruct (Hmemo _ _ Hi) as (He & Hi0 & s & Hs & Hc).
              split; [done |]. split; [done |]. exists s. split; [| done].
              by apply lookup_app_l_Some.
        -- intros k s Hk. apply lookup_app_Some in Hk as [Hk | [Hlen Hk]].
           ++ destruct (Hsecs _ _ Hk) as (i & r1 & Hc & Hi & Hidx).
              exists i, r1. split; [done |]. split; [| done].
              rewrite lookup_insert_ne; [done |]. congruence.
           ++ destruct (k - length (sections m))%nat as [| ?] eqn:Ek;
                [| by rewrite lookup_cons, lookup_nil in Hk].
              injection Hk as <-. eexists _, _. split.
              ** unfold contentId. by rewrite Hcontent.
              ** rewrite lookup_insert_eq. split; [done |].
                 cbn [Reference.index]. lia.
      * by apply insert_subseteq.
      * intros r0 Hr0. congruence.
      * intros n' _ _. cbn. by rewrite lookup_insert_eq.
Qed.

(** The same over the requests of a save. *)
Lemma getIndexReferences_total (rd : M3StructureDescription)
    (requests : list request) :
  Forall (λ q, ∃ n, requestedRepetitions q = Ok n) requests →
  ∀ m, ∃ refs m', getIndexReferences m rd requests = Ok (refs, m').
Proof.
  induction 1 as [| [o d] requests [n Hn] _ IH]; intros m; cbn [getIndexReferences].
  - by eexists _, _.
  - destruct (getIndexReferenceTo_total m o rd d n Hn) as (r & m1 & ->).
    cbn [mbind result_bind]. destruct (IH m1) as (refs & m' & ->).
    cbn [mbind result_bind]. by eexists _, _.
Qed.

(** Over the requests of a save the invariant is kept and nothing is
    forgotten; a request for a remembered object gets the remembered
    reference, and the answer to a request with entries is remembered at
    the end. *)
Lemma getIndexReferences_spec (rd : M3StructureDescription)
    (requests : list request) :
  ∀ (m m' : IndexReferenceSourceAndSectionListMaker) (refs : list Reference.t),
  maker_wf m →
  getIndexReferences m rd requests = Ok (refs, m') →
  maker_wf m'
  ∧ objectsIdToIndexReferenceMap m ⊆ objectsIdToIndexReferenceMap m'
  ∧ length refs = length requests
  ∧ ∀ (i : nat) (o : object) (d : option M3StructureDescription)
      (r : Reference.t),
      requests !! i = Some (o, d) → refs !! i = Some r →
      (∀ r0, objectsIdToIndexReferenceMap m !! object_id o = Some r0 → r = r0)
      ∧ (∀ n, requestedRepetitions (o, d) = Ok n → 0 < n →
              objectsIdToIndexReferenceMap m' !! object_id o = Some r).
Proof.
  induction requests as [| [o0 d0] requests IH]; intros m m' refs Hwf;
    cbn [getIndexReferences].
  - intros [= <- <-]. split; [done |]. split; [done |]. split; [done |].
    intros i o d r Hi. by rewrite lookup_nil in Hi.
  - destruct (getIndexReferenceTo m o0 rd d0) as [[r0 m1] |] eqn:Ecall; [| done].
    cbn [mbind result_bind].
    destruct (getIndexReferences m1 rd requests) as [[refs1 m2] |] eqn:Erun;
      [| done].
    cbn [mbind result_bind]. intros [= <- <-].
    destruct (getIndexReferenceTo_step _ _ _ _ _ _ Hwf Ecall)
      as (Hwf1 & Hsub1 & Hknown1 & Hnew1).
    destruct (IH _ _ _ Hwf1 Erun) as (Hwf2 & Hsub2 & Hlen & Hrefs).
    split; [done |]. split; [by etrans |]. split; [cbn; lia |].
    intros [| i] o d r; cbn [lookup]; rewrite ?lookup_cons.
    + intros [= <- <-] [= <-]. split; [done |].
      intros n Hreq Hn. eapply lookup_weaken; [| exact Hsub2]. by eapply Hnew1.
    + intros Hreq Hr. destruct (Hrefs _ _ _ _ Hreq Hr) as [Hknown Hnew].
      split; [| done]. intros r1 Hr1. apply Hknown.
      by eapply lookup_weaken.
Qed.

(** The maker remembers an object only for a request with entries. *)
Lemma getIndexReferenceTo_remembered
    (m m' : IndexReferenceSourceAndSectionListMaker) (o : object)
    (rd : M3StructureDescription) (d : option M3StructureDescription)
    (r : Reference.t) :
  getIndexReferenceTo m o rd d = Ok (r, m') →
  ∀ (i : positive) (x : Reference.t),
    objectsIdToIndexReferenceMap m' !! i = Some x →
    is_Some (objectsIdToIndexReferenceMap m !! i)
    ∨ (i = object_id o ∧ ∃ n, requestedRepetitions (o, d) = Ok n ∧ 0 < n).
Proof.
  unfold getIndexReferenceTo, requestedRepetitions. cbn [fst snd].
  destruct (objectsIdToIndexReferenceMap m !! object_id o) as [r0 |] eqn:E.
  { intros [= _ <-] i x Hx. left. by eexists. }
  destruct (match d with
            | Some d0 => countInstances d0 (object_val o)
            | None => Ok 0
            end) as [n |]; [| done].
  cbn [mbind result_bind].
  destruct (Z.ltb_spec 0 n) as [Hn | Hn].
  - destruct d as [d |]; [| done]. cbn [or_raise mbind result_bind].
    destruct (bytesRequiredForContent _) as [b |]; [| done].
    cbn [mbind result_bind]. intros [= _ <-] i x.
    cbn [objectsIdToIndexReferenceMap].
    destruct (decide (i = object_id o)) as [-> | Hne].
    + intros _. right. split; [done |]. by exists n.
    + rewrite lookup_insert_ne by done. intros Hx. left. by eexists.
  - intros [= _ <-] i x Hx. left. by eexists.
Qed.

Lemma getIndexReferences_remembered (rd : M3StructureDescription)
    (requests : list request) :
  ∀ (m m' : IndexReferenceSourceAndSectionListMaker) (refs : list Reference.t),
  getIndexReferences m rd requests = Ok (refs, m') →
  ∀ (i : positive) (x : Reference.t),
    objectsIdToIndexReferenceMap m' !! i = Some x →
    is_Some (objectsIdToIndexReferenceMap m !! i)
    ∨ ∃ (j : nat) (o : object) (d : option M3StructureDescription) (n : Z),
        requests !! j = Some (o, d) ∧ object_id o = i
        ∧ requestedRepetitions (o, d) = Ok n ∧ 0 < n.
Proof.
  induction requests as [| [o0 d0] requests IH]; intros m m' refs;
    cbn [getIndexReferences].
  - intros [= _ <-] i x Hx. left. by eexists.
  - destruct (getIndexReferenceTo m o0 rd d0) as [[r0 m1] |] eqn:Ecall; [| done].
    cbn [mbind result_bind].
    destruct (getIndexReferences m1 rd requests) as [[refs1 m2] |] eqn:Erun;
      [| done].
    cbn [mbind result_bind]. intros [= _ <-] i x Hx.
    destruct (IH _ _ _ Erun i x Hx) as [[y Hy] | (j & o & d & n & Hj & Hrest)].
    + destruct (getIndexReferenceTo_remembered _ _ _ _ _ _ Ecall i y Hy)
        as [Hm | (-> & n & Hn & Hpos)]; [by left |].
      right. by exists 0%nat, o0, d0, n.
    + right. by exists (S j), o, d, n.
Qed.

(** The requests of a save, taken in two parts. *)
Lemma getIndexReferences_app (rd : M3StructureDescription)
    (l1 l2 : list request) :
  ∀ (m m' : IndexReferenceSourceAndSectionListMaker) (refs : list Reference.t),
  getIndexReferences m rd (l1 ++ l2) = Ok (refs, m') →
  ∃ (refs1 : list Reference.t) (m1 : IndexReferenceSourceAndSectionListMaker)
    (refs2 : list Reference.t),
    getIndexReferences m rd l1 = Ok (refs1, m1)
    ∧ getIndexReferences m1 rd l2 = Ok (refs2, m')
    ∧ refs = refs1 ++ refs2.
Proof.
  induction l1 as [| [o0 d0] l1 IH]; intros m m' refs;
    cbn [app getIndexReferences].
  - intros Hrun. by exists [], m, refs.
  - destruct (getIndexReferenceTo m o0 rd d0) as [[r0 m0] |]; [| done].
    cbn [mbind result_bind].
    destruct (getIndexReferences m0 rd (l1 ++ l2)) as [[refs0 m2] |] eqn:Erun;
      [| done].
    cbn [mbind result_bind]. intros [= <- <-].
    destruct (IH _ _ _ Erun) as (refs1 & m1 & refs2 & -> & Hrun2 & ->).
    cbn [mbind result_bind]. by exists (r0 :: refs1), m1, refs2.
Qed.

(** C2, amended: in a save whose requests can all be counted, take two
    requests that ask for entries ([repetitions > 0]). If they are for the
    same object, they get the same reference, and exactly one section of
    the maker holds that object, the one at the index of the reference. If
    they are for two objects, equal or not, they get references with two
    indices, at which two sections hold the one and the other object.
    And a request for an object that is only ever requested with no
    repetitions gets a reference with [entries = 0] and the index that is
    free when the call is made, which is the number of the sections that
    the requests before it have made; the call leaves the maker as it is,
    and no section of the save holds the object. *)
Theorem getIndexReferenceTo_sharing
    (referenceStructureDescription : M3StructureDescription)
    (requests : list request) :
  Forall (λ q, ∃ n, requestedRepetitions q = Ok n) requests →
  ∃ (refs : list Reference.t) (m : IndexReferenceSourceAndSectionListMaker),
    getIndexReferences IndexReferenceSourceAndSectionListMaker_init
      referenceStructureDescription requests = Ok (refs, m)
    ∧ length refs = length requests
    ∧ (∀ (i j : nat) (oi oj : object) (di dj : option M3StructureDescription)
         (ri rj : Reference.t) (ni nj : Z),
         requests !! i = Some (oi, di) → requests !! j = Some (oj, dj) →
         refs !! i = Some ri → refs !! j = Some rj →
         requestedRepetitions (oi, di) = Ok ni → 0 < ni →
         requestedRepetitions (oj, dj) = Ok nj → 0 < nj →
         (object_id oi = object_id oj →
            ri = rj
            ∧ ∃ sec, sections m !! Z.to_nat (Reference.index ri) = Some sec
                     ∧ contentId sec = Some (object_id oi)
                     ∧ ∀ (k : nat) (sec' : Section),
                         sections m !! k = Some sec' →
                         contentId sec' = Some (object_id oi) →
                         k = Z.to_nat (Reference.index ri))
         ∧ (object_id oi ≠ object_id oj →
            Reference.index ri ≠ Reference.index rj
            ∧ ∃ si sj, sections m !! Z.to_nat (Reference.index ri) = Some si
                       ∧ contentId si = Some (object_id oi)
                       ∧ sections m !! Z.to_nat (Reference.index rj) = Some sj
                       ∧ contentId sj = Some (object_id oj)
                       ∧ Z.to_nat (Reference.index ri)
                         ≠ Z.to_nat (Reference.index rj)))
    ∧ (∀ (i : nat) (o : object) (d : option M3StructureDescription)
         (r : Reference.t),
         requests !! i = Some (o, d) → refs !! i = Some r →
         (∀ (j : nat) (oj : object) (dj : option M3StructureDescription),
            requests !! j = Some (oj, dj) → object_id oj = object_id o →
            requestedRepetitions (oj, dj) = Ok 0) →
         ∃ (refs_before : list Reference.t)
           (m_before : IndexReferenceSourceAndSectionListMaker),
           getIndexReferences IndexReferenceSourceAndSectionListMaker_init
             referenceStructureDescription (take i requests)
           = Ok (refs_before, m_before)
           ∧ Reference.entries r = 0
           ∧ Reference.index r = nextFreeIndexPosition m_before
           ∧ nextFreeIndexPosition m_before
             = Z.of_nat (length (sections m_before))
           ∧ getIndexReferenceTo m_before o referenceStructureDescription d
             = Ok (r, m_before)
           ∧ ∀ (k : nat) (sec : Section),
               sections m !! k = Some sec →
               contentId sec ≠ Some (object_id o)).
Proof.
  intros Hreqs.
  destruct (getIndexReferences_total referenceStructureDescription requests Hreqs
              IndexReferenceSourceAndSectionListMaker_init) as (refs & m & Hrun).
  exists refs, m. split; [done |].
  destruct (getIndexReferences_spec _ _ _ _ _ maker_wf_init Hrun)
    as ((Hnext & Hmemo & Hsecs) & _ & Hlen & Hrefs).
  split; [done |]. split.
  - intros i j oi oj di dj ri rj ni nj Hi Hj Hri Hrj Hni Hpi Hnj Hpj.
    destruct (Hrefs _ _ _ _ Hi Hri) as [_ Hmi]. specialize (Hmi _ Hni Hpi).
    destruct (Hrefs _ _ _ _ Hj Hrj) as [_ Hmj]. specialize (Hmj _ Hnj Hpj).
    destruct (Hmemo _ _ Hmi) as (_ & Hi0 & si & Hsi & Hci).
    destruct (Hmemo _ _ Hmj) as (_ & Hj0 & sj & Hsj & Hcj).
    split.
    + intros Hid. rewrite <- Hid in Hmj.
      assert (ri = rj) as <- by congruence.
      split; [done |]. exists si. split; [done |]. split; [done |].
      intros k sec' Hk Hc. destruct (Hsecs _ _ Hk) as (i' & r' & Hc' & Hm' & Hidx).
      assert (i' = object_id oi) as -> by congruence.
      assert (r' = ri) as -> by congruence. lia.
    + intros Hid.
      assert (Reference.index ri ≠ Reference.index rj) as Hne.
      { intros Heq. rewrite Heq in Hsi. congruence. }
      split; [done |]. exists si, sj. repeat (split; [done |]). lia.
  - intros i o d r Hi Hr Hzero.
    assert (Hnever : ∀ (l : list request)
                       (m0 : IndexReferenceSourceAndSectionListMaker)
                       (refs0 : list Reference.t),
              (∀ j q, l !! j = Some q → ∃ j', requests !! j' = Some q) →
              getIndexReferences IndexReferenceSourceAndSectionListMaker_init
                referenceStructureDescription l = Ok (refs0, m0) →
              objectsIdToIndexReferenceMap m0 !! object_id o = None).
    { intros l m0 refs0 Hsub Hrun0.
      destruct (objectsIdToIndexReferenceMap m0 !! object_id o) as [x |] eqn:Ex;
        [| done].
      destruct (getIndexReferences_remembered _ _ _ _ _ Hrun0 _ _ Ex)
        as [[y Hy] | (j & oj & dj & n & Hj & Hid & Hn & Hpos)].
      - cbn in Hy. by rewrite lookup_empty in Hy.
      - destruct (Hsub _ _ Hj) as [j' Hj'].
        rewrite (Hzero _ _ _ Hj' Hid) in Hn. injection Hn as <-. lia. }
    pose proof Hrun as Hsplit. rewrite <- (take_drop i requests) in Hsplit.
    destruct (getIndexReferences_app _ _ _ _ _ _ Hsplit)
      as (refs1 & m1 & refs2 & Hrun1 & Hrun2 & ->).
    destruct (getIndexReferences_spec _ _ _ _ _ maker_wf_init Hrun1)
      as ((Hnext1 & _ & _) & _ & Hlen1 & _).
    assert (i < length requests)%nat as Hilt by (by eapply lookup_lt_Some).
    rewrite length_take in Hlen1.
    assert (objectsIdToIndexReferenceMap m1 !! object_id o = None) as Hnone.
    { apply (Hnever _ _ _ ltac:(intros j q Hq; exists j;
               by apply lookup_take_Some in Hq as [? _]) Hrun1). }
    rewrite (@drop_S request requests (o, d) i Hi) in Hrun2.
    cbn [getIndexReferences] in Hrun2.
    destruct (getIndexReferenceTo_unknown m1 o referenceStructureDescription d 0
                Hnone (Hzero _ _ _ Hi eq_refl)) as [Hcall _].
    specialize (Hcall ltac:(lia)). rewrite Hcall in Hrun2.
    cbn [mbind result_bind] in Hrun2.
    destruct (getIndexReferences m1 _ (drop (S i) requests))
      as [[refs3 m3] |]; [| done].
    cbn [mbind result_bind] in Hrun2. injection Hrun2 as <- _.
    rewrite lookup_app_r in Hr by lia.
    replace (i - length refs1)%nat with 0%nat in Hr by lia.
    cbn [lookup list_lookup] in Hr. injection Hr as <-.
    exists refs1, m1. split; [done |]. split; [done |]. split; [done |].
    split; [done |]. split; [done |].
    intros k sec Hk Hc. destruct (Hsecs _ _ Hk) as (i' & r' & Hc' & Hm' & _).
    assert (i' = object_id o) as -> by congruence.
    by rewrite (Hnever _ _ _ ltac:(intros j q Hq; by exists j) Hrun) in Hm'.
Qed.

(** The three example requests, of two equal lists of which the first is
    requested twice, can be counted. *)
Lemma example_sharedRequests_ok :
  Forall (λ q, ∃ n, requestedRepetitions q = Ok n) example_sharedRequests.
Proof. repeat constructor; exists 1; reflexivity. Qed.

(** The example requests with the empty list can be counted as well. *)
Lemma example_requests_counted :
  Forall (λ q, ∃ n, requestedRepetitions q = Ok n) example_requests.
Proof.
  repeat constructor; [by exists 0 | by exists 1 | by exists 0].
Qed.

(** The first and the third example request are for the same list and get
    the same reference; and the empty list, requested after a list of one
    integer, gets no entries and the index 1. *)
Lemma getIndexReferenceTo_sharing_witness :
  (∃ (refs : list Reference.t) (m : IndexReferenceSourceAndSectionListMaker),
     getIndexReferences IndexReferenceSourceAndSectionListMaker_init
       example_ReferenceV0 example_sharedRequests = Ok (refs, m)
     ∧ length refs = 3%nat
     ∧ ∀ r0 r2, refs !! 0%nat = Some r0 → refs !! 2%nat = Some r2 → r0 = r2)
  ∧ (∃ (refs : list Reference.t) (m : IndexReferenceSourceAndSectionListMaker),
       getIndexReferences IndexReferenceSourceAndSectionListMaker_init
         example_ReferenceV0 example_requests = Ok (refs, m)
       ∧ ∀ r, refs !! 2%nat = Some r →
              Reference.entries r = 0 ∧ Reference.index r = 1).
Proof.
  split.
  - destruct (getIndexReferenceTo_sharing example_ReferenceV0
                example_sharedRequests example_sharedRequests_ok)
      as (refs & m & Hrun & Hlen & Hshare & _).
    exists refs, m. split; [exact Hrun |]. split; [exact Hlen |].
    intros r0 r2 H0 H2.
    destruct (Hshare 0%nat 2%nat example_oneInt example_oneInt
                (Some example_I32) (Some example_I32) r0 r2 1 1
                eq_refl eq_refl H0 H2 eq_refl ltac:(lia) eq_refl ltac:(lia))
      as [Hsame _].
    exact (proj1 (Hsame eq_refl)).
  - destruct (getIndexReferenceTo_sharing example_ReferenceV0
                example_requests example_requests_counted)
      as (refs & m & Hrun & _ & _ & Hempty).
    exists refs, m. split; [exact Hrun |]. intros r Hr.
    destruct (Hempty 2%nat example_emptyList None r eq_refl Hr)
      as (refs_before & m_before & Hbefore & Hentries & Hindex & _).
    + intros [| [| [| j]]] oj dj; cbn; intros [= <- <-]; try reflexivity.
      intros Hid. discriminate Hid.
    + split; [exact Hentries |]. rewrite Hindex.
      vm_compute in Hbefore. by injection Hbefore as _ <-.
Defined.

(** Against C2 as stated: the same empty list, requested before and after
    a list of one integer, gets the index 0 and then the index 1, and no
    section of the maker holds it. *)
Lemma getIndexReferenceTo_sharing_counterexample :
  ∃ m, getIndexReferences IndexReferenceSourceAndSectionListMaker_init
         example_ReferenceV0 example_requests
       = Ok ([ {| Reference.entries := 0; Reference.index := 0;
                  Reference.flags := 0 |};
               {| Reference.entries := 1; Reference.index := 0;
                  Reference.flags := 0 |};
               {| Reference.entries := 0; Reference.index := 1;
                  Reference.flags := 0 |} ], m)
       ∧ map contentId (sections m) = [Some (object_id example_oneInt)].
Proof.
  eexists. split; [vm_compute; reflexivity |]. vm_compute. reflexivity.
Qed.

(** The example requests evaluated: two sections for the two equal lists,
    of 16 bytes each, and the reference to the first list twice. *)
Example getIndexReferences_shared :
  ∃ m, getIndexReferences IndexReferenceSourceAndSectionListMaker_init
         example_ReferenceV0 example_sharedRequests
       = Ok ([ {| Reference.entries := 1; Reference.index := 0;
                  Reference.flags := 0 |};
               {| Reference.entries := 1; Reference.index := 1;
                  Reference.flags := 0 |};
               {| Reference.entries := 1; Reference.index := 0;
                  Reference.flags := 0 |} ], m)
       ∧ map contentId (sections m)
         = [Some (object_id example_oneInt); Some (object_id example_otherInt)]
       ∧ offset m = 32.
Proof.
  eexists. split; [vm_compute; reflexivity |]. split; vm_compute; reflexivity.
Qed.

(** * Further properties *)

(** ** Int fields *)

Lemma le_bytes_length (n : nat) : ∀ v : Z, length (le_bytes n v) = n.
Proof. induction n as [| n IH]; intros v; cbn; [done |]. by rewrite IH. Qed.

Lemma le_value_le_bytes (n : nat) : ∀ v : Z,
  0 ≤ v < 256 ^ Z.of_nat n → le_value (le_bytes n v) = v.
Proof.
  induction n as [| n IH]; intros v Hv; cbn [le_bytes le_value].
  - cbn in Hv. lia.
  - rewrite IH.
    + pose proof (Z.div_mod v 256 ltac:(lia)). lia.
    + rewrite Nat2Z.inj_succ, Z.pow_succ_r in Hv by lia.
      split; [apply Z.div_pos; lia |].
      apply Z.div_lt_upper_bound; lia.
Qed.

Lemma pow2_bits (n : nat) : 2 ^ (8 * Z.of_nat n) = 256 ^ Z.of_nat n.
Proof. rewrite Z.pow_mul_r by lia. reflexivity. Qed.

(** What was packed in an integer format unpacks to the same integer. *)
Lemma struct_int_roundtrip (signed : bool) (n : nat) (z : Z) (bs : list Z) :
  (0 < n)%nat →
  struct_pack_int signed n (VInt z) = Ok bs →
  length bs = n ∧ struct_unpack_int signed bs = z.
Proof.
  intros Hn. unfold struct_pack_int.
  set (bits := 8 * Z.of_nat n).
  assert (0 < 2 ^ (bits - 1)) as Hhalf by (apply Z.pow_pos_nonneg; lia).
  assert (2 ^ bits = 2 * 2 ^ (bits - 1)) as Hfull.
  { rewrite <- Z.pow_succ_r by lia. f_equal. lia. }
  destruct (_ && _) eqn:Erange; [| done]. intros [= <-].
  apply andb_prop in Erange as [Hlo Hhi].
  apply Z.leb_le in Hlo, Hhi.
  split; [apply le_bytes_length |].
  unfold struct_unpack_int. rewrite le_bytes_length. fold bits.
  rewrite le_value_le_bytes
    by (rewrite <- pow2_bits; fold bits; apply Z.mod_pos_bound; lia).
  destruct signed; cbn [andb] in *.
  - destruct (Z.leb_spec (2 ^ (bits - 1)) (z mod 2 ^ bits)) as [Hge | Hlt].
    + destruct (decide (0 ≤ z)) as [Hz | Hz].
      * rewrite Z.mod_small in Hge by lia. lia.
      * rewrite <- (Z.mod_add z 1 (2 ^ bits)), Z.mod_small by lia. lia.
    + destruct (decide (0 ≤ z)) as [Hz | Hz].
      * apply Z.mod_small. lia.
      * rewrite <- (Z.mod_add z 1 (2 ^ bits)), Z.mod_small in Hlt by lia. lia.
  - apply Z.mod_small. lia.
Qed.

(** The two tables of [IntField] hold the bounds of the [struct] formats. *)
Lemma int_tables_are_struct_ranges (t : primitiveType) (signed : bool) (n : nat) :
  intFormat t = Some (signed, n) →
  (0 < n)%nat
  ∧ intTypeToMinValue t
    = Some (if signed then - 2 ^ (8 * Z.of_nat n - 1) else 0)
  ∧ intTypeToMaxValue t
    = Some (if signed then 2 ^ (8 * Z.of_nat n - 1) - 1
            else 2 ^ (8 * Z.of_nat n) - 1).
Proof.
  destruct t; cbn; intros [= <- <-]; (split; [lia |]); split; reflexivity.
Qed.

Lemma IntField_validateContent_packs (name : string) (t : primitiveType)
    (since till : option Z) (defaultValue : Z) (expectedValue : option Z)
    (bitMaskMap : gmap string Z) (signed : bool) (n : nat) (v : Z) :
  intFormat t = Some (signed, n) →
  let self :=
    IntField name t since till defaultValue expectedValue bitMaskMap in
  (IntField_validateContent self (VInt v) = Ok tt
   ↔ ∃ bs, struct_pack_int signed n (VInt v) = Ok bs)
  ∧ (∀ f, IntField_validateContent self (VFloat f) ≠ Ok tt)
  ∧ IntField_validateContent self VNone ≠ Ok tt.
Proof.
  intros Hfmt self.
  destruct (int_tables_are_struct_ranges _ _ _ Hfmt) as (Hn & Hmin & Hmax).
  unfold self, IntField_validateContent. rewrite Hmin, Hmax.
  cbn [or_raise mbind result_bind]. split; [| done].
  unfold struct_pack_int.
  set (lo := if signed then _ else _). set (hi := if signed then _ else _).
  destruct (Z.ltb_spec v lo) as [? | ?], (Z.ltb_spec hi v) as [? | ?],
           (Z.leb_spec lo v) as [? | ?], (Z.leb_spec v hi) as [? | ?];
    cbn [orb andb]; try lia; split; intros Hyp; try done;
    try (by eexists); by destruct Hyp.
Qed.

(** X1: an integer that [validateContent] of an int field accepts, written
    by [writeToBuffer] into the bytes of the field and read back by
    [readFromBuffer], gives the owner as it was, for a field without an
    expected value or with that integer as expected value; the write changes
    the bytes of the field only. *)
Theorem IntField_write_read (name : string) (t : primitiveType)
    (since till : option Z) (defaultValue : Z) (expectedValue : option Z)
    (bitMaskMap : gmap string Z) (owner : M3Structure)
    (pre old post : list Z) (v : Z) (checkExpectedValue : bool) :
  let self :=
    IntField name t since till defaultValue expectedValue bitMaskMap in
  IntField_validateContent self (VInt v) = Ok tt →
  attrs owner !! name = Some (VInt v) →
  Z.of_nat (length old) = field_size self →
  expectedValue = None ∨ expectedValue = Some v →
  ∃ bs : list Z,
    length bs = length old
    ∧ IntField_writeToBuffer self owner (pre ++ old ++ post)
        (Z.of_nat (length pre)) = Ok (pre ++ bs ++ post)
    ∧ IntField_readFromBuffer self owner (pre ++ bs ++ post)
        (Z.of_nat (length pre)) checkExpectedValue = Ok owner.
Proof.
  intros self Hval Hattr Hold Hexp.
  destruct (intFormat t) as [[signed n] |] eqn:Hfmt.
  2: { unfold self, IntField_validateContent in Hval.
       destruct t; try discriminate Hfmt; done. }
  assert (field_size self = Z.of_nat n) as Hsize.
  { unfold self. cbn [field_size].
    destruct t; try discriminate Hfmt; injection Hfmt as _ <-; reflexivity. }
  destruct (proj1 (IntField_validateContent_packs name t since till defaultValue
              expectedValue bitMaskMap signed n v Hfmt)) as [Hpack _].
  destruct (Hpack Hval) as [bs Hbs].
  destruct (int_tables_are_struct_ranges _ _ _ Hfmt) as (Hn & _ & _).
  destruct (struct_int_roundtrip _ _ _ _ Hn Hbs) as [Hlen Hback].
  exists bs. split; [lia |]. split.
  - unfold self, IntField_writeToBuffer, getattr. rewrite Hfmt, Hattr.
    cbn [or_raise mbind result_bind]. rewrite Hbs. cbn [mbind result_bind].
    apply pack_into_app. lia.
  - unfold self, IntField_readFromBuffer. rewrite Hfmt.
    cbn [or_raise mbind result_bind]. rewrite <- Hlen.
    rewrite unpack_from_app. cbn [mbind result_bind]. rewrite Hback.
    assert (setattr owner name (VInt v) = owner) as ->.
    { destruct owner as [d a]. unfold setattr. cbn in *. by rewrite insert_id. }
    destruct Hexp as [-> | ->]; [done |]. by rewrite Z.eqb_refl.
Qed.

(** X2: [validateContent] of an int field accepts an integer exactly when
    [struct] packs it in the format of the type of the field, the two tables
    of [IntField] being the ranges of the formats; it accepts neither a
    float nor [None]. *)
Theorem IntField_validated_iff_packs (name : string) (t : primitiveType)
    (since till : option Z) (defaultValue : Z) (expectedValue : option Z)
    (bitMaskMap : gmap string Z) (signed : bool) (n : nat) (v : Z) :
  intFormat t = Some (signed, n) →
  let self :=
    IntField name t since till defaultValue expectedValue bitMaskMap in
  (IntField_validateContent self (VInt v) = Ok tt
   ↔ ∃ bs, struct_pack_int signed n (VInt v) = Ok bs)
  ∧ (∀ f, IntField_validateContent self (VFloat f) ≠ Ok tt)
  ∧ IntField_validateContent self VNone ≠ Ok tt.
Proof. apply IntField_validateContent_packs. Qed.

Lemma IntField_validated_iff_packs_witness :
  IntField_validateContent example_int16Field (VInt (-32768)) = Ok tt
  ∧ ∃ bs, struct_pack_int true 2 (VInt (-32768)) = Ok bs.
Proof.
  destruct (IntField_validated_iff_packs "x" T_int16 None None 0 None ∅ true 2
              (-32768) eq_refl) as [[Hto _] _].
  split; [reflexivity |]. apply Hto. reflexivity.
Defined.

Lemma IntField_write_read_witness :
  ∃ bs : list Z,
    length bs = 2%nat
    ∧ IntField_writeToBuffer example_int16Field (example_int16Owner (VInt (-2)))
        [7; 0; 0; 9] 1 = Ok ([7] ++ bs ++ [9])
    ∧ IntField_readFromBuffer example_int16Field (example_int16Owner (VInt (-2)))
        ([7] ++ bs ++ [9]) 1 true = Ok (example_int16Owner (VInt (-2))).
Proof.
  exact (IntField_write_read "x" T_int16 None None 0 None ∅
           (example_int16Owner (VInt (-2))) [7] [0; 0] [9] (-2) true
           eq_refl eq_refl eq_refl (or_introl eq_refl)).
Defined.

(** X3: an int field with an expected value raises on every other value that
    it reads, also when the caller passes [checkExpectedValue = False]:
    [PrimitiveField.readFromBuffer] does not look at the flag. *)
Theorem IntField_expected_value_always_checked (name : string)
    (t : primitiveType) (since till : option Z) (defaultValue e : Z)
    (bitMaskMap : gmap string Z) (owner : M3Structure)
    (pre bs post : list Z) (signed : bool) (checkExpectedValue : bool) :
  intFormat t = Some (signed, length bs) →
  struct_unpack_int signed bs ≠ e →
  ∃ msg : string,
    IntField_readFromBuffer
      (IntField name t since till defaultValue (Some e) bitMaskMap) owner
      (pre ++ bs ++ post) (Z.of_nat (length pre)) checkExpectedValue
    = Raise (Exception msg).
Proof.
  intros Hfmt Hne. unfold IntField_readFromBuffer. rewrite Hfmt.
  cbn [or_raise mbind result_bind]. rewrite unpack_from_app.
  cbn [mbind result_bind].
  destruct (Z.eqb_spec (struct_unpack_int signed bs) e); [done |].
  by eexists.
Qed.

Lemma IntField_expected_value_always_checked_witness :
  ∃ msg : string,
    IntField_readFromBuffer (IntField "x" T_uint16 None None 0 (Some 1) ∅)
      (example_int16Owner VNone) [2; 0] 0 false
    = Raise (Exception msg).
Proof.
  apply (IntField_expected_value_always_checked "x" T_uint16 None None 0 1 ∅
           (example_int16Owner VNone) [] [2; 0] [] false false eq_refl).
  vm_compute. discriminate.
Defined.

(** ** Fields of unknown bytes *)

(** X4: with [checkExpectedValue = False] a fixed8 field and a field of
    unknown bytes read whatever bytes are there, whatever value they
    expect: the call returns, and the owner then holds the decoded float,
    respectively the bytes read, under the name of the field, with every
    other attribute and the description as before. *)
Theorem expected_value_check_can_be_disabled (name : string)
    (t : primitiveType) (since till : option Z) (defaultFloat : float)
    (expectedFloat : option float) (size : Z) (defaultBytes : list Z)
    (expectedBytes : option (list Z)) (owner : M3Structure)
    (pre bs post : list Z) (B : Z) :
  Z.of_nat (length bs) = size →
  (∃ owner' : M3Structure,
     Fixed8Field_readFromBuffer
       (Fixed8Field name t since till defaultFloat expectedFloat) owner
       (pre ++ [B] ++ post) (Z.of_nat (length pre)) false
     = Ok owner'
     ∧ owner' = setattr owner name (VFloat (Fixed8_decode B))
     ∧ attrs owner' !! name = Some (VFloat (Fixed8_decode B))
     ∧ (∀ other : string, other ≠ name →
          attrs owner' !! other = attrs owner !! other)
     ∧ structureDescription owner' = structureDescription owner)
  ∧ (∃ owner' : M3Structure,
       UnknownBytesField_readFromBuffer
         (UnknownBytesField name size since till defaultBytes expectedBytes)
         owner (pre ++ bs ++ post) (Z.of_nat (length pre)) false
       = Ok owner'
       ∧ owner' = setattr owner name (VBytes bs)
       ∧ attrs owner' !! name = Some (VBytes bs)
       ∧ (∀ other : string, other ≠ name →
            attrs owner' !! other = attrs owner !! other)
       ∧ structureDescription owner' = structureDescription owner).
Proof.
  intros Hsize. split.
  - exists (setattr owner name (VFloat (Fixed8_decode B))).
    split; [| split; [reflexivity | setattr_facts]].
    unfold Fixed8Field_readFromBuffer.
    pose proof (unpack_from_app pre [B] post) as Hu. cbn [length] in Hu.
    by rewrite Hu.
  - exists (setattr owner name (VBytes bs)).
    split; [| split; [reflexivity | setattr_facts]].
    unfold UnknownBytesField_readFromBuffer. rewrite <- Hsize, Nat2Z.id.
    by rewrite unpack_from_app.
Qed.

Lemma expected_value_check_can_be_disabled_witness :
  (∃ owner',
     Fixed8Field_readFromBuffer
       (Fixed8Field "x" T_fixed8 None None 0 (Some 0%float))
       (example_fixed8Owner VNone) [0xFF] 0 false
     = Ok owner'
     ∧ attrs owner' !! "x"%string = Some (VFloat (Fixed8_decode 0xFF)))
  ∧ (∃ owner',
       UnknownBytesField_readFromBuffer
         (UnknownBytesField "x" 3 None None [0; 0; 0] (Some [0; 0; 0]))
         (example_fixed8Owner VNone) [1; 2; 3] 0 false
       = Ok owner'
       ∧ attrs owner' !! "x"%string = Some (VBytes [1; 2; 3])).
Proof.
  destruct (expected_value_check_can_be_disabled "x" T_fixed8 None None 0
              (Some 0%float) 3 [0; 0; 0] (Some [0; 0; 0])
              (example_fixed8Owner VNone) [] [1; 2; 3] [] 0xFF eq_refl)
    as [(o1 & Hr1 & _ & Hx1 & _) (o2 & Hr2 & _ & Hx2 & _)].
  split; [by exists o1 | by exists o2].
Defined.




(** ** Tags of other lengths *)

(** X7: for a tag whose length is not 4, [TagField.writeToBuffer] raises
    [IndexError] when the tag has fewer than three characters, and
    otherwise writes the first three characters in reverse and a zero
    byte; [readFromBuffer] on these bytes returns, and the owner then
    holds the first three characters of the tag under the name of the
    field, with every other attribute and the description as before. *)
Theorem TagField_write_other_lengths (self : Field) (owner : M3Structure)
    (pre old post : list Z) (s rest : string) (c0 c1 c2 : ascii)
    (checkExpectedValue : bool) :
  length old = 4%nat →
  attrs owner !! field_name self = Some (VStr s) →
  String.length s ≠ 4%nat →
  ((String.length s < 3)%nat →
     TagField_writeToBuffer self owner (pre ++ old ++ post)
       (Z.of_nat (length pre)) = Raise IndexError)
  ∧ (s = String c0 (String c1 (String c2 rest)) →
     ord c0 < 128 → ord c1 < 128 → ord c2 < 128 →
     let prefix := String c0 (String c1 (String c2 EmptyString)) in
     TagField_writeToBuffer self owner (pre ++ old ++ post)
       (Z.of_nat (length pre))
     = Ok (pre ++ [ord c2; ord c1; ord c0; 0] ++ post)
     ∧ ∃ owner' : M3Structure,
         TagField_readFromBuffer self owner
           (pre ++ [ord c2; ord c1; ord c0; 0] ++ post)
           (Z.of_nat (length pre)) checkExpectedValue
         = Ok owner'
         ∧ owner' = setattr owner (field_name self) (VStr prefix)
         ∧ attrs owner' !! field_name self = Some (VStr prefix)
         ∧ (∀ other : string, other ≠ field_name self →
              attrs owner' !! other = attrs owner !! other)
         ∧ structureDescription owner' = structureDescription owner).
Proof.
  intros Hold Hattr Hlen. split.
  - intros Hshort.
    unfold TagField_writeToBuffer, getattr. rewrite Hattr.
    cbn [or_raise mbind result_bind].
    destruct (Z.eqb_spec (Z.of_nat (String.length s)) 4) as [E | _]; [lia |].
    destruct s as [| a [| b [| c s']]]; cbn in Hshort |- *; try done; lia.
  - intros Hs H0 H1 H2 prefix. subst s. split.
    + unfold TagField_writeToBuffer, getattr. rewrite Hattr.
      cbn [or_raise mbind result_bind].
      destruct (Z.eqb_spec (Z.of_nat (String.length
                  (String c0 (String c1 (String c2 rest))))) 4) as [E | _];
        [lia |].
      cbn [str_index String.get or_raise mbind result_bind].
      rewrite encode_ascii_3 by done. cbn [mbind result_bind app].
      by apply (pack_into_app pre old post [ord c2; ord c1; ord c0; 0]).
    + exists (setattr owner (field_name self) (VStr prefix)).
      split; [| split; [reflexivity | setattr_facts]].
      unfold TagField_readFromBuffer.
      pose proof (unpack_from_app pre [ord c2; ord c1; ord c0; 0] post) as Hu.
      cbn [length] in Hu. rewrite Hu. cbn [mbind result_bind Z.eqb].
      unfold prefix. by rewrite !chr_ord.
Qed.

Lemma TagField_write_other_lengths_witness :
  TagField_writeToBuffer example_tagField (example_tagOwner "MODEL")
    [0; 0; 0; 0] 0
  = Ok [0x44; 0x4F; 0x4D; 0x00]
  ∧ ∃ owner',
      TagField_readFromBuffer example_tagField (example_tagOwner "MODEL")
        [0x44; 0x4F; 0x4D; 0x00] 0 true
      = Ok owner'
      ∧ attrs owner' !! "tag"%string = Some (VStr "MOD").
Proof.
  destruct (TagField_write_other_lengths example_tagField
              (example_tagOwner "MODEL") [] [0; 0; 0; 0] [] "MODEL" "EL"
              "M" "O" "D" true eq_refl eq_refl ltac:(discriminate))
    as [_ Hlong].
  destruct (Hlong eq_refl ltac:(reflexivity) ltac:(reflexivity)
              ltac:(reflexivity))
    as (Hwrite & owner' & Hread & _ & Htag & _).
  split; [exact Hwrite |]. by exists owner'.
Defined.

(** ** A fixed8 byte read and written back *)

(** X8: reading a byte with [Fixed8Field.readFromBuffer] and writing the
    owner back with [writeToBuffer] leaves the buffer as it was, for each of
    the 256 bytes. *)
Theorem Fixed8Field_read_write (name : string) (t : primitiveType)
    (since till : option Z) (defaultValue : float) (expectedValue : option float)
    (owner owner' : M3Structure) (pre post : list Z) (B : Z)
    (checkExpectedValue : bool) :
  0 ≤ B ≤ 255 →
  let self := Fixed8Field name t since till defaultValue expectedValue in
  Fixed8Field_readFromBuffer self owner (pre ++ [B] ++ post)
    (Z.of_nat (length pre)) checkExpectedValue = Ok owner' →
  Fixed8Field_writeToBuffer self owner' (pre ++ [B] ++ post)
    (Z.of_nat (length pre)) = Ok (pre ++ [B] ++ post).
Proof.
  intros HB self. unfold self, Fixed8Field_readFromBuffer.
  pose proof (unpack_from_app pre [B] post) as Hu. cbn [length] in Hu.
  rewrite Hu. cbn [mbind result_bind].
  destruct (_ && _); [done |]. intros [= <-].
  unfold Fixed8Field_writeToBuffer, getattr. cbn [attrs setattr].
  rewrite lookup_insert_eq. cbn [or_raise mbind result_bind].
  rewrite Fixed8_roundtrip by done. cbn [mbind result_bind]. unfold pack_B.
  destruct (Z.leb_spec 0 B); [| lia]. destruct (Z.leb_spec B 255); [| lia].
  cbn [andb mbind result_bind]. by apply pack_into_app.
Qed.

Lemma Fixed8Field_read_write_witness :
  Fixed8Field_writeToBuffer example_fixed8Field
    (setattr (example_fixed8Owner VNone) "x" (VFloat (Fixed8_decode 200)))
    [1; 200; 3] 1
  = Ok [1; 200; 3].
Proof.
  exact (Fixed8Field_read_write "x" T_fixed8 None None 0 None
           (example_fixed8Owner VNone) _ [1] [3] 200 true ltac:(lia) eq_refl).
Defined.

(** ** Memoization in [getVersion] *)

(** X10: a call of [getVersion] changes nothing of the history but the cache
    entry of the version asked for; a description it returns is cached and
    is what the next call for the version returns, without a change; what a
    call for another version returns stays the same; and a call that returns
    [None] or raises leaves the history as it was. *)
Theorem getVersion_memoizes (h h' : M3StructureHistory) (version : Z)
    (r : result (option M3StructureDescription)) :
  getVersion h version = (r, h') →
  name h' = name h
  ∧ versionToSizeMap h' = versionToSizeMap h
  ∧ allFields h' = allFields h
  ∧ (∀ other : Z, other ≠ version →
       versionToStructureDescriptionMap h' !! other
       = versionToStructureDescriptionMap h !! other
       ∧ fst (getVersion h' other) = fst (getVersion h other))
  ∧ (∀ d : M3StructureDescription, r = Ok (Some d) →
       versionToStructureDescriptionMap h' !! version = Some d
       ∧ getVersion h' version = (Ok (Some d), h'))
  ∧ ((∀ d : M3StructureDescription, r ≠ Ok (Some d)) → h' = h).
Proof.
  unfold getVersion at 1.
  destruct (versionToStructureDescriptionMap h !! version) as [cached |] eqn:Ec.
  { intros [= <- <-]. do 4 (split; [done |]). split; [| done].
    intros d' [= <-]. split; [done |]. unfold getVersion. by rewrite Ec. }
  destruct (versionToSizeMap h !! version) as [sz |] eqn:Es.
  2: { intros [= <- <-]. do 4 (split; [done |]). split; done. }
  destruct (M3StructureDescription_init _ _ _ _) as [d |] eqn:Ei.
  2: { intros [= <- <-]. do 4 (split; [done |]). split; done. }
  intros [= <- <-]. cbn [name versionToSizeMap allFields
                         versionToStructureDescriptionMap].
  split; [done |]. split; [done |]. split; [done |]. split; [| split].
  - intros other Hne. split; [by rewrite lookup_insert_ne |].
    unfold getVersion. cbn [name versionToSizeMap allFields
                            versionToStructureDescriptionMap].
    rewrite lookup_insert_ne by done.
    destruct (versionToStructureDescriptionMap h !! other); [reflexivity |].
    destruct (versionToSizeMap h !! other) as [sz' |]; [| reflexivity].
    destruct (M3StructureDescription_init (name h) other _ sz'); reflexivity.
  - intros d' [= <-]. split; [by rewrite lookup_insert_eq |].
    unfold getVersion. cbn [versionToStructureDescriptionMap].
    by rewrite lookup_insert_eq.
  - intros Hnot. by destruct (Hnot d).
Qed.

Lemma getVersion_memoizes_witness :
  ∃ d h', getVersion example_history 1 = (Ok (Some d), h')
          ∧ getVersion h' 1 = (Ok (Some d), h')
          ∧ fst (getVersion h' 0) = fst (getVersion example_history 0).
Proof.
  destruct (getVersion example_history 1) as [r h'] eqn:E.
  destruct (getVersion_memoizes example_history h' 1 r E)
    as (_ & _ & _ & Hother & Hsame & _).
  assert (r = Ok (Some (Build_M3StructureDescription "DEMO" 1
                          (allFields example_history) 12))) as Hr.
  { vm_compute in E. by injection E as <- _. }
  eexists _, h'. split; [by rewrite Hr |].
  split; [apply (Hsame _ Hr) |]. apply Hother. lia.
Defined.

(** ** The newest version *)

Lemma newestOf_fold (versions : list Z) : ∀ acc : option Z,
  let r := foldl (λ newestVersion version,
                    match newestVersion with
                    | None => Some version
                    | Some newest =>
                        if newest <? version then Some version else Some newest
                    end) acc versions in
  match r with
  | None => acc = None ∧ versions = []
  | Some m =>
      (acc = Some m ∨ m ∈ versions)
      ∧ (∀ a, acc = Some a → a ≤ m)
      ∧ (∀ v, v ∈ versions → v ≤ m)
  end.
Proof.
  induction versions as [| v versions IH]; intros acc; cbn [foldl].
  - destruct acc as [a |]; [| done].
    split; [by left |]. split; [by intros ? [= ->] |].
    intros v Hv. by apply elem_of_nil in Hv.
  - match goal with |- context [foldl ?f ?a versions] =>
      specialize (IH a); cbn zeta in IH; destruct (foldl f a versions) as [m |]
    end.
    + destruct IH as (Hin & Hacc & Hall).
      destruct acc as [a |].
      * destruct (Z.ltb_spec a v) as [Hlt | Hge].
        -- split; [right; destruct Hin as [[= <-] | Hin];
                   [apply list_elem_of_here | by apply list_elem_of_further] |].
           split.
           ++ intros a' [= <-]. specialize (Hacc v eq_refl). lia.
           ++ intros w Hw. apply elem_of_cons in Hw as [-> | Hw];
                [by apply Hacc | by apply Hall].
        -- split; [destruct Hin as [Hin | Hin];
                   [by left | right; by apply list_elem_of_further] |].
           split; [intros a' [= <-]; by apply Hacc |].
           intros w Hw. apply elem_of_cons in Hw as [-> | Hw];
             [| by apply Hall].
           specialize (Hacc a eq_refl). lia.
      * split; [right; destruct Hin as [[= <-] | Hin];
                [apply list_elem_of_here | by apply list_elem_of_further] |].
        split; [done |].
        intros w Hw. apply elem_of_cons in Hw as [-> | Hw];
          [by apply Hacc | by apply Hall].
    + destruct IH as [Hacc _]. by destruct acc as [a |]; [destruct (a <? v) |].
Qed.

Lemma newestOf_spec (versions : list Z) :
  match newestOf versions with
  | None => versions = []
  | Some m => m ∈ versions ∧ ∀ v, v ∈ versions → v ≤ m
  end.
Proof.
  pose proof (newestOf_fold versions None) as H. cbn zeta in H.
  unfold newestOf. destruct (foldl _ _ _) as [m |].
  - destruct H as ([? | Hin] & _ & Hall); [done |]. done.
  - by destruct H.
Qed.

Lemma elem_of_keys (m : gmap Z Z) (v : Z) :
  v ∈ map fst (map_to_list m) ↔ is_Some (m !! v).
Proof.
  rewrite list_elem_of_In, in_map_iff. split.
  - intros ([k s] & <- & Hin). apply list_elem_of_In, elem_of_map_to_list in Hin.
    by eexists.
  - intros [s Hs]. exists (v, s). split; [done |].
    by apply list_elem_of_In, elem_of_map_to_list.
Qed.

(** X11: [getNewestVersion] is [getVersion] of the greatest declared
    version, in whatever order the loop sees the keys; on a history without
    declared versions it is [getVersion(None)], which returns [None] when no
    field has a version bound and raises [TypeError] when one has. *)
Theorem getNewestVersion_is_greatest (h : M3StructureHistory) :
  (∀ (newest declaredSize : Z),
     versionToSizeMap h !! newest = Some declaredSize →
     (∀ (v s : Z), versionToSizeMap h !! v = Some s → v ≤ newest) →
     getNewestVersion h = getVersion h newest)
  ∧ (versionToSizeMap h = ∅ →
     (Forall (λ f, field_sinceVersion f = None ∧ field_tillVersion f = None)
        (allFields h) →
      getNewestVersion h = (Ok None, h))
     ∧ (Exists (λ f, field_sinceVersion f ≠ None ∨ field_tillVersion f ≠ None)
          (allFields h) →
        getNewestVersion h = (Raise TypeError, h))).
Proof.
  split.
  - intros newest sz Hnewest Hmax. unfold getNewestVersion.
    pose proof (newestOf_spec (map fst (map_to_list (versionToSizeMap h)))) as H.
    destruct (newestOf _) as [m |].
    + destruct H as [Hin Hall].
      apply elem_of_keys in Hin as [s Hs].
      assert (newest ≤ m) by (apply Hall, elem_of_keys; by eexists).
      assert (m ≤ newest) by by eapply Hmax.
      by replace m with newest by lia.
    + assert (newest ∈ map fst (map_to_list (versionToSizeMap h))) as Hin
        by (apply elem_of_keys; by eexists).
      rewrite H in Hin. by apply elem_of_nil in Hin.
  - intros Hempty. unfold getNewestVersion. rewrite Hempty, map_to_list_empty.
    cbn [map newestOf foldl]. unfold getVersion_of_None. split.
    + intros Hall.
      assert (existsb (λ field,
                bool_decide (is_Some (field_sinceVersion field))
                || bool_decide (is_Some (field_tillVersion field)))
                (allFields h) = false) as ->; [| done].
      induction Hall as [| f l [Hs Ht] _ IH]; cbn [existsb]; [done |].
      by rewrite Hs, Ht, IH.
    + intros Hex.
      assert (existsb (λ field,
                bool_decide (is_Some (field_sinceVersion field))
                || bool_decide (is_Some (field_tillVersion field)))
                (allFields h) = true) as ->; [| done].
      induction Hex as [f l Hf | f l _ IH]; cbn [existsb].
      * destruct (field_sinceVersion f), (field_tillVersion f); cbn;
          try done. by destruct Hf.
      * by rewrite IH, orb_true_r.
Qed.

Lemma getNewestVersion_is_greatest_witness :
  getNewestVersion example_history = getVersion example_history 2
  ∧ getNewestVersion
      (M3StructureHistory_init "DEMO" ∅ (allFields example_history))
    = (Raise TypeError,
       M3StructureHistory_init "DEMO" ∅ (allFields example_history)).
Proof.
  split.
  - apply (proj1 (getNewestVersion_is_greatest example_history) 2 99 eq_refl).
    intros v s Hv. cbn in Hv.
    destruct (decide (v = 0)) as [-> | ?]; [lia |].
    destruct (decide (v = 1)) as [-> | ?]; [lia |].
    destruct (decide (v = 2)) as [-> | ?]; [lia |].
    by rewrite !lookup_insert_ne, lookup_empty in Hv.
  - apply (proj2 (getNewestVersion_is_greatest
             (M3StructureHistory_init "DEMO" ∅ (allFields example_history)))
             eq_refl).
    cbn. do 2 apply Exists_cons_tl. apply Exists_cons_hd. by left.
Defined.

(** ** Fields by name *)

Lemma nameToFieldMap_keeps (l : list Field) : ∀ (m : gmap string Field) (k : string),
  (∀ g, g ∈ l → field_name g ≠ k) →
  foldl (λ m field, <[field_name field := field]> m) m l !! k = m !! k.
Proof.
  induction l as [| g l IH]; intros m k Hl; cbn [foldl]; [done |].
  rewrite IH by (intros g' Hg'; apply Hl; by apply list_elem_of_further).
  apply lookup_insert_ne, Hl, list_elem_of_here.
Qed.

Lemma nameToFieldMap_grows (l : list Field) : ∀ (m : gmap string Field) (k : string),
  is_Some (m !! k) →
  is_Some (foldl (λ m field, <[field_name field := field]> m) m l !! k).
Proof.
  induction l as [| g l IH]; intros m k Hk; cbn [foldl]; [done |].
  apply IH. destruct (decide (field_name g = k)) as [<- | Hne].
  - rewrite lookup_insert_eq. by eexists.
  - by rewrite lookup_insert_ne.
Qed.

Lemma nameToFieldMap_is_Some (l : list Field) : ∀ (m : gmap string Field) (k : string),
  is_Some (foldl (λ m field, <[field_name field := field]> m) m l !! k)
  ↔ is_Some (m !! k) ∨ ∃ f, f ∈ l ∧ field_name f = k.
Proof.
  induction l as [| g l IH]; intros m k; cbn [foldl].
  - split; [by left |]. intros [H | (f & Hf & _)]; [done |].
    by apply elem_of_nil in Hf.
  - rewrite IH. split.
    + intros [Hm | (f & Hf & Hk)].
      * destruct (decide (field_name g = k)) as [<- | Hne].
        -- right. exists g. split; [apply list_elem_of_here | done].
        -- left. by rewrite lookup_insert_ne in Hm.
      * right. exists f. split; [by apply list_elem_of_further | done].
    + intros [Hm | (f & Hf & Hk)].
      * left. destruct (decide (field_name g = k)) as [<- | Hne].
        -- rewrite lookup_insert_eq. by eexists.
        -- by rewrite lookup_insert_ne.
      * apply elem_of_cons in Hf as [-> | Hf].
        -- left. rewrite Hk, lookup_insert_eq. by eexists.
        -- right. by exists f.
Qed.

(** X12: [nameToFieldMap] maps a name to the last field of the list that has
    it, and [hasField] holds exactly of the names of the fields of the
    description. *)
Theorem nameToFieldMap_last_wins (d : M3StructureDescription)
    (before after : list Field) (field : Field) :
  fields d = before ++ field :: after →
  (∀ g, g ∈ after → field_name g ≠ field_name field) →
  nameToFieldMap d !! field_name field = Some field
  ∧ (∀ n : string,
       hasField d n = true ↔ ∃ f, f ∈ fields d ∧ field_name f = n).
Proof.
  intros Hfields Hafter. split.
  - unfold nameToFieldMap. rewrite Hfields, foldl_app. cbn [foldl].
    rewrite nameToFieldMap_keeps by done. apply lookup_insert_eq.
  - intros n. unfold hasField, nameToFieldMap.
    rewrite bool_decide_eq_true, nameToFieldMap_is_Some, lookup_empty.
    split; [intros [[? ?] | H]; done | by right].
Qed.

Lemma nameToFieldMap_last_wins_witness :
  let first := IntField "flags" T_uint8 None None 0 None ∅ in
  let d := Build_M3StructureDescription "DEMO" 0 [first; example_flagsField] 5 in
  nameToFieldMap d !! "flags"%string = Some example_flagsField
  ∧ hasField d "flags" = true.
Proof.
  intros first d.
  destruct (nameToFieldMap_last_wins d [first] [] example_flagsField eq_refl)
    as [Hlast Hhas].
  - intros g Hg. by apply elem_of_nil in Hg.
  - split; [exact Hlast |]. apply Hhas. exists first.
    split; [apply list_elem_of_here | reflexivity].
Defined.

(** ** Validation of an instance *)

Lemma validateInstance_loop (l : list Field) (instance : M3Structure) :
  let run :=
    for_each l
      (λ _ field,
         match getattr instance (field_name field) with
         | Ok fieldContent => Ok tt
         | Raise _ => Raise TypeError
         end) tt in
  (run = Ok tt ∨ run = Raise TypeError)
  ∧ (run = Ok tt ↔ ∀ f, f ∈ l → is_Some (attrs instance !! field_name f)).
Proof.
  cbn zeta.
  set (body := λ (_ : unit) (field : Field),
         match getattr instance (field_name field) with
         | Ok fieldContent => Ok tt
         | Raise _ => Raise TypeError
         end).
  induction l as [| f l IH]; cbn [for_each].
  - split; [by left |]. split; [| done].
    intros _ f Hf. by apply elem_of_nil in Hf.
  - destruct IH as [Hcases Hiff].
    assert (Hbody : body tt f
                    = match attrs instance !! field_name f with
                      | Some _ => Ok tt
                      | None => Raise TypeError
                      end).
    { unfold body, getattr. by destruct (attrs instance !! field_name f). }
    rewrite Hbody.
    destruct (attrs instance !! field_name f) as [v |] eqn:Ev;
      cbn [mbind result_bind].
    + split; [exact Hcases |]. rewrite Hiff. split.
      * intros Hl g Hg. apply elem_of_cons in Hg as [-> | Hg];
          [by eexists | by apply Hl].
      * intros Hl g Hg. apply Hl. by apply list_elem_of_further.
    + split; [by right |]. split; [done |].
      intros Hl. specialize (Hl f (list_elem_of_here _ _)).
      rewrite Ev in Hl. by destruct Hl.
Qed.

(** X13: [validateInstance] returns exactly when the instance has an
    attribute for the name of every field, whatever the attributes hold;
    when one is missing it raises [TypeError], which building the message of
    the exception it means to raise raises. *)
Theorem validateInstance_checks_presence (d : M3StructureDescription)
    (instance : M3Structure) :
  (validateInstance d instance = Ok tt
   ↔ ∀ f, f ∈ fields d → is_Some (attrs instance !! field_name f))
  ∧ (validateInstance d instance ≠ Ok tt →
     validateInstance d instance = Raise TypeError).
Proof.
  destruct (validateInstance_loop (fields d) instance) as [Hcases Hiff].
  split; [exact Hiff |]. intros Hne. by destruct Hcases.
Qed.

Lemma validateInstance_checks_presence_witness :
  validateInstance example_flagsDescription
    {| structureDescription := example_flagsDescription;
       attrs := <["id" := VInt 1]> (<["flags" := VStr "no int"]> ∅) |}
  = Ok tt
  ∧ validateInstance example_flagsDescription
      {| structureDescription := example_flagsDescription;
         attrs := <["id" := VStr "DEMO"]> ∅ |}
    = Raise TypeError.
Proof.
  split.
  - reflexivity.
  - apply (proj2 (validateInstance_checks_presence example_flagsDescription _)).
    vm_compute. discriminate.
Defined.

(** ** Default instances *)

Lemma setToDefault_attrs (field : Field) (owner : M3Structure) :
  structureDescription (setToDefault field owner) = structureDescription owner
  ∧ (isTagField field = true → setToDefault field owner = owner)
  ∧ (isTagField field = false →
     is_Some (attrs (setToDefault field owner) !! field_name field)
     ∧ ∀ n, n ≠ field_name field →
            attrs (setToDefault field owner) !! n = attrs owner !! n).
Proof.
  destruct field as [? ? ? | ? ? ? ? ? | ? ? ? ? | ? ? ? ? ? ? ?
                    | ? ? ? ? ? ? | ? ? ? ? ? ? | ? ? ? ? ? ?];
    cbn [setToDefault isTagField field_name]; cbn zeta;
    unfold setattr; simpl;
    (split; [done |]); (split; [done |]); intros Htag;
    try discriminate Htag;
    (split; [rewrite lookup_insert_eq; by eexists |]);
    intros n Hn; by rewrite lookup_insert_ne.
Qed.

Lemma createInstance_loop (l : list Field) : ∀ instance : M3Structure,
  let final :=
    (fix loop (fields : list Field) (instance : M3Structure) : M3Structure :=
       match fields with
       | [] => instance
       | field :: fields' => loop fields' (setToDefault field instance)
       end) l instance in
  structureDescription final = structureDescription instance
  ∧ (∀ n, is_Some (attrs instance !! n) → is_Some (attrs final !! n))
  ∧ (∀ f, f ∈ l → isTagField f = false → is_Some (attrs final !! field_name f))
  ∧ (∀ n, (∀ f, f ∈ l → field_name f = n → isTagField f = true) →
          attrs final !! n = attrs instance !! n).
Proof.
  induction l as [| g l IH]; intros instance.
  - cbn. split; [done |]. split; [done |]. split; [| done].
    intros f Hf. by apply elem_of_nil in Hf.
  - specialize (IH (setToDefault g instance)). cbn zeta in IH |- *.
    destruct IH as (Hd & Hkeep & Hset & Hnone).
    destruct (setToDefault_attrs g instance) as (Hgd & Hgtag & Hgother).
    split; [by rewrite Hd |]. split; [| split].
    + intros n Hn. apply Hkeep. destruct (isTagField g) eqn:Eg.
      * by rewrite Hgtag.
      * destruct (Hgother eq_refl) as [Hself Hrest].
        destruct (decide (n = field_name g)) as [-> | Hne];
          [done | by rewrite Hrest].
    + intros f Hf Hnt. apply elem_of_cons in Hf as [-> | Hf].
      * apply Hkeep. by destruct (Hgother Hnt).
      * by apply Hset.
    + intros n Hn. rewrite Hnone
        by (intros f Hf; apply Hn; by apply list_elem_of_further).
      destruct (isTagField g) eqn:Eg; [by rewrite Hgtag |].
      destruct (Hgother eq_refl) as [_ Hrest]. apply Hrest.
      intros ->. specialize (Hn g (list_elem_of_here _ _) eq_refl). congruence.
Qed.

(** X14: an instance created without a buffer has the description it was
    created from, an attribute for every field that is no tag field, and
    none under a name that only tag fields have; so [validateInstance]
    raises on a fresh instance of a description with such a tag field. *)
Theorem createInstance_defaults (d : M3StructureDescription) :
  structureDescription (createInstance d) = d
  ∧ (∀ f, f ∈ fields d → isTagField f = false →
          is_Some (attrs (createInstance d) !! field_name f))
  ∧ (∀ n : string,
       (∀ f, f ∈ fields d → field_name f = n → isTagField f = true) →
       attrs (createInstance d) !! n = None)
  ∧ ((∃ f, f ∈ fields d ∧ isTagField f = true
           ∧ ∀ g, g ∈ fields d → field_name g = field_name f →
                  isTagField g = true) →
     validateInstance d (createInstance d) = Raise TypeError).
Proof.
  destruct d as [n v fs sz].
  pose proof (createInstance_loop fs
    {| structureDescription := Build_M3StructureDescription n v fs sz;
       attrs := ∅ |}) as H.
  cbn zeta in H. cbn [createInstance fields].
  destruct H as (Hd & _ & Hset & Hnone).
  split; [exact Hd |]. split; [exact Hset |]. split.
  - intros k Hk. by rewrite Hnone.
  - intros (f & Hf & Htag & Hall).
    destruct (validateInstance_loop fs
      ((fix loop (fields : list Field) (instance : M3Structure) : M3Structure :=
          match fields with
          | [] => instance
          | field :: fields' => loop fields' (setToDefault field instance)
          end) fs
         {| structureDescription := Build_M3StructureDescription n v fs sz;
            attrs := ∅ |})) as [[Hok | Herr] Hiff]; [| exact Herr].
    pose proof (proj1 Hiff Hok f Hf) as Hsome. clear Hok. rename Hsome into Hok.
    rewrite (Hnone (field_name f) Hall) in Hok. by destruct Hok.
Qed.

Lemma createInstance_defaults_witness :
  validateInstance example_MD34IndexEntryV0
    (createInstance example_MD34IndexEntryV0) = Raise TypeError
  ∧ attrs (createInstance example_MD34IndexEntryV0) !! "tag"%string = None
  ∧ attrs (createInstance example_MD34IndexEntryV0) !! "offset"%string
    = Some (VInt 0)
  ∧ validateInstance example_MD34IndexEntryV0
      (setattr (createInstance example_MD34IndexEntryV0) "tag" (VStr "DEMO"))
    = Ok tt.
Proof.
  destruct (createInstance_defaults example_MD34IndexEntryV0)
    as (_ & _ & Hnone & Hraise).
  split; [| split; [| split; reflexivity]].
  - apply Hraise. exists (TagField "tag" None None).
    split; [apply list_elem_of_here |]. split; [reflexivity |].
    intros g Hg Hname. cbn in Hg.
    repeat (apply elem_of_cons in Hg as [-> | Hg]; [try done |]).
    by apply elem_of_nil in Hg.
  - apply Hnone. intros g Hg Hname. cbn in Hg.
    repeat (apply elem_of_cons in Hg as [-> | Hg]; [try done |]).
    by apply elem_of_nil in Hg.
Defined.

(** ** The layout of the sections of a save *)

(** What [determineFieldRawBytes] has checked and set when it returns. *)
Lemma determineFieldRawBytes_inv
    (writeToBuffer : M3StructureDescription → value → list Z → Z → result (list Z))
    (self self' : Section) :
  determineFieldRawBytes writeToBuffer self = Ok self' →
  ∃ (minRawBytes raw : list Z),
    determineRawBytesWithData writeToBuffer self = Ok minRawBytes
    ∧ bytesRequiredForContent self = Ok (Z.of_nat (length minRawBytes))
    ∧ self' = set_rawBytes self raw
    ∧ Z.of_nat (length raw)
      = increaseToValidSectionSize (Z.of_nat (length minRawBytes))
    ∧ take (length minRawBytes) raw = minRawBytes.
Proof.
  unfold determineFieldRawBytes.
  destruct (determineRawBytesWithData writeToBuffer self) as [minRawBytes |];
    [| done].
  destruct (bytesRequiredForContent self) as [required |]; [| done].
  cbn [mbind result_bind].
  destruct (Z.eqb_spec (Z.of_nat (length minRawBytes)) required) as [<- | _];
    [| done].
  cbn [negb].
  pose proof (increaseToValidSectionSize_spec (Z.of_nat (length minRawBytes)))
    as [_ Hrange].
  set (n := length minRawBytes) in *.
  set (sectionSize := increaseToValidSectionSize (Z.of_nat n)) in *.
  destruct (Z.eqb_spec (Z.of_nat n) sectionSize) as [E | E].
  - intros [= <-]. exists minRawBytes, minRawBytes.
    do 3 (split; [done |]). split; [done |]. by apply firstn_all.
  - unfold bytearray. destruct (Z.ltb_spec sectionSize 0) as [| _]; [lia |].
    cbn [mbind result_bind].
    destruct (slice_assign_prefix (Z.to_nat sectionSize) minRawBytes)
      as [Hl0 Hp0]; [fold n; lia |].
    rewrite range_seq by lia. rewrite Nat2Z.id.
    destruct (fill_loop (Z.to_nat (sectionSize - Z.of_nat n)) n
                (slice_assign (replicate (Z.to_nat sectionSize) 0) 0 n minRawBytes))
      as (raw & Hrun & Hl & Hin & Hout); [fold n in Hl0; lia |].
    fold n in Hl0, Hp0. rewrite Hrun. cbn [mbind result_bind].
    intros [= <-]. exists minRawBytes, raw.
    do 3 (split; [done |]).
    split; [change (Z.of_nat (length raw) = sectionSize); lia |].
    apply list_eq. intros i. fold n.
    destruct (decide (i < n)%nat) as [Hi | Hi].
    + rewrite lookup_take_lt by done. rewrite Hout by lia. by apply Hp0.
    + rewrite lookup_take_ge by lia. symmetry. apply lookup_ge_None. fold n. lia.
Qed.

Lemma contiguous_app (l : list Section) : ∀ (start mid stop : Z) (l' : list Section),
  contiguous start l mid → contiguous mid l' stop →
  contiguous start (l ++ l') stop.
Proof.
  induction l as [| s l IH]; intros start mid stop l'; cbn [contiguous app].
  - by intros ->.
  - intros (entry & required & He & Ho & Hr & Hrest) Hl'.
    exists entry, required. do 3 (split; [done |]). by eapply IH.
Qed.

Lemma contiguous_aligned (l : list Section) : ∀ (start stop : Z),
  contiguous start l stop → start mod 16 = 0 → stop mod 16 = 0.
Proof.
  induction l as [| s l IH]; intros start stop; cbn [contiguous].
  - by intros ->.
  - intros (entry & required & _ & _ & _ & Hrest) Hstart.
    apply (IH _ _ Hrest).
    destruct (increaseToValidSectionSize_spec required) as [H16 _].
    rewrite Z.add_mod, Hstart, H16 by lia. reflexivity.
Qed.

(** A call of [getIndexReferenceTo] keeps the sections of the maker one
    after the other, up to the offset of the maker. *)
Lemma getIndexReferenceTo_contiguous
    (m m' : IndexReferenceSourceAndSectionListMaker) (o : object)
    (rd : M3StructureDescription) (d : option M3StructureDescription)
    (r : Reference.t) :
  contiguous 0 (sections m) (offset m) →
  getIndexReferenceTo m o rd d = Ok (r, m') →
  contiguous 0 (sections m') (offset m').
Proof.
  intros Hm. unfold getIndexReferenceTo.
  destruct (objectsIdToIndexReferenceMap m !! object_id o); [by intros [= _ <-] |].
  destruct (match d with
            | Some d0 => countInstances d0 (object_val o)
            | None => Ok 0
            end) as [repetitions |]; [| done].
  cbn [mbind result_bind].
  destruct (0 <? repetitions); [| by intros [= _ <-]].
  destruct d as [d |]; [| done]. cbn [or_raise mbind result_bind].
  destruct (bytesRequiredForContent _) as [totalBytes |] eqn:Eb; [| done].
  cbn [mbind result_bind]. intros [= _ <-]. cbn [sections offset].
  eapply contiguous_app; [exact Hm |]. cbn [contiguous].
  eexists _, totalBytes. split; [reflexivity |]. split; [reflexivity |].
  split; [exact Eb | reflexivity].
Qed.

Lemma getIndexReferences_contiguous (rd : M3StructureDescription)
    (requests : list request) :
  ∀ (m m' : IndexReferenceSourceAndSectionListMaker) (rs : list Reference.t),
  contiguous 0 (sections m) (offset m) →
  getIndexReferences m rd requests = Ok (rs, m') →
  contiguous 0 (sections m') (offset m').
Proof.
  induction requests as [| [o d] requests IH]; intros m m' rs Hm;
    cbn [getIndexReferences].
  - by intros [= _ <-].
  - destruct (getIndexReferenceTo m o rd d) as [[r m1] |] eqn:E1; [| done].
    cbn [mbind result_bind].
    destruct (getIndexReferences m1 rd requests) as [[rs' m2] |] eqn:E2; [| done].
    cbn [mbind result_bind]. intros [= _ <-].
    eapply IH; [| exact E2]. by eapply getIndexReferenceTo_contiguous.
Qed.

(** The loop of [saveSections] accepts contiguous sections with their raw
    bytes. *)
Lemma saveSections_loop_contiguous
    (writeToBuffer : M3StructureDescription → value → list Z → Z → result (list Z))
    (l : list Section) :
  ∀ (l' : list Section) (stop : Z) (fileObject : list Z)
    (previousSection : option Section),
  contiguous (Z.of_nat (length fileObject)) l stop →
  determineFieldRawBytes_each writeToBuffer l = Ok l' →
  ∃ (fileObject' : list Z) (previousSection' : option Section),
    for_each l'
      (λ '(fileObject, previousSection) section,
         entry ← or_raise AttributeError (indexEntry section);
         if negb (IndexEntry.offset entry =? Z.of_nat (length fileObject)) then
           match previousSection with
           | None => Raise AttributeError
           | Some previousSection =>
               _ ← or_raise AttributeError (indexEntry previousSection);
               _ ← or_raise AttributeError (rawBytes previousSection);
               Raise (Exception "Section length problem")
           end
         else
           bs ← or_raise AttributeError (rawBytes section);
           Ok (fileObject ++ bs, Some section))
      (fileObject, previousSection)
    = Ok (fileObject', previousSection')
    ∧ Z.of_nat (length fileObject') = stop.
Proof.
  induction l as [| s l IH]; intros l' stop fileObject previousSection;
    cbn [contiguous determineFieldRawBytes_each].
  - intros -> [= <-]. cbn [for_each]. by eexists _, _.
  - intros (entry & required & He & Ho & Hr & Hrest).
    destruct (determineFieldRawBytes writeToBuffer s) as [s' |] eqn:Es; [| done].
    cbn [mbind result_bind].
    destruct (determineFieldRawBytes_each writeToBuffer l) as [l1 |] eqn:El;
      [| done].
    cbn [mbind result_bind]. intros [= <-].
    destruct (determineFieldRawBytes_inv _ _ _ Es)
      as (minRawBytes & raw & _ & Hreq & -> & Hlen & _).
    rewrite Hr in Hreq. injection Hreq as ->.
    cbn [for_each indexEntry rawBytes set_rawBytes]. rewrite He.
    cbn [or_raise mbind result_bind]. rewrite Ho, Z.eqb_refl.
    cbn [negb mbind result_bind].
    apply (IH l1 stop (fileObject ++ raw)); [| done].
    rewrite length_app, Nat2Z.inj_add, Hlen. exact Hrest.
Qed.

(** X18: the sections that the index maker has collected over the requests
    of a save, once every one of them has determined its raw bytes, pass the
    position check of [saveSections]: the loop writes them, and ends at the
    offset of the maker, which [modelToSections] stores as the offset of the
    index and which is a multiple of 16. *)
Theorem saveSections_accepts_maker_sections
    (writeToBuffer : M3StructureDescription → value → list Z → Z → result (list Z))
    (referenceStructureDescription : M3StructureDescription)
    (requests : list request) (indexReferences : list Reference.t)
    (indexMaker : IndexReferenceSourceAndSectionListMaker)
    (sections' : list Section) :
  getIndexReferences IndexReferenceSourceAndSectionListMaker_init
    referenceStructureDescription requests = Ok (indexReferences, indexMaker) →
  determineFieldRawBytes_each writeToBuffer (sections indexMaker) = Ok sections' →
  ∃ fileObject : list Z,
    saveSections_loop sections' = Ok fileObject
    ∧ Z.of_nat (length fileObject) = offset indexMaker
    ∧ offset indexMaker mod 16 = 0.
Proof.
  intros Hrun Hraw.
  assert (contiguous 0 (sections indexMaker) (offset indexMaker)) as Hc.
  { eapply getIndexReferences_contiguous; [| exact Hrun]. reflexivity. }
  destruct (saveSections_loop_contiguous writeToBuffer _ _ _ [] None Hc Hraw)
    as (fileObject & previousSection & Hloop & Hlen).
  exists fileObject. unfold saveSections_loop. rewrite Hloop.
  split; [done |]. split; [done |].
  by apply (contiguous_aligned _ _ _ Hc).
Qed.

Lemma saveSections_accepts_maker_sections_witness :
  ∃ (indexMaker : IndexReferenceSourceAndSectionListMaker)
    (sections' : list Section) (fileObject : list Z),
    length (sections indexMaker) = 2%nat
    ∧ determineFieldRawBytes_each example_writer (sections indexMaker)
      = Ok sections'
    ∧ saveSections_loop sections' = Ok fileObject
    ∧ length fileObject = 64%nat
    ∧ offset indexMaker = 64.
Proof.
  destruct (getIndexReferences IndexReferenceSourceAndSectionListMaker_init
              example_ReferenceV0 example_saveRequests)
    as [[indexReferences indexMaker] |] eqn:Hrun; [| vm_compute in Hrun; done].
  destruct (determineFieldRawBytes_each example_writer (sections indexMaker))
    as [sections' |] eqn:Hraw;
    [| vm_compute in Hrun; injection Hrun as _ <-; vm_compute in Hraw; done].
  destruct (saveSections_accepts_maker_sections example_writer
              example_ReferenceV0 example_saveRequests indexReferences
              indexMaker sections' Hrun Hraw)
    as (fileObject & Hsave & Hlen & _).
  exists indexMaker, sections', fileObject.
  vm_compute in Hrun. injection Hrun as _ <-.
  split; [reflexivity |]. split; [exact Hraw |]. split; [exact Hsave |].
  split; [| reflexivity]. cbn [offset] in Hlen. lia.
Defined.

(** ** References of the index maker, resolved *)



(** ** Failures of resolving a reference *)



(** ** Text and bytes of a section, read back *)

Lemma decode_encode_ascii (s : string) : ∀ bs : list Z,
  encode_ascii s = Ok bs → decode_ascii bs = Ok s.
Proof.
  induction s as [| c s IH]; intros bs; cbn [encode_ascii].
  - by intros [= <-].
  - destruct (Z.ltb_spec (ord c) 128) as [Hc | _]; [| done].
    destruct (encode_ascii s) as [bs' |]; [| done].
    cbn [mbind result_bind]. intros [= <-]. cbn [decode_ascii].
    destruct (Z.ltb_spec (ord c) 128); [| lia].
    rewrite (IH _ eq_refl). cbn [mbind result_bind]. by rewrite chr_ord.
Qed.

Lemma py_slice_to_prefix (l : list Z) (k : nat) :
  (k ≤ length l)%nat → py_slice_to l (Z.of_nat k) = take k l.
Proof.
  intros Hk. unfold py_slice_to, slice_bound.
  destruct (Z.ltb_spec (Z.of_nat k) 0); [lia |]. f_equal. lia.
Qed.

(** X16: the raw bytes that [determineFieldRawBytes] gives a section of text
    or of bytes, padding included, read back with [createInstances] and the
    count of the content, which is what the index entry of the section holds
    as repetitions, give the content of the section. *)
Theorem text_and_byte_sections_read_back
    (writeToBuffer : M3StructureDescription → value → list Z → Z → result (list Z))
    (structFormat_unpack : Field → option (list Z → result value))
    (createInstance_from :
       M3StructureDescription → list Z → Z → bool → result value)
    (self self' : Section) (d : M3StructureDescription) (o : object)
    (count : Z) (checkExpectedValue : bool) :
  sectionDescription self = Some d →
  content self = Some o →
  structureName d = "CHAR"%string ∨ structureName d = "U8__"%string →
  determineFieldRawBytes writeToBuffer self = Ok self' →
  countInstances d (object_val o) = Ok count →
  ∃ raw : list Z,
    rawBytes self' = Some raw
    ∧ createInstances structFormat_unpack createInstance_from d raw count
        checkExpectedValue
      = Ok (object_val o).
Proof.
  intros Hd Hc Hname Hraw Hcount.
  destruct (determineFieldRawBytes_inv _ _ _ Hraw)
    as (minRawBytes & raw & Hdata & _ & -> & Hlen & Htake).
  exists raw. split; [reflexivity |].
  pose proof (increaseToValidSectionSize_spec (Z.of_nat (length minRawBytes)))
    as [_ Hrange].
  unfold determineRawBytesWithData in Hdata. rewrite Hd, Hc in Hdata.
  cbn [or_raise mbind result_bind] in Hdata.
  unfold instancesToBytes in Hdata. unfold countInstances in Hcount.
  unfold createInstances, isPrimitive.
  destruct Hname as [Hn | Hn]; rewrite Hn in *;
    cbn [String.eqb Ascii.eqb Bool.eqb] in *.
  - replace (is_primitive_name "CHAR") with true by (by vm_compute).
    destruct (object_val o) as [| | | s | | | |]; try done.
    destruct (encode_ascii s) as [enc |] eqn:Eenc; [| done].
    cbn [mbind result_bind py_len] in *.
    injection Hdata as <-. injection Hcount as <-.
    pose proof (encode_ascii_length _ _ Eenc) as Hel.
    rewrite length_app in Hlen, Htake, Hrange. cbn [length] in *.
    replace (Z.of_nat (String.length s) + 1 - 1)
      with (Z.of_nat (String.length s)) by lia.
    rewrite py_slice_to_prefix by lia.
    assert (take (String.length s) raw = enc) as ->.
    { rewrite <- Hel.
      replace (length enc) with (length enc `min` (length enc + 1))%nat at 1
        by lia.
      rewrite <- take_take, Htake. by rewrite take_app_length. }
    by rewrite (decode_encode_ascii _ _ Eenc).
  - replace (is_primitive_name "U8__") with true by (by vm_compute).
    destruct (object_val o) as [| | | | b | | |]; try done.
    cbn [py_len] in *. injection Hdata as <-. injection Hcount as <-.
    rewrite py_slice_to_prefix by lia. by rewrite Htake.
Qed.

Lemma text_and_byte_sections_read_back_witness :
  ∃ (self' : Section) (raw : list Z),
    determineFieldRawBytes example_writer example_stringSection = Ok self'
    ∧ rawBytes self' = Some raw
    ∧ length raw = 48%nat
    ∧ createInstances (λ _, None) (λ _ _ _ _, Raise TypeError) example_CHAR
        raw 37 true
      = Ok (VStr "abcdefghijklmnopqrstuvwxyz0123456789").
Proof.
  destruct (determineFieldRawBytes example_writer example_stringSection)
    as [self' |] eqn:Hraw; [| vm_compute in Hraw; done].
  destruct (text_and_byte_sections_read_back example_writer (λ _, None)
              (λ _ _ _ _, Raise TypeError) example_stringSection self'
              example_CHAR
              {| object_id := 1;
                 object_val := VStr "abcdefghijklmnopqrstuvwxyz0123456789" |}
              37 true eq_refl eq_refl (or_introl eq_refl) Hraw eq_refl)
    as (raw & Hr & Hread).
  exists self', raw. split; [reflexivity |]. split; [exact Hr |].
  split; [| exact Hread].
  vm_compute in Hraw. injection Hraw as <-. cbn in Hr. by injection Hr as <-.
Defined.

(** ** Lists of integers of a section, read back *)

Lemma py_slice_app (pre c post : list Z) :
  py_slice (pre ++ c ++ post) (Z.of_nat (length pre))
    (Z.of_nat (length pre) + Z.of_nat (length c)) = c.
Proof.
  unfold py_slice, slice_bound. rewrite !length_app.
  destruct (Z.ltb_spec (Z.of_nat (length pre)) 0); [lia |].
  destruct (Z.ltb_spec (Z.of_nat (length pre) + Z.of_nat (length c)) 0); [lia |].
  rewrite !Z.min_l by lia. rewrite Nat2Z.id.
  replace (Z.to_nat (Z.of_nat (length pre) + Z.of_nat (length c)) - length pre)%nat
    with (length c) by lia.
  by rewrite drop_app_length, take_app_length.
Qed.

Lemma range_step_count (count n : nat) :
  (0 < n)%nat →
  range_step 0 (Z.of_nat count * Z.of_nat n) (Z.of_nat n)
  = Ok (map (λ k, 0 + Z.of_nat k * Z.of_nat n) (seq 0 count)).
Proof.
  intros Hn. unfold range_step.
  destruct (Z.eqb_spec (Z.of_nat n) 0); [lia |].
  destruct (Z.ltb_spec 0 (Z.of_nat n)); [| lia].
  do 3 f_equal.
  replace (Z.of_nat count * Z.of_nat n - 0 + Z.of_nat n - 1)
    with (Z.of_nat n - 1 + Z.of_nat count * Z.of_nat n) by lia.
  rewrite Z.div_add by lia. rewrite Z.div_small by lia. lia.
Qed.

Section IntSections.
Variable writeToBuffer :
  M3StructureDescription → value → list Z → Z → result (list Z).
Variables (d : M3StructureDescription) (signed : bool) (n : nat).
Hypothesis n_pos : (0 < n)%nat.
Hypothesis size_n : size d = Z.of_nat n.
Hypothesis writeToBuffer_packs : ∀ (v : value) (buf : list Z) (off : Z),
  writeToBuffer d v buf off
  = (bs ← struct_pack_int signed n v; pack_into buf off bs).

(** The loop of [instancesToBytes] writes the packed values one after the
    other, and only integers of the format get through it. *)
Lemma write_ints (values : list value) : ∀ (pre raw : list Z) (off : Z),
  for_each values
    (λ '(rawBytes, offset) value,
       rawBytes ← writeToBuffer d value rawBytes offset;
       Ok (rawBytes, offset + size d))
    (pre ++ replicate (length values * n) 0, Z.of_nat (length pre))
  = Ok (raw, off) →
  ∃ chunks : list (list Z),
    Forall2 (λ v c, ∃ z, v = VInt z ∧ length c = n
                         ∧ struct_unpack_int signed c = z) values chunks
    ∧ raw = pre ++ concat chunks.
Proof.
  induction values as [| v values IH]; intros pre raw off; cbn [for_each length].
  - intros [= <- _]. exists []. split; [constructor |].
    cbn. by rewrite app_nil_r.
  - rewrite writeToBuffer_packs.
    destruct (struct_pack_int signed n v) as [c |] eqn:Ec; [| done].
    destruct v as [| z | | | | | |]; try done.
    destruct (struct_int_roundtrip _ _ _ _ n_pos Ec) as [Hlen Hval].
    cbn [mbind result_bind].
    replace (S (length values) * n)%nat with (n + length values * n)%nat by lia.
    rewrite replicate_add.
    rewrite (pack_into_app pre (replicate n 0) _ c)
      by (by rewrite length_replicate).
    cbn [mbind result_bind].
    replace (Z.of_nat (length pre) + size d)
      with (Z.of_nat (length (pre ++ c))) by (rewrite length_app, size_n; lia).
    rewrite (app_assoc pre c). intros Hrun.
    destruct (IH _ _ _ Hrun) as (chunks & Hall & ->).
    exists (c :: chunks). split.
    + constructor; [by exists z | done].
    + cbn [concat]. by rewrite <- !app_assoc.
Qed.

(** The loop of [createInstances] over the offsets reads them back. *)
Lemma read_ints (unpack : list Z → result value) (padding : list Z)
    (values : list value) (chunks : list (list Z)) :
  (∀ bs, unpack bs
         = if (length bs =? n)%nat then Ok (VInt (struct_unpack_int signed bs))
           else Raise StructError) →
  Forall2 (λ v c, ∃ z, v = VInt z ∧ length c = n
                       ∧ struct_unpack_int signed c = z) values chunks →
  ∀ (pre : list Z) (s : nat) (acc : list value),
  length pre = (s * n)%nat →
  for_each (map (λ k, 0 + Z.of_nat k * Z.of_nat n) (seq s (length values)))
    (λ list offset,
       let bytesOfOneEntry :=
         py_slice (pre ++ concat chunks ++ padding) offset (offset + size d) in
       intValue ← unpack bytesOfOneEntry;
       Ok (list ++ [intValue]))
    acc
  = Ok (acc ++ values).
Proof.
  intros Hunpack Hall.
  induction Hall as [| v c values chunks (z & -> & Hlen & Hval) Hall IH];
    intros pre s acc Hpre; cbn [length seq map for_each].
  - by rewrite app_nil_r.
  - cbn zeta. cbn [concat]. rewrite size_n.
    replace (0 + Z.of_nat s * Z.of_nat n) with (Z.of_nat (length pre)) by lia.
    rewrite <- Hlen at 1. rewrite <- (app_assoc c).
    rewrite py_slice_app, Hunpack, Hlen, Nat.eqb_refl, Hval.
    cbn [mbind result_bind].
    specialize (IH (pre ++ c) (S s) (acc ++ [VInt z])).
    rewrite <- !app_assoc in IH. cbn [app] in IH. rewrite size_n in IH.
    apply IH. rewrite length_app. lia.
Qed.
End IntSections.

(** X17: for a primitive structure other than [CHAR] and [U8__] whose first
    field is an int field, where one instance is written and read in the
    integer format of that field, the bytes that [instancesToBytes] gives
    for a list, with whatever padding follows them, read back with
    [createInstances] and the length of the list give the list; and
    [instancesToBytes] gives bytes only for lists of integers. *)
Theorem int_sections_read_back
    (writeToBuffer : M3StructureDescription → value → list Z → Z → result (list Z))
    (structFormat_unpack : Field → option (list Z → result value))
    (createInstance_from :
       M3StructureDescription → list Z → Z → bool → result value)
    (d : M3StructureDescription) (field : Field) (rest : list Field)
    (fieldName : string) (t : primitiveType) (since till : option Z)
    (defaultValue : Z) (expectedValue : option Z) (bitMaskMap : gmap string Z)
    (signed : bool) (n : nat) (unpack : list Z → result value)
    (values : list value) (bs padding : list Z) (checkExpectedValue : bool) :
  field = IntField fieldName t since till defaultValue expectedValue bitMaskMap →
  fields d = field :: rest →
  intFormat t = Some (signed, n) →
  size d = Z.of_nat n →
  isPrimitive d = true →
  String.eqb (structureName d) "CHAR" = false →
  String.eqb (structureName d) "U8__" = false →
  (∀ v buf off,
     writeToBuffer d v buf off
     = (bs ← struct_pack_int signed n v; pack_into buf off bs)) →
  structFormat_unpack field = Some unpack →
  (∀ bs, unpack bs
         = if (length bs =? n)%nat then Ok (VInt (struct_unpack_int signed bs))
           else Raise StructError) →
  instancesToBytes writeToBuffer d (VList values) = Ok bs →
  createInstances structFormat_unpack createInstance_from d (bs ++ padding)
    (Z.of_nat (length values)) checkExpectedValue
  = Ok (VList values)
  ∧ Forall (λ v, ∃ z, v = VInt z) values.
Proof.
  intros -> Hfields Hfmt Hsize Hprim Hchar Hu8 Hwrite Hsu Hunpack Hbytes.
  assert (0 < n)%nat as Hn by (destruct t; try done; injection Hfmt as _ <-; lia).
  unfold instancesToBytes in Hbytes. rewrite Hchar, Hu8 in Hbytes.
  cbn [py_len py_iter mbind result_bind] in Hbytes. unfold bytearray in Hbytes.
  rewrite Hsize in Hbytes.
  destruct (Z.ltb_spec (Z.of_nat n * Z.of_nat (length values)) 0); [lia |].
  cbn [mbind result_bind] in Hbytes.
  destruct (for_each values _ _) as [[raw off] |] eqn:Hloop; [| done].
  cbn [mbind result_bind] in Hbytes. injection Hbytes as <-.
  replace (Z.to_nat (Z.of_nat n * Z.of_nat (length values)))
    with (length values * n)%nat in Hloop by lia.
  rewrite <- Hsize in Hloop.
  destruct (write_ints writeToBuffer d signed n Hn Hsize Hwrite values []
              raw off Hloop) as (chunks & Hall & ->).
  cbn [app]. split.
  - unfold createInstances. rewrite Hprim, Hchar, Hu8, Hfields.
    unfold py_index. rewrite py_position_valid by (cbn [length]; lia).
    change (Z.to_nat 0) with 0%nat.
    cbn [lookup list_lookup or_raise mbind result_bind]. rewrite Hsu.
    cbn [or_raise mbind result_bind]. rewrite Hsize.
    rewrite (range_step_count _ _ Hn). cbn [mbind result_bind].
    pose proof (read_ints d signed n Hn Hsize unpack padding values chunks
                  Hunpack Hall [] 0%nat [] eq_refl) as Hread.
    cbn [app] in Hread. rewrite Hsize in Hread. rewrite Hread. reflexivity.
  - clear -Hall. induction Hall as [| v c vs cs (z & -> & _) _ IH];
      constructor; [by exists z | done].
Qed.

Lemma int_sections_read_back_witness :
  let writer (d : M3StructureDescription) (v : value) (buf : list Z) (off : Z) :=
    bs ← struct_pack_int true 4 v; pack_into buf off bs in
  let unpack (bs : list Z) :=
    if (length bs =? 4)%nat then Ok (VInt (struct_unpack_int true bs))
    else Raise StructError in
  instancesToBytes writer example_I32 (VList [VInt (-2); VInt 7])
  = Ok [254; 255; 255; 255; 7; 0; 0; 0]
  ∧ createInstances (λ _, Some unpack) (λ _ _ _ _, Raise TypeError) example_I32
      ([254; 255; 255; 255; 7; 0; 0; 0] ++ [170; 170; 170; 170; 170; 170; 170; 170])
      2 true
    = Ok (VList [VInt (-2); VInt 7]).
Proof.
  intros writer unpack. split; [reflexivity |].
  exact (proj1 (int_sections_read_back writer (λ _, Some unpack)
           (λ _ _ _ _, Raise TypeError) example_I32 _ [] "value" T_int32 None
           None 0 None ∅ true 4 unpack [VInt (-2); VInt 7]
           [254; 255; 255; 255; 7; 0; 0; 0]
           [170; 170; 170; 170; 170; 170; 170; 170] true
           eq_refl eq_refl eq_refl eq_refl eq_refl eq_refl eq_refl
           (λ _ _ _, eq_refl) eq_refl (λ _, eq_refl) eq_refl)).
Defined.

Lemma TagField_write_read_witness :
  ∃ buffer : list Z,
    TagField_writeToBuffer example_tagField (example_tagOwner "MD34")
      [9; 0; 0; 0; 0; 9] 1 = Ok buffer
    ∧ TagField_readFromBuffer example_tagField (example_tagOwner "MD34")
        buffer 1 true
      = Ok (example_tagOwner "MD34").
Proof.
  exists [9; 0x34; 0x33; 0x44; 0x4D; 9]. split; [reflexivity |].
  apply (TagField_write_read example_tagField (example_tagOwner "MD34")
           [9] [0; 0; 0; 0] [9] "MD34" _ true eq_refl eq_refl).
  - left. exists "M"%char, "D"%char, "3"%char, "4"%char.
    split; [reflexivity | discriminate].
  - reflexivity.
Defined.

Lemma getVersion_cache_wf_witness :
  cache_wf (getVersion example_history 1).2
  ∧ versionToStructureDescriptionMap (getVersion example_history 1).2 !! 1
    = Some (Build_M3StructureDescription "DEMO" 1
              (allFields example_history) 12).
Proof.
  split; [| reflexivity].
  destruct (getVersion example_history 1) as [r h'] eqn:E.
  exact (getVersion_cache_wf example_history h' 1 r
           (cache_wf_init _ _ _) E).
Defined.

(** ** The size check of a section *)

Lemma pack_into_length (buf bs buf' : list Z) (off : Z) :
  pack_into buf off bs = Ok buf' → length buf' = length buf.
Proof.
  unfold pack_into.
  destruct (Z.leb_spec 0 off); [| done].
  destruct (Z.leb_spec (off + Z.of_nat (length bs)) (Z.of_nat (length buf)));
    [| done].
  cbn [andb]. intros [= <-].
  rewrite !length_app, length_take, length_drop. lia.
Qed.

Lemma example_writer_length (d : M3StructureDescription) (v : value)
    (buf : list Z) (off : Z) (buf' : list Z) :
  example_writer d v buf off = Ok buf' → length buf' = length buf.
Proof.
  unfold example_writer. destruct v; try done.
  destruct (pack_B _) as [bs |]; [| done]. cbn [mbind result_bind].
  apply pack_into_length.
Qed.

(** X15: with a writer of instances that leaves the length of the buffer
    alone, as [pack_into] does, and bytes that take one byte each, the size
    check of [determineFieldRawBytes] never fails: the call raises only what
    [instancesToBytes] raises, and once that has returned bytes it returns
    and leaves the section with nothing changed but [rawBytes], which
    then holds bytes that start with those bytes and have the valid
    section size of their length. *)
Theorem determineFieldRawBytes_size_check_passes
    (writeToBuffer : M3StructureDescription → value → list Z → Z → result (list Z))
    (self : Section) (d : M3StructureDescription) :
  (∀ d v buf off buf',
     writeToBuffer d v buf off = Ok buf' → length buf' = length buf) →
  sectionDescription self = Some d →
  (structureName d = "U8__"%string → size d = 1) →
  match determineRawBytesWithData writeToBuffer self with
  | Raise e => determineFieldRawBytes writeToBuffer self = Raise e
  | Ok minRawBytes =>
      ∃ (raw : list Z) (self' : Section),
        determineFieldRawBytes writeToBuffer self = Ok self'
        ∧ self' = set_rawBytes self raw
        ∧ rawBytes self' = Some raw
        ∧ timesReferenced self' = timesReferenced self
        ∧ indexEntry self' = indexEntry self
        ∧ sectionDescription self' = sectionDescription self
        ∧ content self' = content self
        ∧ Z.of_nat (length raw)
          = increaseToValidSectionSize (Z.of_nat (length minRawBytes))
        ∧ take (length minRawBytes) raw = minRawBytes
  end.
Proof.
  intros Hwriter Hd Hu8.
  destruct (determineRawBytesWithData writeToBuffer self) as [minRawBytes | e]
    eqn:Hdata.
  2: { unfold determineFieldRawBytes. by rewrite Hdata. }
  assert (bytesRequiredForContent self = Ok (Z.of_nat (length minRawBytes)))
    as Hreq.
  { unfold determineRawBytesWithData in Hdata. unfold bytesRequiredForContent.
    rewrite Hd in Hdata |- *. cbn [or_raise mbind result_bind] in Hdata |- *.
    destruct (content self) as [c |]; [| done].
    cbn [or_raise mbind result_bind] in Hdata |- *.
    by eapply instancesToBytes_length. }
  assert (∃ self', determineFieldRawBytes writeToBuffer self = Ok self')
    as [self' Hrun].
  { unfold determineFieldRawBytes. rewrite Hdata, Hreq.
    cbn [mbind result_bind]. rewrite Z.eqb_refl. cbn [negb].
    pose proof (increaseToValidSectionSize_spec (Z.of_nat (length minRawBytes)))
      as [_ Hrange].
    set (n := length minRawBytes) in *.
    set (sectionSize := increaseToValidSectionSize (Z.of_nat n)) in *.
    destruct (Z.eqb_spec (Z.of_nat n) sectionSize) as [E | E]; [by eexists |].
    unfold bytearray. destruct (Z.ltb_spec sectionSize 0) as [| _]; [lia |].
    cbn [mbind result_bind].
    destruct (slice_assign_prefix (Z.to_nat sectionSize) minRawBytes)
      as [Hl0 _]; [fold n; lia |].
    rewrite range_seq by lia. rewrite Nat2Z.id.
    destruct (fill_loop (Z.to_nat (sectionSize - Z.of_nat n)) n
                (slice_assign (replicate (Z.to_nat sectionSize) 0) 0 n minRawBytes))
      as (raw & Hfill & _); [fold n in Hl0; lia |].
    rewrite Hfill. cbn [mbind result_bind]. by eexists. }
  destruct (determineFieldRawBytes_inv _ _ _ Hrun)
    as (minRawBytes' & raw & Hdata' & _ & -> & Hlen & Htake).
  rewrite Hdata in Hdata'. injection Hdata' as <-.
  exists raw, (set_rawBytes self raw). split; [exact Hrun |].
  do 6 (split; [reflexivity |]). done.
Qed.

Lemma determineFieldRawBytes_size_check_passes_witness :
  ∃ (raw : list Z) (self' : Section),
    determineFieldRawBytes example_writer example_bytesSection = Ok self'
    ∧ rawBytes self' = Some raw
    ∧ content self' = content example_bytesSection
    ∧ Z.of_nat (length raw) = 16
    ∧ take 3 raw = [1; 2; 255].
Proof.
  destruct (determineFieldRawBytes_size_check_passes example_writer
              example_bytesSection example_U8 example_writer_length eq_refl
              (λ _, eq_refl))
    as (raw & self' & Hrun & _ & Hraw & _ & _ & _ & Hcontent & Hlen & Htake).
  exists raw, self'. split; [exact Hrun |]. split; [exact Hraw |].
  split; [exact Hcontent |]. split; [exact Hlen | exact Htake].
Defined.
